(** * forte-admin: the PDF-to-FAISS indexing script [admin.py]

    A shallow embedding of [src/admin.py] and the properties of its
    indexing pipeline.

    The script is a sequence of calls to external collaborators (the S3
    client, the Bedrock embedding client, the PDF loader, the text splitter,
    the FAISS store and the Streamlit front-end) glued by Python control
    flow: [try]/[except], early [return], a [for] loop and truthiness tests.
    The embedding keeps that shape:

    - a [World] holds everything the script can observe or change: the
      process environment, the buckets of the object store, the local
      scratch files under [/tmp], the operator's widget inputs, and a
      [trace] of every external call and every front-end report;
    - a computation is a function [World -> result A * World] (state plus
      Python exceptions), with [try_except] for the handlers;
    - an external call may fail for reasons the script cannot see: the
      world carries the list of [pending_faults], one slot per external
      call still to come, and a call whose slot holds an exception raises
      it without any other effect.  A failure in the model is one that
      reaches the script, after whatever the SDK did below that call. *)

From Stdlib Require Import ZArith String Ascii List Lia.
From stdpp Require Import base option gmap strings list pretty sorting.

Local Open Scope string_scope.
Local Open Scope list_scope.
Local Open Scope Z_scope.

(** ** Strings, as Python uses them here *)

Module Py.

(** [c.lower()] on one character.  Keys are byte strings; only the ASCII
    letters change, which is all that [endswith('.pdf')] can observe. *)
Definition lower_ascii (c : ascii) : ascii :=
  let n := nat_of_ascii c in
  if ((65 <=? n) && (n <=? 90))%nat then ascii_of_nat (n + 32) else c.

(** [s.lower()] *)
Fixpoint lower (s : string) : string :=
  match s with
  | EmptyString => EmptyString
  | String c r => String (lower_ascii c) (lower r)
  end.

(** [s.endswith(suffix)] *)
Definition endswith (s suffix : string) : bool :=
  let n := String.length s in
  let k := String.length suffix in
  if (k <=? n)%nat then String.eqb (substring (n - k) k s) suffix else false.

(** [s.startswith(p)], also the rule by which the store matches [Prefix]. *)
Definition startswith (s p : string) : bool := String.prefix p s.

(** [os.path.basename(p)]: what follows the last slash. *)
Fixpoint basename_from (acc p : string) : string :=
  match p with
  | EmptyString => acc
  | String c r =>
      if Ascii.eqb c "/" then basename_from EmptyString r
      else basename_from (acc +:+ String c EmptyString) r
  end.

Definition basename (p : string) : string := basename_from EmptyString p.

(** [os.path.join(a, b)] for two components. *)
Definition path_join (a b : string) : string :=
  if startswith b "/" then b
  else if endswith a "/" || String.eqb a "" then a +:+ b
  else a +:+ "/" +:+ b.

(** [s[:n]] and [s[n:]] *)
Definition take (n : nat) (s : string) : string := substring 0 n s.
Definition drop (n : nat) (s : string) : string :=
  substring n (String.length s - n) s.

End Py.

(** ** Exceptions and results *)

(** The exception classes the script tells apart: [ClientError] (with the
    [e.response['Error']['Code']] it reads) against every other subclass of
    [Exception].  A [ClientError] also carries what botocore prints of it:
    the message of the service, the name of the operation that failed and,
    when the SDK gave up after its own attempts, their number. *)
Inductive exn : Type :=
| ClientError (code message operation_name : string) (max_retries_reached : option nat)
| ValueError (message : string)
| IndexError (message : string)
| FileNotFoundError (message : string)
| OtherException (class_name message : string).

(** [str(e)]; for a [ClientError], botocore's message template. *)
Definition exn_str (e : exn) : string :=
  match e with
  | ClientError code message operation_name max_retries_reached =>
      "An error occurred (" +:+ code +:+ ") when calling the " +:+ operation_name
      +:+ " operation"
      +:+ match max_retries_reached with
          | Some attempts => " (reached max retries: " +:+ pretty attempts +:+ ")"
          | None => ""
          end
      +:+ ": " +:+ message
  | ValueError message | IndexError message | FileNotFoundError message => message
  | OtherException _ message => message
  end.

Inductive result (A : Type) : Type :=
| Ok (a : A)
| Raise (e : exn).
Arguments Ok {A} a.
Arguments Raise {A} e.

(** ** Data *)

(** A langchain [Document]: text plus provenance. *)
Record Document : Type := mkDocument {
  page_content : string;
  source : string;
  page : nat }.

(** An embedding vector; its components never enter a decision of the
    script, so they are kept as integers. *)
Definition Vector : Type := list Z.

(** The in-memory FAISS store: the vectors and the parallel docstore. *)
Record VectorStore : Type := mkVectorStore {
  vs_index : list Vector;
  vs_docstore : list Document }.

(** What [list_objects_v2] answers: one page of keys, and whether the
    store holds more of them than the page. *)
Record S3Object : Type := mkS3Object { Key : string }.
Record ListObjectsV2Output : Type := mkListing {
  Contents : option (list S3Object);
  IsTruncated : bool }.

(** The four options of the radio widget. *)
Inductive StyleChoice : Type := EmailStyle | NormalStyle | ReportStyle | FeedbackStyle.

Definition style_label (c : StyleChoice) : string :=
  match c with
  | EmailStyle => "Email Style"
  | NormalStyle => "Normal Style"
  | ReportStyle => "Report Style"
  | FeedbackStyle => "Feedback Style"
  end.

(** ** The world *)

Inductive ui_kind : Type :=
  UiTitle | UiWrite | UiSuccess | UiError | UiWarning | UiRadio | UiButton | UiExpander.

(** One entry per external call (logged when the call is made, whether or
    not it then succeeds) and per front-end report. *)
Inductive event : Type :=
| EvHeadBucket (bucket : string)
| EvCreateBucket (bucket : string)
| EvListObjects (bucket prefix : string)
| EvDownload (bucket key filename : string)
| EvUpload (filename bucket key : string)
| EvPdfLoad (filename : string)
| EvSplit (chunk_size chunk_overlap : Z) (documents : nat)
| EvEmbed (text : string)
| EvSaveLocal (folder_path index_name : string)
| EvUi (kind : ui_kind) (message : string).

Record World : Type := mkWorld {
  os_environ : gmap string string;          (* the process environment *)
  dotenv_file : gmap string string;         (* the settings in [.env] *)
  s3 : gmap string (gmap string string);    (* bucket name -> key -> bytes *)
  tmp_files : gmap string string;           (* local path -> bytes *)
  ui_radio : StyleChoice;                   (* the operator's selection *)
  ui_button : bool;                         (* whether the button was pressed *)
  pending_faults : list (option exn);       (* one slot per external call to come *)
  trace : list event }.

Definition with_environ (e : gmap string string) (w : World) : World :=
  mkWorld e (dotenv_file w) (s3 w) (tmp_files w) (ui_radio w) (ui_button w)
          (pending_faults w) (trace w).
Definition with_s3 (b : gmap string (gmap string string)) (w : World) : World :=
  mkWorld (os_environ w) (dotenv_file w) b (tmp_files w) (ui_radio w) (ui_button w)
          (pending_faults w) (trace w).
Definition with_tmp (t : gmap string string) (w : World) : World :=
  mkWorld (os_environ w) (dotenv_file w) (s3 w) t (ui_radio w) (ui_button w)
          (pending_faults w) (trace w).
Definition with_faults (f : list (option exn)) (w : World) : World :=
  mkWorld (os_environ w) (dotenv_file w) (s3 w) (tmp_files w) (ui_radio w) (ui_button w)
          f (trace w).
Definition log (ev : event) (w : World) : World :=
  mkWorld (os_environ w) (dotenv_file w) (s3 w) (tmp_files w) (ui_radio w) (ui_button w)
          (pending_faults w) (trace w ++ [ev]).

(** The events a run added to the trace. *)
Definition events_since (w w' : World) : list event :=
  List.skipn (length (trace w)) (trace w').

(** ** Computations *)

Definition M (A : Type) : Type := World -> result A * World.

Definition ret {A} (a : A) : M A := fun w => (Ok a, w).
Definition raise {A} (e : exn) : M A := fun w => (Raise e, w).
Definition bind {A B} (m : M A) (k : A -> M B) : M B := fun w =>
  match m w with
  | (Ok a, w') => k a w'
  | (Raise e, w') => (Raise e, w')
  end.

(** [x ← m; k] and [m;; k] in the syntax stdpp uses for its monads. *)
Declare Scope py_scope.
Delimit Scope py_scope with py.
Notation "x ← y ; z" := (bind y (fun x => z))
  (at level 20, y at level 100, z at level 200, only parsing) : py_scope.
Notation "x ;; z" := (bind x (fun _ => z))
  (at level 100, z at level 200, only parsing, right associativity) : py_scope.
Local Open Scope py_scope.

(** [try: body except <class> as e: handler].  A handler clause answers
    [None] for an exception outside its class, which then propagates. *)
Definition try_except {A} (body : M A) (clause : exn -> option (M A)) : M A := fun w =>
  match body w with
  | (Ok a, w') => (Ok a, w')
  | (Raise e, w') =>
      match clause e with
      | Some handler => handler w'
      | None => (Raise e, w')
      end
  end.

(** [except Exception as e] *)
Definition except_Exception {A} (handler : exn -> M A) : exn -> option (M A) :=
  fun e => Some (handler e).

(** [except s3_client.exceptions.ClientError as e]; the handler receives
    [e] and [e.response['Error']['Code']]. *)
Definition except_ClientError {A} (handler : exn -> string -> M A) : exn -> option (M A) :=
  fun e =>
    match e with
    | ClientError code _ _ _ => Some (handler e code)
    | _ => None
    end.

(** An external call: it is logged and consumes its fault slot, and then
    either raises the injected exception or behaves as the service does. *)
Definition next_fault (w : World) : option exn :=
  match pending_faults w with
  | Some e :: _ => Some e
  | _ => None
  end.

Definition called (ev : event) (w : World) : World :=
  with_faults (tail (pending_faults w)) (log ev w).

Definition external {A} (ev : event) (service : M A) : M A := fun w =>
  match next_fault w with
  | Some e => (Raise e, called ev w)
  | None => service (called ev w)
  end.

(** ** The Streamlit front-end *)

Module st.
Definition report (k : ui_kind) (msg : string) : M unit :=
  fun w => (Ok tt, log (EvUi k msg) w).
Definition title := report UiTitle.
Definition write := report UiWrite.
Definition success := report UiSuccess.
Definition error := report UiError.
Definition warning := report UiWarning.
Definition expander := report UiExpander.
Definition radio (label : string) : M StyleChoice :=
  fun w => (Ok (ui_radio w), log (EvUi UiRadio label) w).
Definition button (label : string) : M bool :=
  fun w => (Ok (ui_button w), log (EvUi UiButton label) w).
End st.

(** ** The object store, as the boto3 client presents it *)

(** The order of a listing: keys ascend by their bytes (UTF-8 binary
    order). *)
Definition key_le (a b : string) : Prop := String.leb a b = true.

#[global] Instance key_le_dec : RelDecision key_le :=
  fun a b => bool_eq_dec (String.leb a b) true.

(** The strict order, as a test. *)
Definition key_ltb (a b : string) : bool := String.ltb a b.

Module s3_client.

(** The most keys one response holds when the caller passes no [MaxKeys]. *)
Definition MaxKeys : nat := 1000.

(** The keys of [objects] that start with [Prefix], in listing order. *)
Definition keys_under (Prefix : string) (objects : gmap string string) : list string :=
  merge_sort key_le (List.filter (fun k => Py.startswith k Prefix)
                                 (List.map fst (map_to_list objects))).

Definition head_bucket (Bucket : string) : M unit :=
  external (EvHeadBucket Bucket) (fun w =>
    match s3 w !! Bucket with
    | Some _ => (Ok tt, w)
    | None => (Raise (ClientError "404" "Not Found" "HeadBucket" None), w)
    end).

Definition create_bucket (Bucket : string) : M unit :=
  external (EvCreateBucket Bucket) (fun w =>
    match s3 w !! Bucket with
    | Some _ => (Ok tt, w)
    | None => (Ok tt, with_s3 (<[Bucket := ∅]> (s3 w)) w)
    end).

(** One call without [ContinuationToken]: the first response page, which
    holds the first [MaxKeys] keys of the bucket that start with [Prefix],
    in listing order; [Contents] is absent when there are none, and
    [IsTruncated] tells that more keys follow. *)
Definition list_objects_v2 (Bucket Prefix : string) : M ListObjectsV2Output :=
  external (EvListObjects Bucket Prefix) (fun w =>
    match s3 w !! Bucket with
    | None =>
        (Raise (ClientError "NoSuchBucket" "The specified bucket does not exist"
                            "ListObjectsV2" None), w)
    | Some objects =>
        let keys := keys_under Prefix objects in
        let page := take MaxKeys keys in
        (Ok (mkListing (match page with
                        | [] => None
                        | _ :: _ => Some (List.map mkS3Object page)
                        end)
                       (MaxKeys <? length keys)%nat), w)
    end).

Definition download_file (Bucket Key Filename : string) : M unit :=
  external (EvDownload Bucket Key Filename) (fun w =>
    match (s3 w !! Bucket) ≫= (fun objects => objects !! Key) with
    | Some bytes => (Ok tt, with_tmp (<[Filename := bytes]> (tmp_files w)) w)
    | None => (Raise (ClientError "404" "Not Found" "HeadObject" None), w)
    end).

Definition upload_file (Filename Bucket Key : string) : M unit :=
  external (EvUpload Filename Bucket Key) (fun w =>
    match tmp_files w !! Filename with
    | None =>
        (Raise (FileNotFoundError ("[Errno 2] No such file or directory: '"
                                   +:+ Filename +:+ "'")), w)
    | Some bytes =>
        match s3 w !! Bucket with
        | None =>
            (Raise (OtherException "S3UploadFailedError"
                      ("Failed to upload " +:+ Filename +:+ " to " +:+ Bucket +:+ "/"
                       +:+ Key +:+ ": "
                       +:+ exn_str (ClientError "NoSuchBucket"
                                                "The specified bucket does not exist"
                                                "PutObject" None))), w)
        | Some objects =>
            (Ok tt, with_s3 (<[Bucket := <[Key := bytes]> objects]> (s3 w)) w)
        end
    end).

End s3_client.

(** ** The libraries and the script *)

Section Services.

(** What the external libraries compute when they do not fail.  Their
    code is not part of the repository, so they are parameters:
    - [pypdf_pages filename bytes]: the documents [PyPDFLoader] extracts
      from a file, [None] for bytes it cannot read;
    - [split_documents chunk_size chunk_overlap pages]: what
      [RecursiveCharacterTextSplitter(...).split_documents] returns or
      raises;
    - [titan_embed text]: the vector of the embedding model;
    - [faiss_write_index], [pickle_dumps]: the bytes [save_local] writes. *)
Variable pypdf_pages : string -> string -> option (list Document).
Variable split_documents : Z -> Z -> list Document -> result (list Document).
Variable titan_embed : string -> Vector.
Variable faiss_write_index : list Vector -> string.
Variable pickle_dumps : list Document -> string.

(** [PyPDFLoader(local_file).load_and_split()] *)
Definition PyPDFLoader_load_and_split (file_path : string) : M (list Document) :=
  external (EvPdfLoad file_path) (fun w =>
    match tmp_files w !! file_path with
    | None => (Raise (ValueError ("File path " +:+ file_path +:+ " is not a valid file or url")), w)
    | Some bytes =>
        match pypdf_pages file_path bytes with
        | Some pages => (Ok pages, w)
        | None => (Raise (OtherException "PdfReadError" "invalid pdf"), w)
        end
    end).

(** [RecursiveCharacterTextSplitter(chunk_size=..., chunk_overlap=...)
    .split_documents(pages)]: a computation inside the process. *)
Definition RecursiveCharacterTextSplitter_split_documents
    (chunk_size chunk_overlap : Z) (pages : list Document) : M (list Document) :=
  fun w => (split_documents chunk_size chunk_overlap pages,
            log (EvSplit chunk_size chunk_overlap (length pages)) w).

(** One request to the embedding provider. *)
Definition bedrock_embed_query (text : string) : M Vector :=
  external (EvEmbed text) (ret (titan_embed text)).

(** [bedrock_embeddings.embed_documents(texts)]: one request per text, in
    order; the first exception ends it. *)
Fixpoint bedrock_embed_documents (texts : list string) : M (list Vector) :=
  match texts with
  | [] => ret []
  | text :: rest =>
      v ← bedrock_embed_query text;
      vs ← bedrock_embed_documents rest;
      ret (v :: vs)
  end.

(** [FAISS.from_documents(documents, bedrock_embeddings)].  The index
    takes its dimension from the first vector, so an empty document list
    is an [IndexError]. *)
Definition FAISS_from_documents (documents : list Document) : M VectorStore :=
  embeddings ← bedrock_embed_documents (List.map page_content documents);
  match embeddings with
  | [] => raise (IndexError "list index out of range")
  | _ => ret (mkVectorStore embeddings documents)
  end.

(** [vectorstore.save_local(index_name=..., folder_path=...)] *)
Definition FAISS_save_local (vs : VectorStore) (index_name folder_path : string) : M unit :=
  external (EvSaveLocal folder_path index_name) (fun w =>
    (Ok tt,
     with_tmp (<[Py.path_join folder_path (index_name +:+ ".pkl") := pickle_dumps (vs_docstore vs)]>
               (<[Py.path_join folder_path (index_name +:+ ".faiss") := faiss_write_index (vs_index vs)]>
                (tmp_files w))) w)).

Section Script.

(** The module global set at import time. *)
Variable BUCKET_NAME : string.

(** admin.py, lines 17-34.  Each [return False] is the value of its
    handler; falling out of the [try] statement reaches [return True]. *)
Definition ensure_bucket_exists : M bool :=
  try_except
    (s3_client.head_bucket BUCKET_NAME;;
     ret true)
    (except_ClientError (fun e error_code =>
       if String.eqb error_code "404" then
         try_except
           (s3_client.create_bucket BUCKET_NAME;;
            st.success ("Created new S3 bucket: " +:+ BUCKET_NAME);;
            ret true)
           (except_Exception (fun create_error =>
              st.error ("Failed to create S3 bucket: " +:+ exn_str create_error);;
              ret false))
       else
         st.error ("Error checking S3 bucket: " +:+ exn_str e);;
         ret false)).

(** admin.py, lines 58-61 *)
Definition split_text (pages : list Document) (chunk_size chunk_overlap : Z)
  : M (list Document) :=
  docs ← RecursiveCharacterTextSplitter_split_documents chunk_size chunk_overlap pages;
  ret docs.

(** admin.py, lines 64-95 *)
Definition create_vector_store (style_key : string) (documents : list Document) : M bool :=
  vectorstore_faiss ← FAISS_from_documents documents;
  let folder_path := "/tmp/" in
  let faiss_index_name := "my_faiss_" +:+ style_key in
  let faiss_index_file := faiss_index_name +:+ ".faiss" in
  let faiss_pkl_file := faiss_index_name +:+ ".pkl" in
  FAISS_save_local vectorstore_faiss faiss_index_name folder_path;;
  try_except
    (s3_client.upload_file (Py.path_join folder_path faiss_index_file)
                           BUCKET_NAME faiss_index_file;;
     s3_client.upload_file (Py.path_join folder_path faiss_pkl_file)
                           BUCKET_NAME faiss_pkl_file;;
     ret true)
    (except_Exception (fun e =>
       st.error ("Error uploading to S3: " +:+ exn_str e);;
       ret false)).

(** The test of the list comprehension at lines 106-107. *)
Definition is_pdf_key (k : string) : bool := Py.endswith (Py.lower k) ".pdf".

(** admin.py, lines 97-111 *)
Definition list_pdfs_in_s3 (prefix : string) : M (list string) :=
  try_except
    (response ← s3_client.list_objects_v2 BUCKET_NAME prefix;
     let pdf_files :=
       List.map Key (List.filter (fun obj => is_pdf_key (Key obj))
                                 (default [] (Contents response))) in
     ret pdf_files)
    (except_Exception (fun e =>
       st.error ("Error listing PDFs from S3 for prefix '" +:+ prefix +:+ "': " +:+ exn_str e);;
       ret [])).

(** admin.py, lines 113-126; Python's [None] is Rocq's [None]. *)
Definition download_and_process_pdf (s3_key : string) : M (option (list Document)) :=
  try_except
    (let local_file := "/tmp/" +:+ Py.basename s3_key in
     s3_client.download_file BUCKET_NAME s3_key local_file;;
     pages ← PyPDFLoader_load_and_split local_file;
     ret (Some pages))
    (except_Exception (fun e =>
       st.error ("Error processing " +:+ s3_key +:+ ": " +:+ exn_str e);;
       ret None)).

(** The two dictionaries of [main], keyed by the radio's options. *)
Definition prefix_map (style_choice : StyleChoice) : string :=
  match style_choice with
  | EmailStyle => "mail/"
  | NormalStyle => "normal/"
  | ReportStyle => "report/"
  | FeedbackStyle => "feedback/"
  end.

Definition style_key_map (style_choice : StyleChoice) : string :=
  match style_choice with
  | EmailStyle => "mail"
  | NormalStyle => "normal"
  | ReportStyle => "report"
  | FeedbackStyle => "feedback"
  end.

(** admin.py, lines 175-180: the loop over the listed keys, with
    [all_pages] as accumulator.  [if pages:] holds for a non-empty
    list only, not for [None] and not for [[]]. *)
Fixpoint load_documents (pdf_files : list string) (all_pages : list Document)
  : M (list Document) :=
  match pdf_files with
  | [] => ret all_pages
  | pdf_file :: rest =>
      st.write ("Processing " +:+ pdf_file +:+ "...");;
      pages ← download_and_process_pdf pdf_file;
      match pages with
      | Some ((_ :: _) as pages) =>
          st.write ("Added " +:+ pretty (length pages) +:+ " pages from " +:+ pdf_file);;
          load_documents rest (all_pages ++ pages)
      | _ => load_documents rest all_pages
      end
  end.

(** admin.py, lines 187-192: the sample chunks shown in the expander. *)
Definition show_sample_chunks (splitted_docs : list Document) : M unit :=
  match splitted_docs with
  | [] => ret tt
  | d0 :: more =>
      st.expander "View sample chunks";;
      st.write (page_content d0);;
      match more with
      | d1 :: _ => st.write (page_content d1)
      | [] => ret tt
      end
  end.

(** admin.py, lines 129-162: up to the selection of the style.  [None]
    is the early [return] of line 135. *)
Definition main_select_style : M (option StyleChoice) :=
  st.title "Admin - Process PDFs into FAISS Index by Style";;
  st.write "Process PDFs from specific S3 subfolders to create style-specific embeddings.";;
  ok ← ensure_bucket_exists;
  if negb ok then
    st.error "Failed to ensure S3 bucket exists. Please check your AWS credentials and permissions.";;
    ret None
  else
    style_choice ← st.radio "Select which style you want to process:";
    let selected_prefix := prefix_map style_choice in
    st.write ("You selected: " +:+ style_label style_choice
              +:+ " (S3 prefix: " +:+ selected_prefix +:+ ")");;
    ret (Some style_choice).

(** admin.py, lines 165-201: what [main] does with the listing. *)
Definition main_process (style_choice : StyleChoice) (pdf_files : list string) : M unit :=
  let selected_prefix := prefix_map style_choice in
  let style_key := style_key_map style_choice in
  match pdf_files with
  | [] =>
      st.warning ("No PDF files found in S3 bucket under prefix: " +:+ selected_prefix);;
      ret tt
  | _ :: _ =>
      st.write ("Found " +:+ pretty (length pdf_files) +:+ " PDF files in S3 for this style.");;
      pressed ← st.button ("Process PDFs for " +:+ style_label style_choice);
      if pressed then
        all_pages ← load_documents pdf_files [];
        match all_pages with
        | [] => ret tt
        | _ :: _ =>
            splitted_docs ← split_text all_pages 1000 200;
            st.write ("Total chunks created: " +:+ pretty (length splitted_docs));;
            show_sample_chunks splitted_docs;;
            st.write ("Creating the Vector Store for " +:+ style_label style_choice +:+ "...");;
            result ← create_vector_store style_key splitted_docs;
            if result then
              st.success ("PDFs processed and FAISS index created successfully for "
                          +:+ style_label style_choice +:+ "!")
            else
              st.error "Error creating vector store. Please check logs."
        end
      else ret tt
  end.

(** admin.py, lines 128-201 *)
Definition main : M unit :=
  selected ← main_select_style;
  match selected with
  | None => ret tt
  | Some style_choice =>
      pdf_files ← list_pdfs_in_s3 (prefix_map style_choice);
      main_process style_choice pdf_files
  end.

End Script.

(** [load_dotenv()]: settings of [.env] that the environment lacks. *)
Definition load_dotenv : M unit :=
  fun w => (Ok tt, with_environ (os_environ w ∪ dotenv_file w) w).

(** [os.getenv(name)] *)
Definition os_getenv (name : string) : M (option string) :=
  fun w => (Ok (os_environ w !! name), w).

(** admin.py run as a script: lines 8-14 at import, then line 204.
    [not BUCKET_NAME] holds for [None] and for the empty string. *)
Definition admin_module : M unit :=
  load_dotenv;;
  BUCKET_NAME ← os_getenv "BUCKET_NAME";
  match BUCKET_NAME with
  | Some (String _ _ as name) => main name
  | _ => raise (ValueError "BUCKET_NAME environment variable is not set")
  end.

End Services.

(** ** The chunker of the specification *)

Module SpecChunker.

(** Modelled from the spec: the windows of one page's text.  The text
    splitter behind [split_text] is langchain's
    [RecursiveCharacterTextSplitter], whose code is not under [src/]; the
    spec's section 4.3 describes it as a chunker in which no chunk exceeds
    [chunk_size] and each chunk after the first repeats the trailing
    [chunk_overlap] characters of the previous one, an empty page yields no
    chunk and trailing content is never dropped.  [size] is the chunk
    size and [step] is [chunk_size - chunk_overlap], the distance between
    the starts of consecutive chunks. *)
Fixpoint windows (fuel size step : nat) (text : string) : list string :=
  match fuel with
  | O => []
  | S fuel' =>
      match text with
      | EmptyString => []
      | String _ _ =>
          if (String.length text <=? size)%nat then [text]
          else Py.take size text :: windows fuel' size step (Py.drop step text)
      end
  end.

(** Modelled from the spec: the chunks of one page, each carrying the
    provenance of the page it comes from (section 3, Chunk). *)
Definition split_page (chunk_size chunk_overlap : nat) (p : Document) : list Document :=
  List.map (fun c => mkDocument c (source p) (page p))
           (windows (String.length (page_content p)) chunk_size
                    (chunk_size - chunk_overlap) (page_content p)).

(** Modelled from the spec: [split(pages, chunk_size, chunk_overlap)] of
    section 4.3, page by page and in order; the parameters must satisfy
    the invariant [chunk_overlap < chunk_size] of section 3. *)
Definition split_documents (chunk_size chunk_overlap : Z) (pages : list Document)
  : result (list Document) :=
  if (0 <=? chunk_overlap) && (chunk_overlap <? chunk_size) then
    Ok (List.flat_map (split_page (Z.to_nat chunk_size) (Z.to_nat chunk_overlap)) pages)
  else
    Raise (ValueError "chunk_overlap must be smaller than chunk_size").

End SpecChunker.

(** ** Observations on a run *)

(** The keys of the upload attempts, the keys of the download attempts and
    the texts of the embedding requests among some events, in order. *)
Definition uploads (evs : list event) : list string :=
  omap (fun ev => match ev with EvUpload _ _ key => Some key | _ => None end) evs.

Definition downloads (evs : list event) : list string :=
  omap (fun ev => match ev with EvDownload _ key _ => Some key | _ => None end) evs.

Definition embed_requests (evs : list event) : list string :=
  omap (fun ev => match ev with EvEmbed text => Some text | _ => None end) evs.

(** The events of the phases that follow the listing. *)
Definition is_processing_event (ev : event) : bool :=
  match ev with
  | EvDownload _ _ _ | EvUpload _ _ _ | EvPdfLoad _ | EvSplit _ _ _
  | EvEmbed _ | EvSaveLocal _ _ => true
  | _ => false
  end.

(** The events of the listing phase and of everything after it. *)
Definition is_pipeline_event (ev : event) : bool :=
  match ev with
  | EvListObjects _ _ => true
  | _ => is_processing_event ev
  end.

(** The keys of the bucket that start with the prefix, as stored. *)
Definition listed_keys (prefix : string) (objects : gmap string string) : list string :=
  List.filter (fun k => Py.startswith k prefix) (List.map fst (map_to_list objects)).

(** What a reader of [bucket] finds under [key]. *)
Definition published (bucket : string) (w : World) (key : string) : option string :=
  (s3 w !! bucket) ≫= (fun objects => objects !! key).

(** The two artifact keys of a style, as [create_vector_store] names them. *)
Definition faiss_index_file (style_key : string) : string :=
  "my_faiss_" +:+ style_key +:+ ".faiss".
Definition faiss_pkl_file (style_key : string) : string :=
  "my_faiss_" +:+ style_key +:+ ".pkl".

(** The first injected fault among the next [n] external calls, with the
    position of the call it hits. *)
Fixpoint first_fault (n : nat) (faults : list (option exn)) : option (nat * exn) :=
  match n, faults with
  | O, _ => None
  | S _, [] => None
  | S _, Some e :: _ => Some (O, e)
  | S n', None :: rest =>
      match first_fault n' rest with
      | Some (i, e) => Some (S i, e)
      | None => None
      end
  end.

(** The world after [n] external calls and the events [evs], none of which
    changed a store. *)
Definition advance (n : nat) (evs : list event) (w : World) : World :=
  mkWorld (os_environ w) (dotenv_file w) (s3 w) (tmp_files w) (ui_radio w) (ui_button w)
          (drop n (pending_faults w)) (trace w ++ evs).

(** What [main] reports before it checks the bucket (lines 129-130). *)
Definition banner : list event :=
  [EvUi UiTitle "Admin - Process PDFs into FAISS Index by Style";
   EvUi UiWrite "Process PDFs from specific S3 subfolders to create style-specific embeddings."].

(** What it reports when the check fails (line 134) and around the
    selection of a style (lines 138-162). *)
Definition bucket_failure : event :=
  EvUi UiError "Failed to ensure S3 bucket exists. Please check your AWS credentials and permissions.".

Definition selection (style_choice : StyleChoice) : list event :=
  [EvUi UiRadio "Select which style you want to process:";
   EvUi UiWrite ("You selected: " +:+ style_label style_choice
                 +:+ " (S3 prefix: " +:+ prefix_map style_choice +:+ ")")].

(** No event of the listing phase or of a later phase. *)
Definition no_pipeline_event (evs : list event) : Prop :=
  forallb (fun ev => negb (is_pipeline_event ev)) evs = true.

(** No event of a phase after the listing: no download, no extraction, no
    chunking, no embedding, no saving, no upload. *)
Definition no_processing_event (evs : list event) : Prop :=
  forallb (fun ev => negb (is_processing_event ev)) evs = true.

(** The warning of line 166. *)
Definition no_pdf_warning (style_choice : StyleChoice) : event :=
  EvUi UiWarning ("No PDF files found in S3 bucket under prefix: " +:+ prefix_map style_choice).

(** The report of line 110. *)
Definition listing_error (prefix : string) (e : exn) : event :=
  EvUi UiError ("Error listing PDFs from S3 for prefix '" +:+ prefix +:+ "': " +:+ exn_str e).

(** The pages of the document stored under [key], as the loader reads
    them once the object is downloaded: none for a missing object and none
    for bytes that cannot be read. *)
Definition readable_pages (pypdf_pages : string -> string -> option (list Document))
    (bucket : string) (w : World) (key : string) : list Document :=
  match published bucket w key with
  | Some bytes => default [] (pypdf_pages ("/tmp/" +:+ Py.basename key) bytes)
  | None => []
  end.

(** The report of line 125. *)
Definition processing_error (s3_key message : string) : event :=
  EvUi UiError ("Error processing " +:+ s3_key +:+ ": " +:+ message).

(** ** What a computation may do *)

(** The calls a run may make for the bucket [bucket], the listing prefix
    [prefix] and the style key [style_key]: storage calls on that bucket
    only, listings of that prefix only, downloads into [/tmp] under the
    base name of the key, uploads of the two artifact files of the style
    from their local copies only, chunking with 1000 and 200 only. *)
Definition allowed_event (bucket prefix style_key : string) (ev : event) : bool :=
  match ev with
  | EvHeadBucket b | EvCreateBucket b => String.eqb b bucket
  | EvListObjects b p => String.eqb b bucket && String.eqb p prefix
  | EvDownload b key filename =>
      String.eqb b bucket && String.eqb filename ("/tmp/" +:+ Py.basename key)
  | EvUpload filename b key =>
      String.eqb b bucket
      && (String.eqb key (faiss_index_file style_key)
          || String.eqb key (faiss_pkl_file style_key))
      && String.eqb filename ("/tmp/" +:+ key)
  | EvSplit chunk_size chunk_overlap _ => (chunk_size =? 1000) && (chunk_overlap =? 200)
  | EvSaveLocal folder_path index_name =>
      String.eqb folder_path "/tmp/" && String.eqb index_name ("my_faiss_" +:+ style_key)
  | EvPdfLoad _ | EvEmbed _ | EvUi _ _ => true
  end.

(** The objects a run for [style_key] may write: the two artifact files
    of the style in [bucket]. *)
Definition artifact_of (bucket style_key : string) (b key : string) : Prop :=
  b = bucket /\ (key = faiss_index_file style_key \/ key = faiss_pkl_file style_key).

(** [w'] comes after [w]: the trace has grown by events that satisfy [P],
    every object outside [W] reads as before, in every bucket, and the
    inputs of the run (widgets, environment) are as they were. *)
Definition frame (P : event -> Prop) (W : string -> string -> Prop) (w w' : World) : Prop :=
  (exists evs, trace w' = trace w ++ evs /\ Forall P evs)
  /\ (forall b key, ~ W b key -> published b w' key = published b w key)
  /\ ui_radio w' = ui_radio w /\ ui_button w' = ui_button w
  /\ os_environ w' = os_environ w /\ dotenv_file w' = dotenv_file w.

(** A computation that keeps within [P] and [W] from every world, whether
    it returns or raises. *)
Definition preserves {A} (P : event -> Prop) (W : string -> string -> Prop) (m : M A) : Prop :=
  forall w, frame P W w (snd (m w)).

(** The PDF keys of a prefix, as stored. *)
Definition pdf_keys (bucket prefix : string) (w : World) : list string :=
  match s3 w !! bucket with
  | Some objects => List.filter is_pdf_key (listed_keys prefix objects)
  | None => []
  end.

(** A key that ends with [.pdf] in some mix of upper and lower case. *)
Definition pdf_suffix (k : string) : Prop :=
  exists stem p d f,
    k = stem +:+ String "." (String p (String d (String f EmptyString)))
    /\ (p = "p" \/ p = "P")%char /\ (d = "d" \/ d = "D")%char /\ (f = "f" \/ f = "F")%char.

(** How many keys of the prefix the store lists before [k]. *)
Definition keys_before (prefix : string) (objects : gmap string string) (k : string) : nat :=
  length (List.filter (fun k' => key_ltb k' k) (listed_keys prefix objects)).

(** The PDF keys of the one response that [list_pdfs_in_s3] reads: those
    among the first [MaxKeys] keys of the prefix, in listing order. *)
Definition first_page_pdf_keys (bucket prefix : string) (w : World) : list string :=
  match s3 w !! bucket with
  | Some objects =>
      List.filter is_pdf_key (take s3_client.MaxKeys (s3_client.keys_under prefix objects))
  | None => []
  end.

(** The error reports among some events, in order. *)
Definition error_reports (evs : list event) : list event :=
  List.filter (fun ev => match ev with EvUi UiError _ => true | _ => false end) evs.

(** ** Loading, document by document *)

Section Outcomes.

Variable pypdf_pages : string -> string -> option (list Document).

(** The fault that meets the [i]-th external call to come, if any. *)
Definition fault_at (i : nat) (faults : list (option exn)) : option exn :=
  default None (faults !! i).

(** What becomes of one document.  [stored] is the object under its key,
    if there is one; [download_fault] and [extraction_fault] are the
    failures that meet its download and its extraction.  The document
    fails when its download fails or finds no object, when its extraction
    fails, or when its bytes cannot be read; otherwise it gives the
    pages the loader reads from its bytes. *)
Definition document_outcome (stored : option string) (local_file : string)
    (download_fault extraction_fault : option exn) : result (list Document) :=
  match download_fault, stored with
  | Some e, _ => Raise e
  | None, None => Raise (ClientError "404" "Not Found" "HeadObject" None)
  | None, Some bytes =>
      match extraction_fault with
      | Some e => Raise e
      | None =>
          match pypdf_pages local_file bytes with
          | Some pages => Ok pages
          | None => Raise (OtherException "PdfReadError" "invalid pdf")
          end
      end
  end.

(** The external calls one document takes: the download, and the
    extraction when the download succeeded. *)
Definition document_calls (stored : option string) (download_fault : option exn) : nat :=
  match download_fault, stored with
  | None, Some _ => 2
  | _, _ => 1
  end.

(** The outcome of every document of [keys], each from the object stored
    under its own key and the faults that meet its own calls: whatever
    became of the documents before it only decides which faults these
    are. *)
Fixpoint outcomes (stored : string -> option string) (faults : list (option exn))
    (keys : list string) : list (string * result (list Document)) :=
  match keys with
  | [] => []
  | key :: rest =>
      (key, document_outcome (stored key) ("/tmp/" +:+ Py.basename key)
                             (fault_at 0 faults) (fault_at 1 faults))
      :: outcomes stored (drop (document_calls (stored key) (fault_at 0 faults)) faults) rest
  end.

End Outcomes.

(** The pages a document contributes, and the report of its failure. *)
Definition loaded_pages (o : string * result (list Document)) : list Document :=
  match o with
  | (_, Ok pages) => pages
  | (_, Raise _) => []
  end.

Definition failure_report (o : string * result (list Document)) : option event :=
  match o with
  | (key, Raise e) => Some (processing_error key (exn_str e))
  | (_, Ok _) => None
  end.

(** The events of the phases that build and publish the index. *)
Definition is_indexing_event (ev : event) : bool :=
  match ev with
  | EvSplit _ _ _ | EvEmbed _ | EvSaveLocal _ _ | EvUpload _ _ _ => true
  | _ => false
  end.

(** The report of line 199. *)
Definition success_report (style_choice : StyleChoice) : event :=
  EvUi UiSuccess ("PDFs processed and FAISS index created successfully for "
                  +:+ style_label style_choice +:+ "!").

(** A world reached by reporting success right after
    [create_vector_store] returned [True]. *)
Definition reported_after_publication
    (titan_embed : string -> Vector) (faiss_write_index : list Vector -> string)
    (pickle_dumps : list Document -> string) (bucket : string)
    (style_choice : StyleChoice) (w' : World) : Prop :=
  exists chunks w5 w6,
    create_vector_store titan_embed faiss_write_index pickle_dumps bucket
                        (style_key_map style_choice) chunks w5 = (Ok true, w6)
    /\ w' = log (success_report style_choice) w6.

(** ** The claims that fail, as stated *)

Section Stated.

Variable titan_embed : string -> Vector.
Variable faiss_write_index : list Vector -> string.
Variable pickle_dumps : list Document -> string.
Variable BUCKET_NAME : string.

(** The artifact a run builds from [documents]. *)
Definition new_index (documents : list Document) : string :=
  faiss_write_index (List.map titan_embed (List.map page_content documents)).
Definition new_docstore (documents : list Document) : string :=
  pickle_dumps documents.

(** Persist as all-or-nothing, at one input: the run returns [True] with
    both new files published, or returns [False] with the published pair
    as it was. *)
Definition persist_all_or_nothing
    (style_key : string) (documents : list Document) (w : World) : Prop :=
  let '(r, w') :=
    create_vector_store titan_embed faiss_write_index pickle_dumps BUCKET_NAME
                        style_key documents w in
  (r = Ok true
   /\ published BUCKET_NAME w' (faiss_index_file style_key) = Some (new_index documents)
   /\ published BUCKET_NAME w' (faiss_pkl_file style_key) = Some (new_docstore documents))
  \/ (r = Ok false
      /\ published BUCKET_NAME w' (faiss_index_file style_key)
         = published BUCKET_NAME w (faiss_index_file style_key)
      /\ published BUCKET_NAME w' (faiss_pkl_file style_key)
         = published BUCKET_NAME w (faiss_pkl_file style_key)).


(** Every failure of the existence check other than a 404 makes
    [ensure_bucket_exists] return [False], at one input. *)
Definition other_check_failures_return_false (w : World) : Prop :=
  forall e w1,
    s3_client.head_bucket BUCKET_NAME w = (Raise e, w1) ->
    (forall message operation_name max_retries_reached,
       e <> ClientError "404" message operation_name max_retries_reached) ->
    fst (ensure_bucket_exists BUCKET_NAME w) = Ok false.

End Stated.

(** ** A test bench *)

Module Bench.

(** Library stand-ins: a file holding ["corrupt"] is unreadable, any
    other file is one page of its own bytes; the splitter is the spec's;
    a vector is the length of its text; the serialised artifacts name
    what they hold. *)
Definition pypdf_pages (file_path bytes : string) : option (list Document) :=
  if String.eqb bytes "corrupt" then None else Some [mkDocument bytes file_path 0].
Definition titan_embed (text : string) : Vector := [Z.of_nat (String.length text)].
Definition faiss_write_index (vs : list Vector) : string :=
  "faiss:" +:+ pretty (length vs).
Definition pickle_dumps (ds : list Document) : string :=
  "pkl:" +:+ String.concat "|" (List.map page_content ds).

Definition bucket : string := "forte".

(** A bucket with two PDFs under [mail/], one of them corrupt, a text
    file, and the artifact pair of an earlier run for [mail]. *)
Definition objects : gmap string string :=
  <["mail/a.pdf" := "first letter"]>
  (<["mail/B.PDF" := "corrupt"]>
  (<["mail/notes.txt" := "not a pdf"]>
  (<["my_faiss_mail.faiss" := "faiss:old"]>
  (<["my_faiss_mail.pkl" := "pkl:old"]> ∅)))).

Definition world (choice : StyleChoice) (faults : list (option exn)) : World :=
  mkWorld (<["BUCKET_NAME" := bucket]> ∅) ∅ (<[bucket := objects]> ∅) ∅
          choice true faults [].

Definition chunk : Document := mkDocument "first letter" "/tmp/a.pdf" 0.

Definition connection_error : exn :=
  OtherException "EndpointConnectionError" "Could not connect to the endpoint URL".
Definition throttled : exn :=
  OtherException "ThrottlingException" "Too many requests".

(** More documents than one response page holds: the PDFs
    [mail/0000.pdf] to [mail/1000.pdf]. *)
Definition digit (n : nat) : ascii := ascii_of_nat (48 + n mod 10).

Definition numbered (n : nat) : string :=
  "mail/"
  +:+ String (digit (n / 1000)) (String (digit (n / 100)) (String (digit (n / 10))
        (String (digit n) EmptyString)))
  +:+ ".pdf".

Definition crowded_objects : gmap string string :=
  list_to_map (List.map (fun n => (numbered n, "letter")) (seq 0 1001)).

Definition crowded_world : World :=
  mkWorld (<["BUCKET_NAME" := bucket]> ∅) ∅ (<[bucket := crowded_objects]> ∅) ∅
          EmailStyle true [] [].

(** Keys in mixed case and out of listing order. *)
Definition mixed_objects : gmap string string :=
  <["mail/b.pdf" := "second letter"]>
  (<["mail/a.PDF" := "first letter"]>
  (<["mail/Z.Pdf" := "last letter"]>
  (<["mail/0.txt" := "not a pdf"]>
  (<["mail/pdf" := "no suffix"]>
  (<["normal/c.pdf" := "elsewhere"]> ∅))))).

Definition mixed_world (faults : list (option exn)) : World :=
  mkWorld (<["BUCKET_NAME" := bucket]> ∅) ∅ (<[bucket := mixed_objects]> ∅) ∅
          EmailStyle true faults [].

(** A bucket whose only PDF under [normal/] cannot be read. *)
Definition unreadable_objects : gmap string string :=
  <["normal/broken.pdf" := "corrupt"]> (<["normal/readme.md" := "notes"]> ∅).

Definition unreadable_world : World :=
  mkWorld (<["BUCKET_NAME" := bucket]> ∅) ∅ (<[bucket := unreadable_objects]> ∅) ∅
          NormalStyle true [] [].

End Bench.
(** * Properties *)

(** ** Strings *)

Lemma length_substring (s : string) : forall n m : nat,
  String.length (substring n m s) = Nat.min m (String.length s - n).
Proof.
  induction s as [|c s IH]; intros [|n] [|m]; simpl; try reflexivity.
  - rewrite IH. simpl. f_equal. f_equal. lia.
  - rewrite IH. reflexivity.
  - rewrite IH. reflexivity.
Qed.

Lemma length_take (n : nat) (s : string) :
  String.length (Py.take n s) = Nat.min n (String.length s).
Proof. unfold Py.take. rewrite length_substring. f_equal. lia. Qed.

Lemma length_drop (n : nat) (s : string) :
  String.length (Py.drop n s) = (String.length s - n)%nat.
Proof. unfold Py.drop. rewrite length_substring. lia. Qed.

Lemma length_append (a b : string) :
  String.length (a +:+ b) = (String.length a + String.length b)%nat.
Proof. induction a as [|c a IH]; simpl; [reflexivity | by rewrite IH]. Qed.

Lemma substring_full (s : string) : substring 0 (String.length s) s = s.
Proof. induction s as [|c s IH]; simpl; [reflexivity | by rewrite IH]. Qed.

Lemma substring_split (s : string) : forall n : nat,
  (n <= String.length s)%nat ->
  s = substring 0 n s +:+ substring n (String.length s - n) s.
Proof.
  induction s as [|c s IH]; intros [|n] Hn; simpl in *; try reflexivity; try lia.
  - by rewrite substring_full.
  - rewrite (IH n) at 1 by lia. reflexivity.
Qed.

Lemma substring_append_r (a b : string) :
  substring (String.length a) (String.length b) (a +:+ b) = b.
Proof.
  induction a as [|c a IH]; simpl; [apply substring_full | exact IH].
Qed.

Lemma endswith_spec (s suffix : string) :
  Py.endswith s suffix = true <-> exists p, s = p +:+ suffix.
Proof.
  unfold Py.endswith. split.
  - remember (String.length suffix) as k eqn:Hk.
    destruct (Nat.leb_spec k (String.length s)) as [Hle|]; [|discriminate].
    intros H%String.eqb_eq. exists (substring 0 (String.length s - k) s).
    rewrite <- H.
    etransitivity; [apply (substring_split s (String.length s - k)); lia|].
    do 2 f_equal. lia.
  - intros [p ->]. rewrite length_append.
    destruct (Nat.leb_spec (String.length suffix) (String.length p + String.length suffix))
      as [_|]; [|lia].
    replace (String.length p + String.length suffix - String.length suffix)%nat
      with (String.length p) by lia.
    rewrite substring_append_r. apply String.eqb_refl.
Qed.

Lemma length_lower (s : string) : String.length (Py.lower s) = String.length s.
Proof. induction s as [|c s IH]; simpl; [reflexivity | by rewrite IH]. Qed.

Lemma lower_append (a b : string) : Py.lower (a +:+ b) = Py.lower a +:+ Py.lower b.
Proof. induction a as [|c a IH]; simpl; [reflexivity | by rewrite IH]. Qed.

Lemma lower_substring (s : string) : forall n m : nat,
  Py.lower (substring n m s) = substring n m (Py.lower s).
Proof.
  induction s as [|c s IH]; intros [|n] [|m]; simpl; try reflexivity.
  - by rewrite IH.
  - by rewrite IH.
  - by rewrite IH.
Qed.

(** The test of the listing: the key ends with [.pdf] in some mix of
    upper and lower case. *)
Lemma is_pdf_key_spec (k : string) :
  is_pdf_key k = true <-> exists stem ext, k = stem +:+ ext /\ Py.lower ext = ".pdf".
Proof.
  unfold is_pdf_key. split.
  - unfold Py.endswith. rewrite length_lower.
    destruct (Nat.leb_spec (String.length ".pdf") (String.length k)) as [Hle|]; [|discriminate].
    intros H%String.eqb_eq.
    exists (substring 0 (String.length k - 4) k), (substring (String.length k - 4) 4 k).
    split; [|by rewrite lower_substring].
    etransitivity; [apply (substring_split k (String.length k - 4)); lia|].
    do 2 f_equal. simpl in Hle. lia.
  - intros (stem & ext & -> & Hext). apply endswith_spec.
    exists (Py.lower stem). by rewrite lower_append, Hext.
Qed.

(** ** The order of a listing *)

Lemma compare_refl (a : string) : String.compare a a = Eq.
Proof.
  induction a as [|c a IH]; simpl; [reflexivity|].
  unfold Ascii.compare. by rewrite N.compare_refl.
Qed.

Lemma compare_lt_trans (a : string) : forall b c : string,
  String.compare a b = Lt -> String.compare b c = Lt -> String.compare a c = Lt.
Proof.
  induction a as [|x a IH]; intros [|y b] [|z c]; simpl; try done.
  unfold Ascii.compare.
  destruct (N.compare_spec (N_of_ascii x) (N_of_ascii y)) as [Hxy|Hxy|Hxy]; try done;
    destruct (N.compare_spec (N_of_ascii y) (N_of_ascii z)) as [Hyz|Hyz|Hyz]; try done;
    intros H1 H2.
  - rewrite Hxy, Hyz, N.compare_refl. by apply (IH b c).
  - rewrite Hxy. by apply N.compare_lt_iff in Hyz as ->.
  - rewrite <- Hyz. by apply N.compare_lt_iff in Hxy as ->.
  - assert (N_of_ascii x < N_of_ascii z)%N as Hxz by lia.
    by apply N.compare_lt_iff in Hxz as ->.
Qed.

Lemma key_ltb_compare (a b : string) : key_ltb a b = true <-> String.compare a b = Lt.
Proof. unfold key_ltb, String.ltb. by destruct (String.compare a b). Qed.

Lemma key_le_lt_eq (a b : string) : key_le a b <-> key_ltb a b = true \/ a = b.
Proof.
  unfold key_le, String.leb. rewrite key_ltb_compare. split.
  - destruct (String.compare a b) eqn:Hc; try done; [|by left].
    right. by apply String.compare_eq_iff.
  - intros [->| ->]; [done|]. by rewrite compare_refl.
Qed.

Lemma key_ltb_irrefl (a : string) : key_ltb a a = false.
Proof. unfold key_ltb, String.ltb. by rewrite compare_refl. Qed.

Lemma key_ltb_trans (a b c : string) :
  key_ltb a b = true -> key_ltb b c = true -> key_ltb a c = true.
Proof. rewrite !key_ltb_compare. apply compare_lt_trans. Qed.

Lemma key_ltb_asym (a b : string) : key_ltb a b = true -> key_ltb b a = false.
Proof.
  intros H. destruct (key_ltb b a) eqn:H'; [|done].
  pose proof (key_ltb_trans _ _ _ H H') as Haa. by rewrite key_ltb_irrefl in Haa.
Qed.

#[global] Instance key_le_total : Total key_le.
Proof. intros a b. apply String.leb_total. Qed.

#[global] Instance key_le_trans : Transitive key_le.
Proof.
  intros a b c. rewrite !key_le_lt_eq. intros [H1| ->] [H2| ->]; auto.
  left. by apply (key_ltb_trans a b c).
Qed.

#[global] Instance key_le_antisym : AntiSymm (=) key_le.
Proof. intros a b. apply String.leb_antisym. Qed.

(** In a list that ascends without repetition, the keys before a member
    are as many as its position. *)
Lemma sorted_keys_before (l1 l2 : list string) (k : string) :
  StronglySorted key_le (l1 ++ k :: l2) -> NoDup (l1 ++ k :: l2) ->
  List.filter (fun k' => key_ltb k' k) (l1 ++ k :: l2) = l1.
Proof.
  intros Hs Hn. rewrite List.filter_app. simpl. rewrite key_ltb_irrefl.
  apply NoDup_app in Hn as (_ & Hdis & Hn2). apply NoDup_cons in Hn2 as [Hk2 _].
  assert (List.filter (fun k' => key_ltb k' k) l1 = l1) as ->.
  { apply forallb_filter_id, forallb_forall. intros k' Hin. apply list_elem_of_In in Hin.
    pose proof (StronglySorted_app_1_elem_of _ _ _ _ _ Hs Hin (list_elem_of_here _ _)) as Hle.
    apply key_le_lt_eq in Hle as [Hlt| ->]; [done|].
    destruct (Hdis _ Hin). apply list_elem_of_here. }
  assert (List.filter (fun k' => key_ltb k' k) l2 = []) as ->; [|by rewrite app_nil_r].
  apply StronglySorted_app_1_r, StronglySorted_cons in Hs as [Hall _].
  clear -Hall Hk2. induction l2 as [|k' l2 IH]; simpl; [done|].
  apply Forall_cons in Hall as [Hle Hall]. apply not_elem_of_cons in Hk2 as [Hne Hk2].
  apply key_le_lt_eq in Hle as [Hlt| ->]; [|done].
  rewrite (key_ltb_asym _ _ Hlt). by apply IH.
Qed.

Lemma filter_Permutation {A} (f : A -> bool) (l l' : list A) :
  l ≡ₚ l' -> List.filter f l ≡ₚ List.filter f l'.
Proof.
  induction 1 as [|x l l' _ IH|x y l|l l' l'' _ IH1 _ IH2]; simpl.
  - done.
  - destruct (f x); by rewrite IH.
  - destruct (f x), (f y); try done. apply perm_swap.
  - by rewrite IH1.
Qed.

(** A key is among the first [n] keys of an ascending list exactly when
    fewer than [n] keys of the list come before it. *)
Lemma elem_of_take_ascending (n : nat) (s : list string) (k : string) :
  StronglySorted key_le s -> NoDup s ->
  k ∈ take n s
  <-> k ∈ s /\ (length (List.filter (fun k' => key_ltb k' k) s) < n)%nat.
Proof.
  intros Hs Hn. split.
  - intros Hin. assert (k ∈ s) as Hk by (eapply subseteq_take; eauto).
    split; [done|]. apply list_elem_of_split in Hk as (l1 & l2 & ->).
    rewrite (sorted_keys_before _ _ _ Hs Hn).
    destruct (decide (length l1 < n)%nat) as [|Hge]; [done|].
    rewrite take_app_le in Hin by lia.
    apply NoDup_app in Hn as (_ & Hdis & _).
    destruct (Hdis k); [by eapply subseteq_take | apply list_elem_of_here].
  - intros [Hk Hlt]. apply list_elem_of_split in Hk as (l1 & l2 & ->).
    rewrite (sorted_keys_before _ _ _ Hs Hn) in Hlt.
    rewrite take_app_ge by lia. apply elem_of_app. right.
    destruct (n - length l1)%nat eqn:E; [lia|]. simpl. apply list_elem_of_here.
Qed.

Lemma elem_of_take_sorted (n : nat) (l : list string) (k : string) :
  NoDup l ->
  k ∈ take n (merge_sort key_le l)
  <-> k ∈ l /\ (length (List.filter (fun k' => key_ltb k' k) l) < n)%nat.
Proof.
  intros Hn.
  pose proof (merge_sort_Permutation key_le l) as Hp.
  rewrite elem_of_take_ascending.
  - rewrite (Permutation_length (filter_Permutation (fun k' => key_ltb k' k) _ _ Hp)).
    by rewrite (elem_of_Permutation_proper k _ _ Hp).
  - apply (StronglySorted_merge_sort key_le).
  - by rewrite Hp.
Qed.

(** ** The suffix test, letter by letter *)

Lemma lower_ascii_dot (c : ascii) : Py.lower_ascii c = "."%char -> c = "."%char.
Proof.
  destruct c as [[] [] [] [] [] [] [] []]; vm_compute; intros H; try discriminate H; reflexivity.
Qed.

Ltac by_ascii_cases c :=
  split; [|intros [->| ->]; reflexivity];
  destruct c as [[] [] [] [] [] [] [] []]; vm_compute;
  let H := fresh in intros H; try discriminate H; auto.

Lemma lower_ascii_p (c : ascii) : Py.lower_ascii c = "p"%char <-> c = "p"%char \/ c = "P"%char.
Proof. by_ascii_cases c. Qed.

Lemma lower_ascii_d (c : ascii) : Py.lower_ascii c = "d"%char <-> c = "d"%char \/ c = "D"%char.
Proof. by_ascii_cases c. Qed.

Lemma lower_ascii_f (c : ascii) : Py.lower_ascii c = "f"%char <-> c = "f"%char \/ c = "F"%char.
Proof. by_ascii_cases c. Qed.

(** The test of the listing against the eight spellings of the suffix. *)
Lemma is_pdf_key_suffix (k : string) : is_pdf_key k = true <-> pdf_suffix k.
Proof.
  rewrite is_pdf_key_spec. unfold pdf_suffix. split.
  - intros (stem & ext & -> & Hext).
    destruct ext as [|a [|p [|d [|f [|]]]]]; try discriminate Hext.
    simpl in Hext. injection Hext as Ha Hp Hd Hf.
    apply lower_ascii_dot in Ha as ->.
    exists stem, p, d, f. split; [reflexivity|].
    by rewrite <- lower_ascii_p, <- lower_ascii_d, <- lower_ascii_f.
  - intros (stem & p & d & f & -> & Hp & Hd & Hf).
    exists stem, (String "." (String p (String d (String f EmptyString)))).
    split; [reflexivity|]. simpl.
    apply lower_ascii_p in Hp. apply lower_ascii_d in Hd. apply lower_ascii_f in Hf.
    by rewrite Hp, Hd, Hf.
Qed.

(** ** The chunker: bound and totality *)

Lemma windows_bounded (size step : nat) : forall (fuel : nat) (text : string),
  Forall (fun c => (String.length c <= size)%nat) (SpecChunker.windows fuel size step text).
Proof.
  induction fuel as [|fuel IH]; intros text; simpl.
  - constructor.
  - destruct text as [|c r]; [constructor|].
    destruct (Nat.leb_spec (String.length (String c r)) size) as [Hle|Hgt].
    + constructor; [exact Hle | constructor].
    + constructor; [rewrite length_take; lia | apply IH].
Qed.

(** With a positive step the fuel [String.length text] is enough: more
    fuel gives the same chunks, so [windows] never stops short. *)
Lemma windows_fuel (size step : nat) (Hstep : (0 < step)%nat) :
  forall (fuel fuel' : nat) (text : string),
    (String.length text <= fuel)%nat -> (String.length text <= fuel')%nat ->
    SpecChunker.windows fuel size step text = SpecChunker.windows fuel' size step text.
Proof.
  induction fuel as [|fuel IH]; intros fuel' text Hf Hf'.
  - destruct text; [|simpl in Hf; lia]. destruct fuel'; reflexivity.
  - destruct fuel' as [|fuel'].
    + destruct text; [reflexivity | simpl in Hf'; lia].
    + simpl. destruct text as [|c r]; [reflexivity|].
      destruct (String.length (String c r) <=? size)%nat; [reflexivity|].
      f_equal. apply IH; rewrite length_drop; simpl in *; lia.
Qed.

Lemma split_page_bounded (chunk_size chunk_overlap : nat) (p : Document) :
  Forall (fun c => (String.length (page_content c) <= chunk_size)%nat)
         (SpecChunker.split_page chunk_size chunk_overlap p).
Proof.
  unfold SpecChunker.split_page. apply Forall_forall. intros c Hc.
  apply list_elem_of_In, in_map_iff in Hc as (t & <- & Ht). simpl.
  pose proof (windows_bounded chunk_size (chunk_size - chunk_overlap)
                (String.length (page_content p)) (page_content p)) as Hall.
  rewrite Forall_forall in Hall. apply Hall, list_elem_of_In, Ht.
Qed.

(** C3. With the chunker of the specification, for every page sequence and
    every pair [0 <= chunk_overlap < chunk_size], [split_text] returns, and
    every chunk it returns has at most [chunk_size] characters. *)
Theorem split_text_chunks_within_chunk_size
    (pages : list Document) (chunk_size chunk_overlap : Z) (w : World) :
  0 <= chunk_overlap < chunk_size ->
  exists chunks w',
    split_text SpecChunker.split_documents pages chunk_size chunk_overlap w = (Ok chunks, w')
    /\ Forall (fun c => Z.of_nat (String.length (page_content c)) <= chunk_size) chunks.
Proof.
  intros [Hlo Hhi].
  unfold split_text, bind, RecursiveCharacterTextSplitter_split_documents, ret,
    SpecChunker.split_documents.
  apply Z.leb_le in Hlo as Hlo'. apply Z.ltb_lt in Hhi as Hhi'.
  rewrite Hlo', Hhi'. simpl. eexists _, _. split; [reflexivity|].
  apply Forall_forall. intros c Hc.
  apply list_elem_of_In, in_flat_map in Hc as (p & _ & Hc).
  pose proof (split_page_bounded (Z.to_nat chunk_size) (Z.to_nat chunk_overlap) p) as Hall.
  rewrite Forall_forall in Hall. apply list_elem_of_In, Hall in Hc. lia.
Qed.

(** The pipeline's call: chunk_size=1000, chunk_overlap=200. *)
Lemma split_text_chunks_within_chunk_size_witness :
  0 <= 200 < 1000 /\
  exists chunks w',
    split_text SpecChunker.split_documents
      [mkDocument "a page of text" "/tmp/a.pdf" 0] 1000 200
      (mkWorld ∅ ∅ ∅ ∅ NormalStyle true [] []) = (Ok chunks, w')
    /\ Forall (fun c => Z.of_nat (String.length (page_content c)) <= 1000) chunks.
Proof.
  split; [lia|].
  apply (split_text_chunks_within_chunk_size
           [mkDocument "a page of text" "/tmp/a.pdf" 0] 1000 200); lia.
Defined.

(** ** Worlds, traces and external calls *)

Lemma advance_0_nil (w : World) : advance 0 [] w = w.
Proof. destruct w; unfold advance; simpl. by rewrite app_nil_r. Qed.

Lemma advance_called (n : nat) (ev : event) (evs : list event) (w : World) :
  advance n evs (called ev w) = advance (S n) (ev :: evs) w.
Proof.
  unfold advance, called; simpl. f_equal.
  - destruct (pending_faults w); simpl; [by rewrite drop_nil | reflexivity].
  - by rewrite <- app_assoc.
Qed.

Lemma called_advance (ev : event) (w : World) : called ev w = advance 1 [ev] w.
Proof. by rewrite <- (advance_0_nil (called ev w)), advance_called. Qed.

Lemma log_advance (ev : event) (w : World) : log ev w = advance 0 [ev] w.
Proof. reflexivity. Qed.

Lemma advance_advance (n m : nat) (evs evs' : list event) (w : World) :
  advance n evs (advance m evs' w) = advance (m + n) (evs' ++ evs) w.
Proof.
  unfold advance; simpl. f_equal.
  - by rewrite drop_drop.
  - by rewrite <- app_assoc.
Qed.

Lemma events_since_advance (n : nat) (evs : list event) (w : World) :
  events_since w (advance n evs w) = evs.
Proof. unfold events_since; simpl. apply drop_app_length. Qed.

Lemma events_since_extends (w w' : World) (evs : list event) :
  trace w' = trace w ++ evs -> events_since w w' = evs.
Proof. unfold events_since. intros ->. apply drop_app_length. Qed.

Lemma first_fault_nil (n : nat) : first_fault n [] = None.
Proof. by destruct n. Qed.

Lemma first_fault_lt (n : nat) : forall faults i e,
  first_fault n faults = Some (i, e) -> (i < n)%nat /\ faults !! i = Some (Some e).
Proof.
  induction n as [|n IH]; intros [|[e'|] rest] i e H; simpl in H; try discriminate.
  - injection H as <- <-. split; [lia | reflexivity].
  - destruct (first_fault n rest) as [[j e'']|] eqn:Hf; [|discriminate].
    injection H as <- <-. destruct (IH _ _ _ Hf) as [Hlt Hl]. split; [lia | exact Hl].
Qed.

Lemma external_run {A} (ev : event) (service : M A) (w : World) :
  external ev service w =
  match next_fault w with
  | Some e => (Raise e, advance 1 [ev] w)
  | None => service (advance 1 [ev] w)
  end.
Proof. unfold external. by rewrite called_advance. Qed.

Lemma next_fault_advance (n : nat) (evs : list event) (w : World) :
  next_fault (advance n evs w) =
  match pending_faults w !! n with
  | Some (Some e) => Some e
  | _ => None
  end.
Proof.
  unfold next_fault, advance; simpl.
  destruct (drop n (pending_faults w)) as [|f rest] eqn:Hd.
  - apply drop_nil_inv in Hd. by rewrite lookup_ge_None_2.
  - assert (pending_faults w !! n = Some f) as ->.
    { rewrite <- (Nat.add_0_r n), <- lookup_drop, Hd. reflexivity. }
    by destruct f.
Qed.

(** The observations distribute over the trace. *)
Lemma uploads_app (l k : list event) : uploads (l ++ k) = uploads l ++ uploads k.
Proof. apply omap_app. Qed.

Lemma downloads_app (l k : list event) : downloads (l ++ k) = downloads l ++ downloads k.
Proof. apply omap_app. Qed.

Lemma embed_requests_app (l k : list event) :
  embed_requests (l ++ k) = embed_requests l ++ embed_requests k.
Proof. apply omap_app. Qed.

Lemma uploads_embeds (texts : list string) : uploads (List.map EvEmbed texts) = [].
Proof. induction texts; simpl; auto. Qed.

Lemma embed_requests_embeds (texts : list string) :
  embed_requests (List.map EvEmbed texts) = texts.
Proof. induction texts as [|t texts IH]; simpl; [|f_equal]; auto. Qed.

(** ** The embedding phase *)

Section Embedding.

Variable titan_embed : string -> Vector.

(** The requests go out one per text and in order; the first fault ends
    the phase with its exception, and no store is touched either way. *)
Lemma bedrock_embed_documents_run : forall (texts : list string) (w : World),
  bedrock_embed_documents titan_embed texts w =
  match first_fault (length texts) (pending_faults w) with
  | None =>
      (Ok (List.map titan_embed texts), advance (length texts) (List.map EvEmbed texts) w)
  | Some (i, e) =>
      (Raise e, advance (S i) (List.map EvEmbed (take (S i) texts)) w)
  end.
Proof.
  induction texts as [|t texts IH]; intros w; simpl.
  - unfold ret. by rewrite advance_0_nil.
  - unfold bind at 1, bedrock_embed_query, external, next_fault.
    destruct (pending_faults w) as [|[e|] rest] eqn:Hf; simpl.
    + unfold ret at 1, bind. rewrite IH.
      replace (pending_faults (called (EvEmbed t) w)) with (@nil (option exn))
        by (unfold called; simpl; by rewrite Hf).
      rewrite first_fault_nil. unfold ret. by rewrite advance_called.
    + by rewrite called_advance.
    + unfold ret at 1, bind. rewrite IH.
      replace (pending_faults (called (EvEmbed t) w)) with rest
        by (unfold called; simpl; by rewrite Hf).
      destruct (first_fault (length texts) rest) as [[i e]|].
      * by rewrite advance_called.
      * unfold ret. by rewrite advance_called.
Qed.

End Embedding.

(** ** Persisting the artifact pair *)

Lemma append_inj_l (p a b : string) : p +:+ a = p +:+ b -> a = b.
Proof. induction p as [|c p IH]; simpl; [auto | intros [= H]; auto]. Qed.

Lemma faiss_files_differ (style_key : string) :
  faiss_index_file style_key <> faiss_pkl_file style_key.
Proof.
  unfold faiss_index_file, faiss_pkl_file. intros H.
  apply append_inj_l, append_inj_l in H. discriminate.
Qed.

Lemma tmp_index_path (style_key : string) :
  Py.path_join "/tmp/" (faiss_index_file style_key)
  = "/tmp/" +:+ faiss_index_file style_key.
Proof. reflexivity. Qed.

Lemma tmp_pkl_path (style_key : string) :
  Py.path_join "/tmp/" (faiss_pkl_file style_key)
  = "/tmp/" +:+ faiss_pkl_file style_key.
Proof. reflexivity. Qed.

Lemma index_file_name (style_key : string) :
  ("my_faiss_" +:+ style_key) +:+ ".faiss" = faiss_index_file style_key.
Proof. reflexivity. Qed.

Lemma pkl_file_name (style_key : string) :
  ("my_faiss_" +:+ style_key) +:+ ".pkl" = faiss_pkl_file style_key.
Proof. reflexivity. Qed.

Lemma tmp_faiss_paths_differ (style_key : string) :
  "/tmp/" +:+ faiss_pkl_file style_key <> "/tmp/" +:+ faiss_index_file style_key.
Proof. intros H. apply append_inj_l in H. by apply (faiss_files_differ style_key). Qed.

(** ** [create_vector_store]: building and persisting the artifact pair *)

Section Persist.

Variable titan_embed : string -> Vector.
Variable faiss_write_index : list Vector -> string.
Variable pickle_dumps : list Document -> string.
Variable BUCKET_NAME : string.

(** The [try] block of lines 81-95, run where both local files exist: it
    never raises, it requests no embedding and writes no local file, and
    the bucket changes one successful upload at a time. *)
Lemma upload_pair_run (idx pkl index_bytes pkl_bytes : string) (w : World) :
  idx <> pkl ->
  tmp_files w !! ("/tmp/" +:+ idx) = Some index_bytes ->
  tmp_files w !! ("/tmp/" +:+ pkl) = Some pkl_bytes ->
  let '(r, w') :=
    try_except
      (s3_client.upload_file ("/tmp/" +:+ idx) BUCKET_NAME idx;;
       s3_client.upload_file ("/tmp/" +:+ pkl) BUCKET_NAME pkl;;
       ret true)
      (except_Exception (fun e =>
         st.error ("Error uploading to S3: " +:+ exn_str e);;
         ret false)) w in
  exists evs,
    trace w' = trace w ++ evs /\ embed_requests evs = [] /\ tmp_files w' = tmp_files w
    /\ match r with
       | Ok true =>
           uploads evs = [idx; pkl]
           /\ published BUCKET_NAME w' idx = Some index_bytes
           /\ published BUCKET_NAME w' pkl = Some pkl_bytes
           /\ (forall key, key <> idx -> key <> pkl ->
                 published BUCKET_NAME w' key = published BUCKET_NAME w key)
       | Ok false =>
           (uploads evs = [idx] /\ s3 w' = s3 w)
           \/ (uploads evs = [idx; pkl]
               /\ published BUCKET_NAME w' idx = Some index_bytes
               /\ (forall key, key <> idx ->
                     published BUCKET_NAME w' key = published BUCKET_NAME w key))
       | Raise _ => False
       end.
Proof.
  intros Hne Hi Hp.
  unfold try_except, bind, s3_client.upload_file, external, except_Exception,
    st.error, st.report, ret, next_fault, published.
  destruct (pending_faults w) as [|[e1|] [|[e2|] rest]] eqn:Hf; simpl;
    rewrite ?Hf; simpl; rewrite ?Hi, ?Hp; simpl;
    destruct (s3 w !! BUCKET_NAME) as [objects|] eqn:Hb; simpl; rewrite ?Hf; simpl;
    rewrite ?Hp; simpl; rewrite ?lookup_insert_eq; simpl;
    rewrite <- ?app_assoc; simpl.
  all: eexists; split; [reflexivity|]; split; [reflexivity|]; split; [reflexivity|].
  all: simpl; try (left; split; reflexivity).
  all: try (right; split; [reflexivity|]).
  all: try (split; [reflexivity|]).
  all: rewrite ?lookup_insert_eq; simpl; rewrite ?lookup_insert_eq; simpl.
  all: repeat split; intros; rewrite ?lookup_insert_ne by congruence;
    rewrite ?lookup_insert_eq; auto.
Qed.

(** [save_local] writes both local files. *)
Lemma save_local_run (vs : VectorStore) (style_key : string) (w : World) :
  FAISS_save_local faiss_write_index pickle_dumps vs ("my_faiss_" +:+ style_key) "/tmp/" w =
  match next_fault w with
  | Some e => (Raise e, advance 1 [EvSaveLocal "/tmp/" ("my_faiss_" +:+ style_key)] w)
  | None =>
      (Ok tt,
       with_tmp (<["/tmp/" +:+ faiss_pkl_file style_key := pickle_dumps (vs_docstore vs)]>
                 (<["/tmp/" +:+ faiss_index_file style_key := faiss_write_index (vs_index vs)]>
                  (tmp_files w)))
                (advance 1 [EvSaveLocal "/tmp/" ("my_faiss_" +:+ style_key)] w))
  end.
Proof. unfold FAISS_save_local. rewrite external_run. reflexivity. Qed.

(** The whole of [create_vector_store], phase by phase. *)
Lemma create_vector_store_run (style_key : string) (documents : list Document) (w : World) :
  let idx := faiss_index_file style_key in
  let pkl := faiss_pkl_file style_key in
  let texts := List.map page_content documents in
  let '(r, w') :=
    create_vector_store titan_embed faiss_write_index pickle_dumps BUCKET_NAME
                        style_key documents w in
  match first_fault (length documents) (pending_faults w) with
  | Some (i, e) =>
      r = Raise e /\ w' = advance (S i) (List.map EvEmbed (take (S i) texts)) w
  | None =>
      exists evs,
        trace w' = trace w ++ List.map EvEmbed texts ++ evs /\ embed_requests evs = []
        /\ match r with
           | Raise _ => uploads evs = [] /\ s3 w' = s3 w /\ tmp_files w' = tmp_files w
           | Ok b =>
               tmp_files w' !! ("/tmp/" +:+ idx)
               = Some (new_index titan_embed faiss_write_index documents)
               /\ tmp_files w' !! ("/tmp/" +:+ pkl) = Some (new_docstore pickle_dumps documents)
               /\ if b then
                    uploads evs = [idx; pkl]
                    /\ published BUCKET_NAME w' idx
                       = Some (new_index titan_embed faiss_write_index documents)
                    /\ published BUCKET_NAME w' pkl = Some (new_docstore pickle_dumps documents)
                    /\ (forall key, key <> idx -> key <> pkl ->
                          published BUCKET_NAME w' key = published BUCKET_NAME w key)
                  else
                    (uploads evs = [idx] /\ s3 w' = s3 w)
                    \/ (uploads evs = [idx; pkl]
                        /\ published BUCKET_NAME w' idx
                           = Some (new_index titan_embed faiss_write_index documents)
                        /\ (forall key, key <> idx ->
                              published BUCKET_NAME w' key = published BUCKET_NAME w key))
           end
  end.
Proof.
  intros idx pkl texts. unfold create_vector_store, FAISS_from_documents.
  unfold bind at 1 2. rewrite bedrock_embed_documents_run, length_map.
  destruct (first_fault _ _) as [[i e]|] eqn:Hff; [by split|].
  fold texts. set (w1 := advance _ _ w).
  destruct (List.map titan_embed texts) as [|v vs] eqn:Hvs.
  { unfold raise. exists []. subst w1. simpl. by rewrite app_nil_r. }
  unfold ret at 1. unfold bind at 1. rewrite save_local_run.
  destruct (next_fault w1) eqn:Hn1.
  { eexists [_]. subst w1. simpl. rewrite <- app_assoc. by repeat split. }
  rewrite index_file_name, pkl_file_name, tmp_index_path, tmp_pkl_path. fold idx pkl.
  set (w2 := with_tmp _ _).
  assert (new_index titan_embed faiss_write_index documents = faiss_write_index (v :: vs)) as ->
    by (unfold new_index; fold texts; by rewrite Hvs).
  unfold new_docstore.
  assert (tmp_files w2 !! ("/tmp/" +:+ idx) = Some (faiss_write_index (v :: vs))) as Hi.
  { subst w2; simpl.
    by rewrite lookup_insert_ne, lookup_insert_eq by apply tmp_faiss_paths_differ. }
  assert (tmp_files w2 !! ("/tmp/" +:+ pkl) = Some (pickle_dumps documents)) as Hp.
  { subst w2; simpl. by rewrite lookup_insert_eq. }
  pose proof (upload_pair_run idx pkl _ _ w2 (faiss_files_differ style_key) Hi Hp) as Hup.
  destruct (try_except _ _ w2) as [r w'].
  destruct Hup as (evs & Ht & He & Htmp & Hr).
  exists (EvSaveLocal "/tmp/" ("my_faiss_" +:+ style_key) :: evs).
  split; [rewrite Ht; subst w2 w1; simpl; by rewrite <- !app_assoc|].
  split; [exact He|].
  destruct r as [[|]|e]; [| |contradiction]; rewrite Htmp; repeat split; tauto.
Qed.

(** C1 (amended). [create_vector_store] returns [True] only after both
    uploads succeeded, and then both new files are published.  When it
    returns [False], either the upload of the index file failed and the
    bucket is unchanged, or the index file was uploaded and the upload of
    the metadata file failed: then the bucket holds the new index file and
    every other key, the metadata file among them, as before.  A failure
    before the uploads raises and leaves the bucket unchanged. *)
Theorem create_vector_store_publication
    (style_key : string) (documents : list Document) (w : World) :
  let idx := faiss_index_file style_key in
  let pkl := faiss_pkl_file style_key in
  match create_vector_store titan_embed faiss_write_index pickle_dumps BUCKET_NAME
                            style_key documents w with
  | (Ok true, w') =>
      uploads (events_since w w') = [idx; pkl]
      /\ published BUCKET_NAME w' idx = Some (new_index titan_embed faiss_write_index documents)
      /\ published BUCKET_NAME w' pkl = Some (new_docstore pickle_dumps documents)
      /\ (forall key, key <> idx -> key <> pkl ->
            published BUCKET_NAME w' key = published BUCKET_NAME w key)
  | (Ok false, w') =>
      (uploads (events_since w w') = [idx] /\ s3 w' = s3 w)
      \/ (uploads (events_since w w') = [idx; pkl]
          /\ published BUCKET_NAME w' idx = Some (new_index titan_embed faiss_write_index documents)
          /\ (forall key, key <> idx ->
                published BUCKET_NAME w' key = published BUCKET_NAME w key))
  | (Raise _, w') =>
      uploads (events_since w w') = [] /\ s3 w' = s3 w
  end.
Proof.
  intros idx pkl.
  pose proof (create_vector_store_run style_key documents w) as Hrun. cbv zeta in Hrun.
  destruct (create_vector_store _ _ _ _ _ _ w) as [r w'].
  destruct (first_fault _ _) as [[i e]|].
  - destruct Hrun as [-> ->]. by rewrite events_since_advance, uploads_embeds.
  - destruct Hrun as (evs & Ht & _ & Hr).
    rewrite (events_since_extends _ _ _ Ht), uploads_app, uploads_embeds. simpl.
    destruct r as [[|]|e]; tauto.
Qed.


End Persist.

(** C1, as stated, fails: the index file is uploaded, the upload of the
    metadata file fails, and the published index file is no longer the
    previous one although the run returned [False]. *)
Lemma persist_is_not_all_or_nothing :
  ~ persist_all_or_nothing Bench.titan_embed Bench.faiss_write_index Bench.pickle_dumps
      Bench.bucket "mail" [Bench.chunk]
      (Bench.world EmailStyle [None; None; None; Some Bench.connection_error]).
Proof.
  unfold persist_all_or_nothing. vm_compute.
  intros [[H _]|[_ [H _]]]; discriminate.
Qed.

(** The same run, spelled out: [False] is returned, the new index file
    stands beside the metadata file of the earlier run. *)
Example metadata_upload_failure :
  let '(r, w') :=
    create_vector_store Bench.titan_embed Bench.faiss_write_index Bench.pickle_dumps
      Bench.bucket "mail" [Bench.chunk]
      (Bench.world EmailStyle [None; None; None; Some Bench.connection_error]) in
  r = Ok false
  /\ published Bench.bucket w' "my_faiss_mail.faiss" = Some "faiss:1"
  /\ published Bench.bucket w' "my_faiss_mail.pkl" = Some "pkl:old".
Proof. vm_compute. auto. Qed.


(** ** [ensure_bucket_exists] *)

Section Bucket.

Variable pypdf_pages : string -> string -> option (list Document).
Variable split_documents : Z -> Z -> list Document -> result (list Document).
Variable titan_embed : string -> Vector.
Variable faiss_write_index : list Vector -> string.
Variable pickle_dumps : list Document -> string.
Variable BUCKET_NAME : string.

(** The function by the outcome of its two service calls. *)
Lemma ensure_bucket_exists_run (w : World) :
  match s3_client.head_bucket BUCKET_NAME w with
  | (Ok _, w1) => ensure_bucket_exists BUCKET_NAME w = (Ok true, w1)
  | (Raise (ClientError code message operation_name max_retries_reached), w1) =>
      if String.eqb code "404" then
        match s3_client.create_bucket BUCKET_NAME w1 with
        | (Ok _, w2) =>
            ensure_bucket_exists BUCKET_NAME w
            = (Ok true, log (EvUi UiSuccess ("Created new S3 bucket: " +:+ BUCKET_NAME)) w2)
        | (Raise create_error, w2) =>
            ensure_bucket_exists BUCKET_NAME w
            = (Ok false,
               log (EvUi UiError ("Failed to create S3 bucket: " +:+ exn_str create_error)) w2)
        end
      else
        ensure_bucket_exists BUCKET_NAME w
        = (Ok false,
           log (EvUi UiError ("Error checking S3 bucket: "
                              +:+ exn_str (ClientError code message operation_name
                                                    max_retries_reached))) w1)
  | (Raise e, w1) => ensure_bucket_exists BUCKET_NAME w = (Raise e, w1)
  end.
Proof.
  destruct (s3_client.head_bucket BUCKET_NAME w) as [[[]|e] w1] eqn:Hh.
  - unfold ensure_bucket_exists, try_except, bind. by rewrite Hh.
  - destruct e as [code message operation_name max_retries_reached| | | |];
      try (unfold ensure_bucket_exists, try_except, bind; by rewrite Hh).
    destruct (String.eqb code "404") eqn:Hc.
    + destruct (s3_client.create_bucket BUCKET_NAME w1) as [[[]|ce] w2] eqn:Hcr;
        unfold ensure_bucket_exists, try_except, bind; rewrite Hh; simpl;
        by rewrite Hc, Hcr.
    + unfold ensure_bucket_exists, try_except, bind. rewrite Hh. simpl. by rewrite Hc.
Qed.

(** Its events: the check, perhaps the creation, perhaps a report. *)
Lemma ensure_bucket_exists_events (w : World) :
  exists evs,
    trace (snd (ensure_bucket_exists BUCKET_NAME w)) = trace w ++ evs
    /\ no_pipeline_event evs.
Proof.
  unfold ensure_bucket_exists, try_except, bind, s3_client.head_bucket,
    s3_client.create_bucket, external, except_ClientError, except_Exception,
    st.success, st.error, st.report, ret, next_fault.
  destruct (pending_faults w) as [|[e1|] [|[e2|] rest]] eqn:Hf; simpl; rewrite ?Hf; simpl;
    try (destruct e1 as [code ? ? ?| | | |]; simpl; try destruct (String.eqb code "404"));
    simpl; rewrite ?Hf; simpl;
    destruct (s3 w !! BUCKET_NAME) eqn:Hb; simpl; rewrite ?Hf, ?Hb; simpl;
    rewrite <- ?app_assoc; eexists; split; reflexivity.
Qed.

(** [main] up to the selection of a style, by what the check returned. *)
Lemma main_select_style_run (w : World) :
  main_select_style BUCKET_NAME w =
  match ensure_bucket_exists BUCKET_NAME (advance 0 banner w) with
  | (Ok true, w1) => (Ok (Some (ui_radio w1)), advance 0 (selection (ui_radio w1)) w1)
  | (Ok false, w1) => (Ok None, log bucket_failure w1)
  | (Raise e, w1) => (Raise e, w1)
  end.
Proof.
  unfold main_select_style, bind at 1 2 3, st.title, st.write, st.report.
  rewrite !log_advance, advance_advance. simpl "+"%nat. simpl app. fold banner.
  destruct (ensure_bucket_exists BUCKET_NAME _) as [[[|]|e] w1]; try reflexivity.
  simpl. unfold bind, st.radio, st.write, st.report, ret; simpl.
  rewrite !log_advance, advance_advance. reflexivity.
Qed.

Lemma main_run (w : World) :
  main pypdf_pages split_documents titan_embed faiss_write_index pickle_dumps BUCKET_NAME w =
  match ensure_bucket_exists BUCKET_NAME (advance 0 banner w) with
  | (Ok true, w1) =>
      (pdf_files ← list_pdfs_in_s3 BUCKET_NAME (prefix_map (ui_radio w1));
       main_process pypdf_pages split_documents titan_embed faiss_write_index pickle_dumps
                    BUCKET_NAME (ui_radio w1) pdf_files)
        (advance 0 (selection (ui_radio w1)) w1)
  | (Ok false, w1) => (Ok tt, log bucket_failure w1)
  | (Raise e, w1) => (Raise e, w1)
  end.
Proof.
  unfold main, bind at 1. rewrite main_select_style_run.
  by destruct (ensure_bucket_exists BUCKET_NAME _) as [[[|]|e] w1].
Qed.

Lemma ensure_bucket_exists_present (w : World) :
  next_fault w = None -> is_Some (s3 w !! BUCKET_NAME) ->
  ensure_bucket_exists BUCKET_NAME w = (Ok true, called (EvHeadBucket BUCKET_NAME) w).
Proof.
  intros Hn [objects Hb].
  unfold ensure_bucket_exists, try_except, bind, s3_client.head_bucket, external.
  rewrite Hn. simpl. by rewrite Hb.
Qed.

Lemma ensure_bucket_exists_true (w w' : World) :
  ensure_bucket_exists BUCKET_NAME w = (Ok true, w') -> is_Some (s3 w' !! BUCKET_NAME).
Proof.
  unfold ensure_bucket_exists, try_except, bind, s3_client.head_bucket,
    s3_client.create_bucket, external, except_ClientError, except_Exception,
    st.success, st.error, st.report, ret, next_fault.
  destruct (pending_faults w) as [|[e1|] [|[e2|] rest]] eqn:Hf; simpl; rewrite ?Hf; simpl;
    try (destruct e1 as [code ? ? ?| | | |]; simpl; try destruct (String.eqb code "404"));
    simpl; rewrite ?Hf; simpl;
    destruct (s3 w !! BUCKET_NAME) eqn:Hb; simpl; rewrite ?Hf, ?Hb; simpl;
    intros [= <-]; simpl; rewrite ?lookup_insert_eq, ?Hb; eauto.
Qed.

(** C9 (amended). [ensure_bucket_exists] returns [True] when the existence
    check succeeds; when the check fails with a [ClientError] of code 404 it
    creates the bucket, returning [True] if that succeeds and [False] if
    it fails in any way; for a [ClientError] with another code it returns
    [False]; a failure of the check that is not a [ClientError] is not
    caught and leaves the function as an exception.  The function is
    idempotent: after [True] the bucket exists, and a further call whose
    check is not failed returns [True] and changes no store.  Whenever it
    does not return [True], [main] ends at once, by the [return] of line 135
    or by the exception, without any listing or processing. *)
Theorem ensure_bucket_exists_contract (w : World) :
  match s3_client.head_bucket BUCKET_NAME w with
  | (Ok _, w1) => ensure_bucket_exists BUCKET_NAME w = (Ok true, w1)
  | (Raise (ClientError code message operation_name max_retries_reached), w1) =>
      if String.eqb code "404" then
        match s3_client.create_bucket BUCKET_NAME w1 with
        | (Ok _, w2) =>
            ensure_bucket_exists BUCKET_NAME w
            = (Ok true, log (EvUi UiSuccess ("Created new S3 bucket: " +:+ BUCKET_NAME)) w2)
        | (Raise create_error, w2) =>
            ensure_bucket_exists BUCKET_NAME w
            = (Ok false,
               log (EvUi UiError ("Failed to create S3 bucket: " +:+ exn_str create_error)) w2)
        end
      else
        ensure_bucket_exists BUCKET_NAME w
        = (Ok false,
           log (EvUi UiError ("Error checking S3 bucket: "
                              +:+ exn_str (ClientError code message operation_name
                                                    max_retries_reached))) w1)
  | (Raise e, w1) => ensure_bucket_exists BUCKET_NAME w = (Raise e, w1)
  end
  /\ (forall w',
        ensure_bucket_exists BUCKET_NAME w = (Ok true, w') ->
        is_Some (s3 w' !! BUCKET_NAME)
        /\ (next_fault w' = None ->
            ensure_bucket_exists BUCKET_NAME w'
            = (Ok true, called (EvHeadBucket BUCKET_NAME) w')))
  /\ (let '(ok, w1) := ensure_bucket_exists BUCKET_NAME (advance 0 banner w) in
      match ok with
      | Ok true => True
      | Ok false =>
          main pypdf_pages split_documents titan_embed faiss_write_index pickle_dumps
               BUCKET_NAME w = (Ok tt, log bucket_failure w1)
          /\ no_pipeline_event (events_since w (log bucket_failure w1))
      | Raise e =>
          main pypdf_pages split_documents titan_embed faiss_write_index pickle_dumps
               BUCKET_NAME w = (Raise e, w1)
          /\ no_pipeline_event (events_since w w1)
      end).
Proof.
  split; [apply ensure_bucket_exists_run|]. split.
  - intros w' Hw'. pose proof (ensure_bucket_exists_true _ _ Hw') as Hb.
    split; [exact Hb|]. intros Hn. by apply ensure_bucket_exists_present.
  - pose proof (ensure_bucket_exists_events (advance 0 banner w)) as (evs & Ht & Hevs).
    rewrite main_run.
    destruct (ensure_bucket_exists BUCKET_NAME _) as [[[|]|e] w1]; [exact I| |];
      simpl in Ht; (split; [reflexivity|]).
    + rewrite (events_since_extends w _ (banner ++ evs ++ [bucket_failure])).
      * unfold no_pipeline_event in *. by rewrite !forallb_app, Hevs.
      * simpl. by rewrite Ht, <- !app_assoc.
    + rewrite (events_since_extends w _ (banner ++ evs)).
      * unfold no_pipeline_event in *. by rewrite !forallb_app, Hevs.
      * by rewrite Ht, <- !app_assoc.
Qed.

End Bucket.

(** ** Listing the PDFs of a style *)

Section Listing.

Variable BUCKET_NAME : string.

Lemma list_objects_v2_run (prefix : string) (w : World) :
  s3_client.list_objects_v2 BUCKET_NAME prefix w =
  match next_fault w with
  | Some e => (Raise e, advance 1 [EvListObjects BUCKET_NAME prefix] w)
  | None =>
      match s3 w !! BUCKET_NAME with
      | None =>
          (Raise (ClientError "NoSuchBucket" "The specified bucket does not exist"
                              "ListObjectsV2" None),
           advance 1 [EvListObjects BUCKET_NAME prefix] w)
      | Some objects =>
          (Ok (mkListing
                 (match take s3_client.MaxKeys (s3_client.keys_under prefix objects) with
                  | [] => None
                  | _ :: _ =>
                      Some (List.map mkS3Object
                              (take s3_client.MaxKeys (s3_client.keys_under prefix objects)))
                  end)
                 (s3_client.MaxKeys <? length (s3_client.keys_under prefix objects))%nat),
           advance 1 [EvListObjects BUCKET_NAME prefix] w)
      end
  end.
Proof.
  unfold s3_client.list_objects_v2. rewrite external_run.
  destruct (next_fault w); [reflexivity|]. simpl.
  destruct (s3 w !! BUCKET_NAME); reflexivity.
Qed.

(** The list comprehension of lines 106-107 over a response. *)
Lemma comprehension_filter (keys : list string) :
  List.map Key (List.filter (fun obj => is_pdf_key (Key obj)) (List.map mkS3Object keys))
  = List.filter is_pdf_key keys.
Proof.
  induction keys as [|k keys IH]; simpl; [reflexivity|].
  destruct (is_pdf_key k); simpl; by rewrite IH.
Qed.

Lemma response_contents (keys : list string) (truncated : bool) :
  default [] (Contents (mkListing (match keys with
                                   | [] => None
                                   | _ :: _ => Some (List.map mkS3Object keys)
                                   end) truncated))
  = List.map mkS3Object keys.
Proof. by destruct keys. Qed.

(** What [list_pdfs_in_s3] makes of the outcome of the listing call. *)
Lemma list_pdfs_in_s3_run (prefix : string) (w : World) :
  list_pdfs_in_s3 BUCKET_NAME prefix w =
  match s3_client.list_objects_v2 BUCKET_NAME prefix w with
  | (Ok response, w1) =>
      (Ok (List.map Key (List.filter (fun obj => is_pdf_key (Key obj))
                                     (default [] (Contents response)))), w1)
  | (Raise e, w1) =>
      (Ok [], log (listing_error prefix e) w1)
  end.
Proof.
  unfold list_pdfs_in_s3, try_except, bind.
  by destruct (s3_client.list_objects_v2 BUCKET_NAME prefix w) as [[response|e] w1].
Qed.

(** When the listing call answers, the function returns the PDF keys of
    the one response it reads. *)
Lemma list_pdfs_in_s3_answer (prefix : string) (objects : gmap string string) (w : World) :
  next_fault w = None ->
  s3 w !! BUCKET_NAME = Some objects ->
  list_pdfs_in_s3 BUCKET_NAME prefix w
  = (Ok (first_page_pdf_keys BUCKET_NAME prefix w),
     advance 1 [EvListObjects BUCKET_NAME prefix] w).
Proof.
  intros Hn Hb. rewrite list_pdfs_in_s3_run, list_objects_v2_run, Hn.
  unfold first_page_pdf_keys. rewrite Hb.
  by rewrite response_contents, comprehension_filter.
Qed.

(** The stored keys of a prefix, each once. *)
Lemma elem_of_listed_keys (prefix : string) (objects : gmap string string) (k : string) :
  k ∈ listed_keys prefix objects <-> is_Some (objects !! k) /\ Py.startswith k prefix = true.
Proof.
  unfold listed_keys. rewrite list_elem_of_In, filter_In, <- list_elem_of_In.
  assert (k ∈ List.map fst (map_to_list objects) <-> is_Some (objects !! k)) as ->; [|tauto].
  split.
  - intros Hin. apply list_elem_of_In, in_map_iff in Hin as ([k' v] & <- & Hin).
    apply list_elem_of_In, elem_of_map_to_list in Hin. eauto.
  - intros [v Hv]. apply list_elem_of_In, in_map_iff. exists (k, v).
    split; [reflexivity|]. by apply list_elem_of_In, elem_of_map_to_list.
Qed.

Lemma NoDup_listed_keys (prefix : string) (objects : gmap string string) :
  NoDup (listed_keys prefix objects).
Proof.
  apply NoDup_ListNoDup, List.NoDup_filter, NoDup_ListNoDup.
  apply (NoDup_fst_map_to_list objects).
Qed.

(** The keys of one response: the keys of the prefix that fewer than
    [MaxKeys] keys of the prefix precede. *)
Lemma elem_of_first_page (prefix : string) (objects : gmap string string) (k : string) :
  k ∈ take s3_client.MaxKeys (s3_client.keys_under prefix objects)
  <-> k ∈ listed_keys prefix objects
      /\ (keys_before prefix objects k < s3_client.MaxKeys)%nat.
Proof. apply elem_of_take_sorted, NoDup_listed_keys. Qed.

(** They ascend, each key once. *)
Lemma first_page_ascending (prefix : string) (objects : gmap string string) :
  StronglySorted key_le (take s3_client.MaxKeys (s3_client.keys_under prefix objects))
  /\ NoDup (take s3_client.MaxKeys (s3_client.keys_under prefix objects)).
Proof.
  pose proof (StronglySorted_merge_sort key_le (listed_keys prefix objects)) as Hs.
  pose proof (merge_sort_Permutation key_le (listed_keys prefix objects)) as Hp.
  change (merge_sort key_le (listed_keys prefix objects))
    with (s3_client.keys_under prefix objects) in Hs, Hp.
  rewrite <- (take_drop s3_client.MaxKeys (s3_client.keys_under prefix objects)) in Hs, Hp.
  split; [by apply StronglySorted_app_1_l in Hs|].
  pose proof (NoDup_listed_keys prefix objects) as Hn. rewrite <- Hp in Hn.
  by apply NoDup_app in Hn as (Hn & _).
Qed.

Lemma StronglySorted_filter {A} (R : relation A) (f : A -> bool) (l : list A) :
  StronglySorted R l -> StronglySorted R (List.filter f l).
Proof.
  induction 1 as [|x l Hs IH Hall]; simpl; [constructor|].
  destruct (f x); [|exact IH]. constructor; [exact IH|].
  apply Forall_forall. intros y Hy. apply list_elem_of_In, filter_In in Hy as [Hy _].
  rewrite Forall_forall in Hall. by apply Hall, list_elem_of_In.
Qed.

(** The PDF keys of one response, by what they are. *)
Lemma elem_of_first_page_pdf_keys
    (prefix : string) (objects : gmap string string) (w : World) (k : string) :
  s3 w !! BUCKET_NAME = Some objects ->
  k ∈ first_page_pdf_keys BUCKET_NAME prefix w
  <-> is_Some (objects !! k) /\ Py.startswith k prefix = true /\ pdf_suffix k
      /\ (keys_before prefix objects k < s3_client.MaxKeys)%nat.
Proof.
  intros Hb. unfold first_page_pdf_keys. rewrite Hb.
  rewrite list_elem_of_In, filter_In, <- list_elem_of_In.
  rewrite elem_of_first_page, elem_of_listed_keys, is_pdf_key_suffix. tauto.
Qed.

(** Every key of the response is a stored PDF key of the prefix. *)
Lemma first_page_pdf_keys_stored (prefix : string) (w : World) (k : string) :
  k ∈ first_page_pdf_keys BUCKET_NAME prefix w -> k ∈ pdf_keys BUCKET_NAME prefix w.
Proof.
  unfold first_page_pdf_keys, pdf_keys. destruct (s3 w !! BUCKET_NAME) as [objects|]; [|done].
  rewrite !list_elem_of_In, !filter_In, <- !list_elem_of_In, elem_of_first_page. tauto.
Qed.

(** The events of a listing: the call and perhaps the error report. *)
Lemma list_pdfs_in_s3_events (prefix : string) (w : World) :
  exists evs,
    trace (snd (list_pdfs_in_s3 BUCKET_NAME prefix w)) = trace w ++ evs
    /\ no_processing_event evs.
Proof.
  rewrite list_pdfs_in_s3_run, list_objects_v2_run.
  destruct (next_fault w); [|destruct (s3 w !! BUCKET_NAME)]; simpl;
    rewrite <- ?app_assoc; eexists; split; reflexivity.
Qed.

End Listing.

(** ** [main] and the listing *)

Section MainListing.

Variable pypdf_pages : string -> string -> option (list Document).
Variable split_documents : Z -> Z -> list Document -> result (list Document).
Variable titan_embed : string -> Vector.
Variable faiss_write_index : list Vector -> string.
Variable pickle_dumps : list Document -> string.
Variable BUCKET_NAME : string.

(** The events of [main] up to the selection of the style. *)
Lemma main_select_style_events (w : World) :
  exists evs,
    trace (snd (main_select_style BUCKET_NAME w)) = trace w ++ evs
    /\ no_pipeline_event evs.
Proof.
  rewrite main_select_style_run.
  pose proof (ensure_bucket_exists_events BUCKET_NAME (advance 0 banner w)) as (evs & Ht & Hevs).
  unfold no_pipeline_event in *.
  destruct (ensure_bucket_exists BUCKET_NAME _) as [[[|]|e] w1]; simpl in *; rewrite Ht.
  - exists (banner ++ evs ++ selection (ui_radio w1)).
    split; [by rewrite <- !app_assoc | by rewrite !forallb_app, Hevs].
  - exists (banner ++ evs ++ [bucket_failure]).
    split; [by rewrite <- !app_assoc | by rewrite !forallb_app, Hevs].
  - exists (banner ++ evs).
    split; [by rewrite <- !app_assoc | by rewrite !forallb_app, Hevs].
Qed.

Lemma no_pipeline_no_processing (evs : list event) :
  no_pipeline_event evs -> no_processing_event evs.
Proof.
  unfold no_pipeline_event, no_processing_event. rewrite !forallb_forall.
  intros H ev Hin. specialize (H ev Hin). by destruct ev.
Qed.

(** [main] from the selection on. *)
Lemma main_after_selection (w w1 : World) (style_choice : StyleChoice) :
  main_select_style BUCKET_NAME w = (Ok (Some style_choice), w1) ->
  main pypdf_pages split_documents titan_embed faiss_write_index pickle_dumps BUCKET_NAME w
  = (pdf_files ← list_pdfs_in_s3 BUCKET_NAME (prefix_map style_choice);
     main_process pypdf_pages split_documents titan_embed faiss_write_index pickle_dumps
                  BUCKET_NAME style_choice pdf_files) w1.
Proof. intros H. unfold main, bind at 1. by rewrite H. Qed.

(** C7. When the listing of the selected style's prefix yields no PDF key,
    [main] ends right after it with the warning of line 166: the world it
    leaves is the one the listing left plus that warning, and the whole run
    contains no download, extraction, chunking, embedding, saving or
    upload. *)
Theorem main_stops_without_pdfs (style_choice : StyleChoice) (w w1 w2 : World) :
  main_select_style BUCKET_NAME w = (Ok (Some style_choice), w1) ->
  list_pdfs_in_s3 BUCKET_NAME (prefix_map style_choice) w1 = (Ok [], w2) ->
  main pypdf_pages split_documents titan_embed faiss_write_index pickle_dumps BUCKET_NAME w
  = (Ok tt, log (no_pdf_warning style_choice) w2)
  /\ no_processing_event (events_since w (log (no_pdf_warning style_choice) w2)).
Proof.
  intros Hsel Hlist. split.
  - rewrite (main_after_selection _ _ _ Hsel). unfold bind at 1. by rewrite Hlist.
  - pose proof (main_select_style_events w) as (evs1 & Ht1 & He1).
    pose proof (list_pdfs_in_s3_events BUCKET_NAME (prefix_map style_choice) w1) as (evs2 & Ht2 & He2).
    rewrite Hsel in Ht1. rewrite Hlist in Ht2. simpl in Ht1, Ht2.
    rewrite (events_since_extends w _ (evs1 ++ evs2 ++ [no_pdf_warning style_choice])).
    + apply no_pipeline_no_processing in He1. unfold no_processing_event in *.
      by rewrite !forallb_app, He1, He2.
    + simpl. by rewrite Ht2, Ht1, <- !app_assoc.
Qed.

(** C10. When the listing call of the object store fails, whatever the
    failure, [list_pdfs_in_s3] returns the empty list, the value it returns
    for a prefix without documents; and [main], having selected a style
    with that prefix, ends with the warning for zero documents. *)
Theorem listing_failure_reads_as_no_documents
    (prefix : string) (e : exn) (w w' : World) :
  s3_client.list_objects_v2 BUCKET_NAME prefix w = (Raise e, w') ->
  list_pdfs_in_s3 BUCKET_NAME prefix w = (Ok [], log (listing_error prefix e) w')
  /\ forall style_choice w0,
       prefix = prefix_map style_choice ->
       main_select_style BUCKET_NAME w0 = (Ok (Some style_choice), w) ->
       main pypdf_pages split_documents titan_embed faiss_write_index pickle_dumps
            BUCKET_NAME w0
       = (Ok tt, log (no_pdf_warning style_choice) (log (listing_error prefix e) w')).
Proof.
  intros Hfail.
  assert (list_pdfs_in_s3 BUCKET_NAME prefix w = (Ok [], log (listing_error prefix e) w'))
    as Hlist by (by rewrite list_pdfs_in_s3_run, Hfail).
  split; [exact Hlist|]. intros style_choice w0 -> Hsel.
  rewrite (main_after_selection _ _ _ Hsel). unfold bind at 1. by rewrite Hlist.
Qed.

End MainListing.

(** ** Loading the documents of a style *)

Section Loading.

Variable pypdf_pages : string -> string -> option (list Document).
Variable BUCKET_NAME : string.

(** One document: the call never raises; a failure of the download or of
    the extraction becomes [None] and an error report naming the key; pages
    are returned only as the loader reads them from the stored object. *)
Lemma download_and_process_pdf_run (s3_key : string) (w : World) :
  exists pages w1 evs,
    download_and_process_pdf pypdf_pages BUCKET_NAME s3_key w = (Ok pages, w1)
    /\ trace w1 = trace w ++ evs
    /\ downloads evs = [s3_key]
    /\ s3 w1 = s3 w
    /\ (pages = None -> exists evs' message, evs = evs' ++ [processing_error s3_key message])
    /\ (forall ps, pages = Some ps -> ps = readable_pages pypdf_pages BUCKET_NAME w s3_key)
    /\ (pending_faults w = [] ->
        pending_faults w1 = []
        /\ default [] pages = readable_pages pypdf_pages BUCKET_NAME w s3_key).
Proof.
  unfold download_and_process_pdf, try_except, bind, s3_client.download_file,
    PyPDFLoader_load_and_split, external, except_Exception, st.error, st.report, ret,
    next_fault, readable_pages, published.
  destruct (pending_faults w) as [|[e1|] [|[e2|] rest]] eqn:Hf; simpl; rewrite ?Hf; simpl;
    destruct (s3 w !! BUCKET_NAME ≫= _) as [bytes|] eqn:Hb; simpl; rewrite ?Hf; simpl;
    rewrite ?lookup_insert_eq; simpl;
    try destruct (pypdf_pages _ bytes) as [pages|] eqn:Hp; simpl;
    rewrite <- ?app_assoc; simpl.
  all: do 3 eexists; split; [reflexivity|];
    split; [simpl; rewrite ?Hf; simpl; rewrite <- ?app_assoc; reflexivity|];
    split; [reflexivity|]; split; [reflexivity|]; split; [|split].
  all: try (intros [=]).
  all: try (intros ps [= <-]; reflexivity).
  all: try (intros ps [=]).
  all: try (simpl; rewrite ?Hf; simpl; split; reflexivity).
  all: try (eexists [_], _; reflexivity).
  all: try (eexists [_; _], _; reflexivity).
Qed.

(** The loop of lines 175-180, for any accumulator: it never raises, it
    tries every key in order, and it adds the pages of the keys that
    loaded, [loaded] below, and of no other. *)
Lemma load_documents_run : forall (pdf_files : list string) (acc : list Document) (w : World),
  exists all_pages w' evs loaded,
    load_documents pypdf_pages BUCKET_NAME pdf_files acc w = (Ok all_pages, w')
    /\ trace w' = trace w ++ evs
    /\ downloads evs = pdf_files
    /\ s3 w' = s3 w
    /\ sublist loaded pdf_files
    /\ all_pages = acc ++ List.flat_map (readable_pages pypdf_pages BUCKET_NAME w) loaded
    /\ (pending_faults w = [] ->
        pending_faults w' = []
        /\ all_pages = acc ++ List.flat_map (readable_pages pypdf_pages BUCKET_NAME w) pdf_files).
Proof.
  induction pdf_files as [|pdf_file rest IH]; intros acc w.
  - exists acc, w, [], []. simpl. rewrite !app_nil_r. by repeat split.
  - cbn [load_documents]. unfold bind at 1, st.write at 1, st.report.
    set (w0 := log _ w).
    destruct (download_and_process_pdf_run pdf_file w0)
      as (pages & w1 & evs1 & Hrun & Ht1 & Hd1 & Hs1 & _ & Hsome & Hq1).
    change (readable_pages pypdf_pages BUCKET_NAME w0 pdf_file)
      with (readable_pages pypdf_pages BUCKET_NAME w pdf_file) in *.
    change (pending_faults w0) with (pending_faults w) in Hq1.
    unfold bind at 1. rewrite Hrun.
    assert (forall ks, List.flat_map (readable_pages pypdf_pages BUCKET_NAME w1) ks
                       = List.flat_map (readable_pages pypdf_pages BUCKET_NAME w) ks) as Hread.
    { intros ks. apply flat_map_ext. intros k. unfold readable_pages, published. by rewrite Hs1. }
    destruct pages as [[|p ps]|].
    + destruct (IH acc w1) as (all_pages & w' & evs & loaded & HIH & Ht & Hd & Hs & Hsub & Hall & Hq).
      exists all_pages, w',
        ((EvUi UiWrite ("Processing " +:+ pdf_file +:+ "...") :: evs1) ++ evs), loaded.
      split; [exact HIH|]. split; [rewrite Ht, Ht1; subst w0; simpl; by rewrite <- !app_assoc|].
      split; [rewrite downloads_app; simpl; fold (downloads evs1); by rewrite Hd1, Hd|].
      split; [by rewrite Hs, Hs1|].
      split; [by apply sublist_cons|].
      split; [by rewrite Hall, Hread|].
      intros Hf. destruct (Hq1 Hf) as [Hf1 Hp1]. destruct (Hq Hf1) as [Hf' ->].
      split; [exact Hf'|]. simpl. rewrite <- Hp1. simpl. by rewrite Hread.
    + unfold bind at 1, st.write at 1, st.report.
      set (w2 := log _ w1).
      destruct (IH (acc ++ p :: ps) w2)
        as (all_pages & w' & evs & loaded & HIH & Ht & Hd & Hs & Hsub & Hall & Hq).
      assert (forall ks, List.flat_map (readable_pages pypdf_pages BUCKET_NAME w2) ks
                         = List.flat_map (readable_pages pypdf_pages BUCKET_NAME w) ks) as Hread2
        by exact Hread.
      exists all_pages, w',
        ((EvUi UiWrite ("Processing " +:+ pdf_file +:+ "...") :: evs1)
         ++ EvUi UiWrite ("Added " +:+ pretty (length (p :: ps)) +:+ " pages from " +:+ pdf_file)
         :: evs), (pdf_file :: loaded).
      split; [exact HIH|].
      split; [rewrite Ht; subst w2; simpl; rewrite Ht1; subst w0; simpl;
              by rewrite <- !app_assoc|].
      split; [rewrite downloads_app; simpl; fold (downloads evs1) (downloads evs);
              by rewrite Hd1, Hd|].
      split; [rewrite Hs; subst w2; simpl; by rewrite Hs1|].
      split; [by apply sublist_skip|].
      split; [rewrite Hall, Hread2; simpl; rewrite <- (Hsome _ eq_refl);
              by rewrite <- app_assoc|].
      intros Hf. destruct (Hq1 Hf) as [Hf1 Hp1]. destruct (Hq Hf1) as [Hf' ->].
      split; [exact Hf'|]. simpl. rewrite <- Hp1, Hread2. simpl. by rewrite <- app_assoc.
    + destruct (IH acc w1) as (all_pages & w' & evs & loaded & HIH & Ht & Hd & Hs & Hsub & Hall & Hq).
      exists all_pages, w',
        ((EvUi UiWrite ("Processing " +:+ pdf_file +:+ "...") :: evs1) ++ evs), loaded.
      split; [exact HIH|]. split; [rewrite Ht, Ht1; subst w0; simpl; by rewrite <- !app_assoc|].
      split; [rewrite downloads_app; simpl; fold (downloads evs1); by rewrite Hd1, Hd|].
      split; [by rewrite Hs, Hs1|].
      split; [by apply sublist_cons|].
      split; [by rewrite Hall, Hread|].
      intros Hf. destruct (Hq1 Hf) as [Hf1 Hp1]. destruct (Hq Hf1) as [Hf' ->].
      split; [exact Hf'|]. simpl. rewrite <- Hp1. simpl. by rewrite Hread.
Qed.

(** One document, exactly: what it returns, what it reports and the calls
    it takes, from the object stored under its key and the faults that
    meet its two calls. *)
Lemma download_and_process_pdf_outcome (s3_key : string) (w : World) :
  let stored := published BUCKET_NAME w s3_key in
  let outcome :=
    document_outcome pypdf_pages stored ("/tmp/" +:+ Py.basename s3_key)
                     (fault_at 0 (pending_faults w)) (fault_at 1 (pending_faults w)) in
  exists w1 evs,
    download_and_process_pdf pypdf_pages BUCKET_NAME s3_key w
    = (Ok (match outcome with Ok pages => Some pages | Raise _ => None end), w1)
    /\ trace w1 = trace w ++ evs
    /\ downloads evs = [s3_key]
    /\ error_reports evs = option_list (failure_report (s3_key, outcome))
    /\ s3 w1 = s3 w
    /\ pending_faults w1
       = drop (document_calls stored (fault_at 0 (pending_faults w))) (pending_faults w).
Proof.
  unfold download_and_process_pdf, try_except, bind, s3_client.download_file,
    PyPDFLoader_load_and_split, external, except_Exception, st.error, st.report, ret,
    next_fault, published, document_outcome, document_calls, fault_at, processing_error.
  destruct (s3 w !! BUCKET_NAME ≫= (fun objects : gmap string string => objects !! s3_key))
    as [bytes|] eqn:Hb;
    destruct (pending_faults w) as [|[e1|] [|[e2|] rest]] eqn:Hf; simpl; rewrite ?Hf; simpl;
    rewrite ?Hb; simpl; rewrite ?Hf; simpl;
    rewrite ?lookup_insert_eq; simpl;
    try destruct (pypdf_pages _ bytes) as [pages|] eqn:Hp; simpl;
    rewrite <- ?app_assoc; simpl.
  all: do 2 eexists; split; [reflexivity|];
    split; [simpl; rewrite ?Hf; simpl; rewrite <- ?app_assoc; reflexivity|];
    split; [reflexivity|]; split; [reflexivity|]; split; [reflexivity|];
    simpl; rewrite ?Hf; reflexivity.
Qed.

Lemma error_reports_app (evs1 evs2 : list event) :
  error_reports (evs1 ++ evs2) = error_reports evs1 ++ error_reports evs2.
Proof. apply List.filter_app. Qed.

(** The loop of lines 175-180, exactly, for any accumulator. *)
Lemma load_documents_outcomes : forall (pdf_files : list string) (acc : list Document) (w : World),
  exists w' evs,
    load_documents pypdf_pages BUCKET_NAME pdf_files acc w
    = (Ok (acc ++ List.flat_map loaded_pages
                    (outcomes pypdf_pages (published BUCKET_NAME w) (pending_faults w)
                              pdf_files)), w')
    /\ trace w' = trace w ++ evs
    /\ downloads evs = pdf_files
    /\ error_reports evs
       = omap failure_report
           (outcomes pypdf_pages (published BUCKET_NAME w) (pending_faults w) pdf_files)
    /\ s3 w' = s3 w.
Proof.
  induction pdf_files as [|pdf_file rest IH]; intros acc w.
  - exists w, []. simpl. rewrite !app_nil_r. by repeat split.
  - cbn [load_documents outcomes]. unfold bind at 1, st.write at 1, st.report.
    set (w0 := log _ w).
    destruct (download_and_process_pdf_outcome pdf_file w0)
      as (w1 & evs1 & Hrun & Ht1 & Hd1 & He1 & Hs1 & Hf1).
    change (published BUCKET_NAME w0 pdf_file) with (published BUCKET_NAME w pdf_file) in *.
    change (pending_faults w0) with (pending_faults w) in *.
    unfold bind at 1. rewrite Hrun.
    set (outcome := document_outcome _ _ _ _ _) in *.
    assert (forall w2, s3 w2 = s3 w1 -> pending_faults w2 = pending_faults w1 ->
              outcomes pypdf_pages (published BUCKET_NAME w2) (pending_faults w2) rest
              = outcomes pypdf_pages (published BUCKET_NAME w)
                  (drop (document_calls (published BUCKET_NAME w pdf_file)
                                        (fault_at 0 (pending_faults w))) (pending_faults w))
                  rest) as Hrest.
    { intros w2 Hs2 Hf2. rewrite Hf2, Hf1. unfold published. by rewrite Hs2, Hs1. }
    destruct outcome as [[|p ps]|e] eqn:Ho.
    + destruct (IH acc w1) as (w' & evs & HIH & Ht & Hd & He & Hs).
      rewrite (Hrest w1 eq_refl eq_refl) in HIH, He.
      exists w', ((EvUi UiWrite ("Processing " +:+ pdf_file +:+ "...") :: evs1) ++ evs).
      split; [exact HIH|].
      split; [rewrite Ht, Ht1; subst w0; simpl; by rewrite <- !app_assoc|].
      split; [rewrite downloads_app; simpl; fold (downloads evs1); by rewrite Hd1, Hd|].
      split; [|by rewrite Hs, Hs1].
      rewrite error_reports_app. simpl. fold (error_reports evs1). by rewrite He1, He.
    + unfold bind at 1, st.write at 1, st.report.
      set (w2 := log _ w1).
      destruct (IH (acc ++ p :: ps) w2) as (w' & evs & HIH & Ht & Hd & He & Hs).
      rewrite (Hrest w2 eq_refl eq_refl) in HIH, He.
      exists w',
        ((EvUi UiWrite ("Processing " +:+ pdf_file +:+ "...") :: evs1)
         ++ EvUi UiWrite ("Added " +:+ pretty (length (p :: ps)) +:+ " pages from " +:+ pdf_file)
         :: evs).
      split; [rewrite HIH; simpl; by rewrite <- app_assoc|].
      split; [rewrite Ht; subst w2; simpl; rewrite Ht1; subst w0; simpl;
              by rewrite <- !app_assoc|].
      split; [rewrite downloads_app; simpl; fold (downloads evs1) (downloads evs);
              by rewrite Hd1, Hd|].
      split; [|rewrite Hs; subst w2; simpl; by rewrite Hs1].
      rewrite error_reports_app. simpl. fold (error_reports evs1) (error_reports evs).
      by rewrite He1, He.
    + destruct (IH acc w1) as (w' & evs & HIH & Ht & Hd & He & Hs).
      rewrite (Hrest w1 eq_refl eq_refl) in HIH, He.
      exists w', ((EvUi UiWrite ("Processing " +:+ pdf_file +:+ "...") :: evs1) ++ evs).
      split; [exact HIH|].
      split; [rewrite Ht, Ht1; subst w0; simpl; by rewrite <- !app_assoc|].
      split; [rewrite downloads_app; simpl; fold (downloads evs1); by rewrite Hd1, Hd|].
      split; [|by rewrite Hs, Hs1].
      rewrite error_reports_app. simpl. fold (error_reports evs1). by rewrite He1, He.
Qed.

(** C5. A document whose download or extraction fails costs the run that
    document only.  [download_and_process_pdf] never raises: it returns the
    pages of a document that loads, and for one that fails (its download
    is refused or finds no object, its extraction is refused or cannot
    read the bytes) it returns [None] after exactly one error report, which
    names the key.  The loop of [main] never raises either, whatever fails
    and however often: it tries every listed key in order, and it returns
    exactly the pages of the documents that loaded, in order, where the
    outcome of each document depends on its own object and on the failures
    of its own calls only; the error reports of the loop are those of the
    failed documents, one each. *)
Theorem load_documents_isolates_failures (pdf_files : list string) (w : World) :
  let attempts :=
    outcomes pypdf_pages (published BUCKET_NAME w) (pending_faults w) pdf_files in
  (forall s3_key w0,
     let outcome :=
       document_outcome pypdf_pages (published BUCKET_NAME w0 s3_key)
                        ("/tmp/" +:+ Py.basename s3_key)
                        (fault_at 0 (pending_faults w0)) (fault_at 1 (pending_faults w0)) in
     exists w1,
       download_and_process_pdf pypdf_pages BUCKET_NAME s3_key w0
       = (Ok (match outcome with Ok pages => Some pages | Raise _ => None end), w1)
       /\ error_reports (events_since w0 w1)
          = match outcome with
            | Ok _ => []
            | Raise e => [processing_error s3_key (exn_str e)]
            end)
  /\ exists w',
       load_documents pypdf_pages BUCKET_NAME pdf_files [] w
       = (Ok (List.flat_map loaded_pages attempts), w')
       /\ downloads (events_since w w') = pdf_files
       /\ error_reports (events_since w w') = omap failure_report attempts
       /\ s3 w' = s3 w.
Proof.
  intros attempts. split.
  - intros s3_key w0 outcome.
    destruct (download_and_process_pdf_outcome s3_key w0)
      as (w1 & evs & Hrun & Ht & _ & He & _).
    exists w1. split; [exact Hrun|].
    rewrite (events_since_extends _ _ _ Ht), He. fold outcome. by destruct outcome.
  - destruct (load_documents_outcomes pdf_files [] w) as (w' & evs & Hrun & Ht & Hd & He & Hs).
    exists w'. rewrite (events_since_extends _ _ _ Ht). by repeat split.
Qed.

End Loading.

(** ** Start-up *)

Section Startup.

Variable pypdf_pages : string -> string -> option (list Document).
Variable split_documents : Z -> Z -> list Document -> result (list Document).
Variable titan_embed : string -> Vector.
Variable faiss_write_index : list Vector -> string.
Variable pickle_dumps : list Document -> string.

(** C8. When [BUCKET_NAME] is set neither in the environment nor in
    [.env], running the module raises the [ValueError] of line 14; nothing
    but the environment has changed by then, and no external call and no
    report was made. *)
Theorem missing_bucket_name_is_fatal (w : World) :
  os_environ w !! "BUCKET_NAME" = None ->
  dotenv_file w !! "BUCKET_NAME" = None ->
  let w' := with_environ (os_environ w ∪ dotenv_file w) w in
  admin_module pypdf_pages split_documents titan_embed faiss_write_index pickle_dumps w
  = (Raise (ValueError "BUCKET_NAME environment variable is not set"), w')
  /\ events_since w w' = [].
Proof.
  intros Henv Hfile. split.
  - unfold admin_module, bind, load_dotenv, os_getenv. simpl.
    by rewrite (proj2 (lookup_union_None _ _ _) (conj Henv Hfile)).
  - unfold events_since. simpl. apply drop_all.
Qed.

(** An empty value is refused like a missing one. *)
Lemma empty_bucket_name_is_fatal (w : World) :
  os_environ w !! "BUCKET_NAME" = Some "" ->
  fst (admin_module pypdf_pages split_documents titan_embed faiss_write_index pickle_dumps w)
  = Raise (ValueError "BUCKET_NAME environment variable is not set").
Proof.
  intros Henv. unfold admin_module, bind, load_dotenv, os_getenv. simpl.
  by rewrite (lookup_union_Some_l _ _ _ _ Henv).
Qed.

End Startup.

(** ** The claims at concrete inputs *)

(** C9, as stated, fails: a connection error of the existence check is
    not a [ClientError], so the function raises instead of returning
    [False]. *)
Lemma connection_error_is_not_false :
  ~ other_check_failures_return_false Bench.bucket
      (Bench.world EmailStyle [Some Bench.connection_error]).
Proof.
  intros H.
  specialize (H Bench.connection_error
                (called (EvHeadBucket Bench.bucket)
                        (Bench.world EmailStyle [Some Bench.connection_error]))
                eq_refl).
  assert (forall message operation_name max_retries_reached,
            Bench.connection_error
            <> ClientError "404" message operation_name max_retries_reached) as Hne
    by (intros message operation_name max_retries_reached; discriminate).
  specialize (H Hne). vm_compute in H. discriminate.
Qed.

(** A bucket that does not exist yet is created, and the second call finds
    it. *)
Lemma ensure_bucket_exists_contract_witness :
  let w := mkWorld ∅ ∅ ∅ ∅ NormalStyle false [] [] in
  let w' := snd (ensure_bucket_exists Bench.bucket w) in
  ensure_bucket_exists Bench.bucket w = (Ok true, w')
  /\ next_fault w' = None
  /\ is_Some (s3 w' !! Bench.bucket)
  /\ ensure_bucket_exists Bench.bucket w' = (Ok true, called (EvHeadBucket Bench.bucket) w').
Proof.
  intros w w'.
  destruct (ensure_bucket_exists_contract Bench.pypdf_pages SpecChunker.split_documents
              Bench.titan_embed Bench.faiss_write_index Bench.pickle_dumps Bench.bucket w)
    as (_ & Hidem & _).
  assert (ensure_bucket_exists Bench.bucket w = (Ok true, w')) as Hrun by (vm_compute; reflexivity).
  destruct (Hidem w' Hrun) as [Hsome Hagain].
  split; [exact Hrun|]. split; [reflexivity|]. split; [exact Hsome|].
  apply Hagain. reflexivity.
Defined.

(** C6. The claim fails on a prefix that holds more objects than one
    response: of the 1001 stored PDFs [mail/0000.pdf] to [mail/1000.pdf],
    [list_pdfs_in_s3] returns the first 1000 without any error report, and
    not [mail/1000.pdf], a stored key under the prefix that ends with
    [.pdf]. *)
Theorem list_pdfs_in_s3_reads_one_page :
  let w := Bench.crowded_world in
  let w' := snd (list_pdfs_in_s3 Bench.bucket "mail/" w) in
  fst (list_pdfs_in_s3 Bench.bucket "mail/" w) = Ok (List.map Bench.numbered (seq 0 1000))
  /\ error_reports (events_since w w') = []
  /\ Bench.numbered 1000 = "mail/1000.pdf"
  /\ published Bench.bucket w "mail/1000.pdf" = Some "letter"
  /\ ("mail/1000.pdf" ∉ List.map Bench.numbered (seq 0 1000))
  /\ length (pdf_keys Bench.bucket "mail/" w) = 1001%nat.
Proof.
  split; [vm_compute; reflexivity|]. split; [vm_compute; reflexivity|].
  split; [vm_compute; reflexivity|]. split; [vm_compute; reflexivity|].
  split; [|vm_compute; reflexivity].
  apply (bool_decide_eq_false_1 _). vm_compute. reflexivity.
Qed.

(** The keys that listing returns, and the suffix test on three keys. *)
Example listing_of_mail :
  fst (list_pdfs_in_s3 Bench.bucket "mail/" (Bench.world EmailStyle []))
  = Ok ["mail/B.PDF"; "mail/a.pdf"].
Proof. vm_compute. reflexivity. Qed.

(** Mixed case, other suffixes, other prefixes, and the order of the
    store. *)
Example listing_of_mixed_keys :
  fst (list_pdfs_in_s3 Bench.bucket "mail/" (Bench.mixed_world []))
  = Ok ["mail/Z.Pdf"; "mail/a.PDF"; "mail/b.pdf"].
Proof. vm_compute. reflexivity. Qed.

Example suffix_test :
  is_pdf_key "report/Q1.Pdf" = true /\ is_pdf_key "report/Q1.PDF" = true
  /\ is_pdf_key "report/Q1.pdf.bak" = false /\ is_pdf_key "pdf" = false.
Proof. vm_compute. auto. Qed.

(** Scenario B: no PDF under [report/]. *)
Lemma main_stops_without_pdfs_witness :
  let w := Bench.world ReportStyle [] in
  let w1 := snd (main_select_style Bench.bucket w) in
  let w2 := snd (list_pdfs_in_s3 Bench.bucket "report/" w1) in
  main_select_style Bench.bucket w = (Ok (Some ReportStyle), w1)
  /\ list_pdfs_in_s3 Bench.bucket (prefix_map ReportStyle) w1 = (Ok [], w2)
  /\ main Bench.pypdf_pages SpecChunker.split_documents Bench.titan_embed
          Bench.faiss_write_index Bench.pickle_dumps Bench.bucket w
     = (Ok tt, log (no_pdf_warning ReportStyle) w2)
  /\ no_processing_event (events_since w (log (no_pdf_warning ReportStyle) w2)).
Proof.
  intros w w1 w2.
  assert (main_select_style Bench.bucket w = (Ok (Some ReportStyle), w1)) as Hsel
    by (vm_compute; reflexivity).
  assert (list_pdfs_in_s3 Bench.bucket (prefix_map ReportStyle) w1 = (Ok [], w2)) as Hlist
    by (vm_compute; reflexivity).
  split; [exact Hsel|]. split; [exact Hlist|].
  exact (main_stops_without_pdfs Bench.pypdf_pages SpecChunker.split_documents Bench.titan_embed
           Bench.faiss_write_index Bench.pickle_dumps Bench.bucket ReportStyle w w1 w2
           Hsel Hlist).
Defined.

(** The listing call is refused a connection. *)
Lemma listing_failure_reads_as_no_documents_witness :
  let w0 := Bench.world EmailStyle [None; Some Bench.connection_error] in
  let w := snd (main_select_style Bench.bucket w0) in
  let w' := snd (s3_client.list_objects_v2 Bench.bucket "mail/" w) in
  s3_client.list_objects_v2 Bench.bucket "mail/" w = (Raise Bench.connection_error, w')
  /\ main_select_style Bench.bucket w0 = (Ok (Some EmailStyle), w)
  /\ list_pdfs_in_s3 Bench.bucket "mail/" w
     = (Ok [], log (listing_error "mail/" Bench.connection_error) w')
  /\ main Bench.pypdf_pages SpecChunker.split_documents Bench.titan_embed
          Bench.faiss_write_index Bench.pickle_dumps Bench.bucket w0
     = (Ok tt, log (no_pdf_warning EmailStyle)
                   (log (listing_error "mail/" Bench.connection_error) w')).
Proof.
  intros w0 w w'.
  assert (s3_client.list_objects_v2 Bench.bucket "mail/" w
          = (Raise Bench.connection_error, w')) as Hfail by (vm_compute; reflexivity).
  assert (main_select_style Bench.bucket w0 = (Ok (Some EmailStyle), w)) as Hsel
    by (vm_compute; reflexivity).
  destruct (listing_failure_reads_as_no_documents Bench.pypdf_pages SpecChunker.split_documents
              Bench.titan_embed Bench.faiss_write_index Bench.pickle_dumps Bench.bucket
              "mail/" Bench.connection_error w w' Hfail) as [Hlist Hmain].
  split; [exact Hfail|]. split; [exact Hsel|]. split; [exact Hlist|].
  exact (Hmain EmailStyle w0 eq_refl Hsel).
Defined.

Lemma missing_bucket_name_is_fatal_witness :
  let w := mkWorld ∅ (<["AWS_REGION" := "us-east-1"]> ∅) ∅ ∅ NormalStyle false [] [] in
  os_environ w !! "BUCKET_NAME" = None
  /\ dotenv_file w !! "BUCKET_NAME" = None
  /\ admin_module Bench.pypdf_pages SpecChunker.split_documents Bench.titan_embed
                  Bench.faiss_write_index Bench.pickle_dumps w
     = (Raise (ValueError "BUCKET_NAME environment variable is not set"),
        with_environ (os_environ w ∪ dotenv_file w) w)
  /\ events_since w (with_environ (os_environ w ∪ dotenv_file w) w) = [].
Proof.
  intros w.
  assert (os_environ w !! "BUCKET_NAME" = None) as Henv by reflexivity.
  assert (dotenv_file w !! "BUCKET_NAME" = None) as Hfile by (vm_compute; reflexivity).
  split; [exact Henv|]. split; [exact Hfile|].
  exact (missing_bucket_name_is_fatal Bench.pypdf_pages SpecChunker.split_documents
           Bench.titan_embed Bench.faiss_write_index Bench.pickle_dumps w Henv Hfile).
Defined.

(** Three documents; the download of the second is refused a connection.
    The first and the third are loaded, the second is reported. *)
Lemma load_documents_isolates_failures_witness :
  let w := Bench.mixed_world [None; None; Some Bench.connection_error] in
  exists w',
    load_documents Bench.pypdf_pages Bench.bucket
                   ["mail/Z.Pdf"; "mail/a.PDF"; "mail/b.pdf"] [] w
    = (Ok [mkDocument "last letter" "/tmp/Z.Pdf" 0;
           mkDocument "second letter" "/tmp/b.pdf" 0], w')
    /\ downloads (events_since w w') = ["mail/Z.Pdf"; "mail/a.PDF"; "mail/b.pdf"]
    /\ error_reports (events_since w w')
       = [processing_error "mail/a.PDF" "Could not connect to the endpoint URL"].
Proof.
  intros w.
  destruct (load_documents_isolates_failures Bench.pypdf_pages Bench.bucket
              ["mail/Z.Pdf"; "mail/a.PDF"; "mail/b.pdf"] w)
    as (_ & w' & Hrun & Hd & He & _).
  exists w'. split; [exact Hrun|]. split; [exact Hd|exact He].
Defined.

(** Scenario C in the loop: the corrupt document and a missing one are
    reported, each with the error of its own call. *)
Example loop_with_corrupt_and_missing :
  let w := Bench.world EmailStyle [] in
  let '(all_pages, w') :=
    load_documents Bench.pypdf_pages Bench.bucket
                   ["mail/B.PDF"; "mail/gone.pdf"; "mail/a.pdf"] [] w in
  all_pages = Ok [mkDocument "first letter" "/tmp/a.pdf" 0]
  /\ error_reports (events_since w w')
     = [processing_error "mail/B.PDF" "invalid pdf";
        processing_error "mail/gone.pdf"
          "An error occurred (404) when calling the HeadObject operation: Not Found"].
Proof. vm_compute. split; reflexivity. Qed.

Example readable_pages_of_mail :
  List.flat_map (readable_pages Bench.pypdf_pages Bench.bucket (Bench.world EmailStyle []))
                ["mail/a.pdf"; "mail/B.PDF"]
  = [mkDocument "first letter" "/tmp/a.pdf" 0].
Proof. vm_compute. reflexivity. Qed.

(** The whole run of scenario C: the corrupt document is reported, the
    other one is chunked, embedded and published, and the run succeeds. *)
Example scenario_corrupt_pdf :
  let '(r, w') :=
    admin_module Bench.pypdf_pages SpecChunker.split_documents Bench.titan_embed
                 Bench.faiss_write_index Bench.pickle_dumps (Bench.world EmailStyle []) in
  r = Ok tt
  /\ downloads (trace w') = ["mail/B.PDF"; "mail/a.pdf"]
  /\ error_reports (trace w') = [processing_error "mail/B.PDF" "invalid pdf"]
  /\ embed_requests (trace w') = ["first letter"]
  /\ uploads (trace w') = ["my_faiss_mail.faiss"; "my_faiss_mail.pkl"]
  /\ published Bench.bucket w' "my_faiss_mail.faiss" = Some "faiss:1"
  /\ published Bench.bucket w' "my_faiss_mail.pkl" = Some "pkl:first letter"
  /\ last (trace w')
     = Some (EvUi UiSuccess "PDFs processed and FAISS index created successfully for Email Style!").
Proof. vm_compute. repeat split; reflexivity. Qed.

(** A throttled embedding request ends the run of [main] with the
    exception: nothing is saved, nothing is uploaded. *)
Example scenario_embedding_failure :
  let '(r, w') :=
    admin_module Bench.pypdf_pages SpecChunker.split_documents Bench.titan_embed
                 Bench.faiss_write_index Bench.pickle_dumps
                 (Bench.world EmailStyle [None; None; None; None; None; None;
                                          Some Bench.throttled]) in
  r = Raise Bench.throttled
  /\ embed_requests (trace w') = ["first letter"]
  /\ uploads (trace w') = []
  /\ published Bench.bucket w' "my_faiss_mail.faiss" = Some "faiss:old".
Proof. vm_compute. repeat split; reflexivity. Qed.

(** ** Frames: what the script may call and write *)

Section Frames.

Variable P : event -> Prop.
Variable W : string -> string -> Prop.

Lemma frame_refl (w : World) : frame P W w w.
Proof.
  repeat split; try reflexivity. exists []. by rewrite app_nil_r.
Qed.

Lemma frame_trans (w1 w2 w3 : World) :
  frame P W w1 w2 -> frame P W w2 w3 -> frame P W w1 w3.
Proof.
  intros ((evs1 & Ht1 & Hp1) & Hs1 & Hr1 & Hb1 & He1 & Hd1)
         ((evs2 & Ht2 & Hp2) & Hs2 & Hr2 & Hb2 & He2 & Hd2).
  repeat split; try congruence.
  - exists (evs1 ++ evs2). split; [by rewrite Ht2, Ht1, <- app_assoc | by apply Forall_app].
  - intros b key Hw. by rewrite Hs2, Hs1.
Qed.

Lemma frame_log (ev : event) (w : World) : P ev -> frame P W w (log ev w).
Proof. intros Hev. repeat split; try reflexivity. exists [ev]. split; [reflexivity | by constructor]. Qed.

Lemma frame_called (ev : event) (w : World) : P ev -> frame P W w (called ev w).
Proof. intros Hev. repeat split; try reflexivity. exists [ev]. split; [reflexivity | by constructor]. Qed.

Lemma frame_with_tmp (t : gmap string string) (w : World) : frame P W w (with_tmp t w).
Proof. repeat split; try reflexivity. exists []. by rewrite app_nil_r. Qed.

Lemma preserves_ret {A} (a : A) : preserves P W (ret a).
Proof. intros w. apply frame_refl. Qed.

Lemma preserves_raise {A} (e : exn) : preserves P W (@raise A e).
Proof. intros w. apply frame_refl. Qed.

Lemma preserves_bind {A B} (m : M A) (k : A -> M B) :
  preserves P W m -> (forall a, preserves P W (k a)) -> preserves P W (bind m k).
Proof.
  intros Hm Hk w. unfold bind. specialize (Hm w).
  destruct (m w) as [[a|e] w1]; [|exact Hm].
  eapply frame_trans; [exact Hm | apply Hk].
Qed.

Lemma preserves_try_except {A} (body : M A) (clause : exn -> option (M A)) :
  preserves P W body ->
  (forall e handler, clause e = Some handler -> preserves P W handler) ->
  preserves P W (try_except body clause).
Proof.
  intros Hb Hc w. unfold try_except. specialize (Hb w).
  destruct (body w) as [[a|e] w1]; [exact Hb|].
  destruct (clause e) as [handler|] eqn:He; [|exact Hb].
  eapply frame_trans; [exact Hb | by apply (Hc e)].
Qed.

Lemma preserves_external {A} (ev : event) (service : M A) :
  P ev -> preserves P W service -> preserves P W (external ev service).
Proof.
  intros Hev Hs w. unfold external.
  destruct (next_fault w); [by apply frame_called|].
  eapply frame_trans; [by apply frame_called | apply Hs].
Qed.

Lemma preserves_report (k : ui_kind) (msg : string) :
  P (EvUi k msg) -> preserves P W (st.report k msg).
Proof. intros Hev w. by apply frame_log. Qed.

End Frames.

(** ** The frames of the script's functions *)

Section ScriptFrames.

Variable pypdf_pages : string -> string -> option (list Document).
Variable split_documents : Z -> Z -> list Document -> result (list Document).
Variable titan_embed : string -> Vector.
Variable faiss_write_index : list Vector -> string.
Variable pickle_dumps : list Document -> string.
Variable BUCKET_NAME : string.
Variable P : event -> Prop.
Variable W : string -> string -> Prop.

Lemma published_insert_bucket (objects : gmap string string) (key bytes : string) (w : World) :
  s3 w !! BUCKET_NAME = Some objects -> W BUCKET_NAME key ->
  forall b k, ~ W b k ->
    published b (with_s3 (<[BUCKET_NAME := <[key := bytes]> objects]> (s3 w)) w) k
    = published b w k.
Proof.
  intros Hb Hw b k Hn. unfold published. simpl.
  destruct (decide (b = BUCKET_NAME)) as [->|Hne].
  - rewrite lookup_insert_eq, Hb. simpl.
    rewrite lookup_insert_ne; [reflexivity|]. intros ->. contradiction.
  - by rewrite lookup_insert_ne.
Qed.

Lemma published_create_bucket (w : World) :
  s3 w !! BUCKET_NAME = None ->
  forall b k, published b (with_s3 (<[BUCKET_NAME := ∅]> (s3 w)) w) k = published b w k.
Proof.
  intros Hb b k. unfold published. simpl.
  destruct (decide (b = BUCKET_NAME)) as [->|Hne].
  - by rewrite lookup_insert_eq, Hb.
  - by rewrite lookup_insert_ne.
Qed.

Lemma preserves_head_bucket :
  P (EvHeadBucket BUCKET_NAME) -> preserves P W (s3_client.head_bucket BUCKET_NAME).
Proof.
  intros Hev. apply preserves_external; [exact Hev|].
  intros w. simpl. destruct (s3 w !! BUCKET_NAME); apply frame_refl.
Qed.

Lemma preserves_create_bucket :
  P (EvCreateBucket BUCKET_NAME) -> preserves P W (s3_client.create_bucket BUCKET_NAME).
Proof.
  intros Hev. apply preserves_external; [exact Hev|].
  intros w. simpl. destruct (s3 w !! BUCKET_NAME) eqn:Hb; [apply frame_refl|].
  repeat split; try reflexivity.
  - exists []. by rewrite app_nil_r.
  - intros b k _. by apply published_create_bucket.
Qed.

Lemma preserves_list_objects_v2 (prefix : string) :
  P (EvListObjects BUCKET_NAME prefix) ->
  preserves P W (s3_client.list_objects_v2 BUCKET_NAME prefix).
Proof.
  intros Hev. apply preserves_external; [exact Hev|].
  intros w. simpl. destruct (s3 w !! BUCKET_NAME); apply frame_refl.
Qed.

Lemma preserves_download_file (key filename : string) :
  P (EvDownload BUCKET_NAME key filename) ->
  preserves P W (s3_client.download_file BUCKET_NAME key filename).
Proof.
  intros Hev. apply preserves_external; [exact Hev|].
  intros w. simpl. destruct (s3 w !! BUCKET_NAME ≫= _); [apply frame_with_tmp | apply frame_refl].
Qed.

Lemma preserves_upload_file (filename key : string) :
  P (EvUpload filename BUCKET_NAME key) -> W BUCKET_NAME key ->
  preserves P W (s3_client.upload_file filename BUCKET_NAME key).
Proof.
  intros Hev Hw. apply preserves_external; [exact Hev|].
  intros w. simpl. destruct (tmp_files w !! _) as [bytes|]; [|apply frame_refl].
  destruct (s3 w !! BUCKET_NAME) as [objects|] eqn:Hb; [|apply frame_refl].
  repeat split; try reflexivity.
  - exists []. by rewrite app_nil_r.
  - by apply published_insert_bucket.
Qed.

Lemma preserves_load_and_split (file_path : string) :
  P (EvPdfLoad file_path) ->
  preserves P W (PyPDFLoader_load_and_split pypdf_pages file_path).
Proof.
  intros Hev. apply preserves_external; [exact Hev|].
  intros w. simpl. destruct (tmp_files w !! file_path) as [bytes|]; [|apply frame_refl].
  destruct (pypdf_pages file_path bytes); apply frame_refl.
Qed.

Lemma preserves_embed_documents (texts : list string) :
  (forall text, P (EvEmbed text)) ->
  preserves P W (bedrock_embed_documents titan_embed texts).
Proof.
  intros Hev. induction texts as [|text texts IH]; simpl; [apply preserves_ret|].
  apply preserves_bind; [|intros v; apply preserves_bind; [exact IH | intros vs; apply preserves_ret]].
  apply preserves_external; [apply Hev | apply preserves_ret].
Qed.

Lemma preserves_save_local (vs : VectorStore) (index_name folder_path : string) :
  P (EvSaveLocal folder_path index_name) ->
  preserves P W (FAISS_save_local faiss_write_index pickle_dumps vs index_name folder_path).
Proof.
  intros Hev. apply preserves_external; [exact Hev|].
  intros w. apply frame_with_tmp.
Qed.

(** Lines 58-61. *)
Lemma preserves_split_text (pages : list Document) (chunk_size chunk_overlap : Z) :
  P (EvSplit chunk_size chunk_overlap (length pages)) ->
  preserves P W (split_text split_documents pages chunk_size chunk_overlap).
Proof.
  intros Hev. apply preserves_bind; [|intros docs; apply preserves_ret].
  intros w. by apply frame_log.
Qed.

(** Every report of the front-end but the success reports. *)
Hypothesis P_ui : forall k message, k <> UiSuccess -> P (EvUi k message).

Ltac report := apply preserves_report; first [assumption | apply P_ui; discriminate].

(** Lines 17-34. *)
Lemma preserves_ensure_bucket_exists :
  P (EvHeadBucket BUCKET_NAME) -> P (EvCreateBucket BUCKET_NAME) ->
  P (EvUi UiSuccess ("Created new S3 bucket: " +:+ BUCKET_NAME)) ->
  preserves P W (ensure_bucket_exists BUCKET_NAME).
Proof.
  intros Hhead Hcreate Hcreated. apply preserves_try_except.
  - apply preserves_bind; [by apply preserves_head_bucket | intros _; apply preserves_ret].
  - intros e handler He. destruct e as [code message| | | |]; simpl in He; try discriminate.
    injection He as <-. destruct (String.eqb code "404").
    + apply preserves_try_except.
      * apply preserves_bind; [by apply preserves_create_bucket|]. intros _.
        apply preserves_bind; [report | intros _; apply preserves_ret].
      * intros ce h [= <-].
        apply preserves_bind; [report | intros _; apply preserves_ret].
    + apply preserves_bind; [report | intros _; apply preserves_ret].
Qed.

(** Lines 97-111. *)
Lemma preserves_list_pdfs_in_s3 (prefix : string) :
  P (EvListObjects BUCKET_NAME prefix) ->
  preserves P W (list_pdfs_in_s3 BUCKET_NAME prefix).
Proof.
  intros Hev. apply preserves_try_except.
  - apply preserves_bind; [by apply preserves_list_objects_v2 | intros r; apply preserves_ret].
  - intros e h [= <-].
    apply preserves_bind; [report | intros _; apply preserves_ret].
Qed.

(** Lines 113-126. *)
Lemma preserves_download_and_process_pdf (s3_key : string) :
  P (EvDownload BUCKET_NAME s3_key ("/tmp/" +:+ Py.basename s3_key)) ->
  P (EvPdfLoad ("/tmp/" +:+ Py.basename s3_key)) ->
  preserves P W (download_and_process_pdf pypdf_pages BUCKET_NAME s3_key).
Proof.
  intros Hd Hl. apply preserves_try_except.
  - apply preserves_bind; [by apply preserves_download_file|]. intros _.
    apply preserves_bind; [by apply preserves_load_and_split | intros pages; apply preserves_ret].
  - intros e h [= <-].
    apply preserves_bind; [report | intros _; apply preserves_ret].
Qed.

(** Lines 175-180. *)
Lemma preserves_load_documents (pdf_files : list string) :
  (forall key, P (EvDownload BUCKET_NAME key ("/tmp/" +:+ Py.basename key))) ->
  (forall file_path, P (EvPdfLoad file_path)) ->
  forall all_pages,
    preserves P W (load_documents pypdf_pages BUCKET_NAME pdf_files all_pages).
Proof.
  intros Hd Hl.
  induction pdf_files as [|pdf_file rest IH]; intros all_pages; simpl; [apply preserves_ret|].
  apply preserves_bind; [report|]. intros _.
  apply preserves_bind; [by apply preserves_download_and_process_pdf|].
  intros [[|p ps]|]; try apply IH.
  apply preserves_bind; [report | intros _; apply IH].
Qed.

(** Lines 64-95. *)
Lemma preserves_create_vector_store (style_key : string) (documents : list Document) :
  (forall text, P (EvEmbed text)) ->
  P (EvSaveLocal "/tmp/" ("my_faiss_" +:+ style_key)) ->
  P (EvUpload ("/tmp/" +:+ faiss_index_file style_key) BUCKET_NAME (faiss_index_file style_key)) ->
  P (EvUpload ("/tmp/" +:+ faiss_pkl_file style_key) BUCKET_NAME (faiss_pkl_file style_key)) ->
  W BUCKET_NAME (faiss_index_file style_key) ->
  W BUCKET_NAME (faiss_pkl_file style_key) ->
  preserves P W (create_vector_store titan_embed faiss_write_index pickle_dumps BUCKET_NAME
                                     style_key documents).
Proof.
  intros Hembed Hsave Hup1 Hup2 Hw1 Hw2. apply preserves_bind.
  - apply preserves_bind; [by apply preserves_embed_documents|].
    intros [|v vs]; [apply preserves_raise | apply preserves_ret].
  - intros vs. apply preserves_bind; [by apply preserves_save_local|]. intros _.
    apply preserves_try_except.
    + rewrite index_file_name, pkl_file_name, tmp_index_path, tmp_pkl_path.
      apply preserves_bind; [by apply preserves_upload_file|]. intros _.
      apply preserves_bind; [by apply preserves_upload_file|]. intros _.
      apply preserves_ret.
    + intros e h [= <-].
      apply preserves_bind; [report | intros _; apply preserves_ret].
Qed.

(** Lines 187-192. *)
Lemma preserves_show_sample_chunks (splitted_docs : list Document) :
  preserves P W (show_sample_chunks splitted_docs).
Proof.
  destruct splitted_docs as [|d0 [|d1 more]]; simpl; [apply preserves_ret| |].
  - apply preserves_bind; [report|]. intros _.
    apply preserves_bind; [report | intros _; apply preserves_ret].
  - apply preserves_bind; [report|]. intros _.
    apply preserves_bind; [report | intros _; report].
Qed.

(** Lines 165-201. *)
Lemma preserves_main_process (style_choice : StyleChoice) (pdf_files : list string) :
  (forall key, P (EvDownload BUCKET_NAME key ("/tmp/" +:+ Py.basename key))) ->
  (forall file_path, P (EvPdfLoad file_path)) ->
  (forall n, P (EvSplit 1000 200 n)) ->
  (forall text, P (EvEmbed text)) ->
  P (EvSaveLocal "/tmp/" ("my_faiss_" +:+ style_key_map style_choice)) ->
  P (EvUpload ("/tmp/" +:+ faiss_index_file (style_key_map style_choice)) BUCKET_NAME
              (faiss_index_file (style_key_map style_choice))) ->
  P (EvUpload ("/tmp/" +:+ faiss_pkl_file (style_key_map style_choice)) BUCKET_NAME
              (faiss_pkl_file (style_key_map style_choice))) ->
  W BUCKET_NAME (faiss_index_file (style_key_map style_choice)) ->
  W BUCKET_NAME (faiss_pkl_file (style_key_map style_choice)) ->
  P (success_report style_choice) ->
  preserves P W (main_process pypdf_pages split_documents titan_embed faiss_write_index
                              pickle_dumps BUCKET_NAME style_choice pdf_files).
Proof.
  intros Hd Hl Hsplit Hembed Hsave Hup1 Hup2 Hw1 Hw2 Hsuccess. unfold main_process.
  destruct pdf_files as [|pdf_file rest].
  { apply preserves_bind; [report | intros _; apply preserves_ret]. }
  apply preserves_bind; [report|]. intros _.
  apply preserves_bind; [intros w; apply frame_log, P_ui; discriminate|].
  intros [|]; [|apply preserves_ret].
  apply preserves_bind; [by apply preserves_load_documents|].
  intros [|p all_pages]; [apply preserves_ret|].
  apply preserves_bind; [by apply preserves_split_text|]. intros splitted_docs.
  apply preserves_bind; [report|]. intros _.
  apply preserves_bind; [apply preserves_show_sample_chunks|]. intros _.
  apply preserves_bind; [report|]. intros _.
  apply preserves_bind; [by apply preserves_create_vector_store|].
  intros [|]; report.
Qed.

(** Lines 129-162. *)
Lemma preserves_main_select_style :
  P (EvHeadBucket BUCKET_NAME) -> P (EvCreateBucket BUCKET_NAME) ->
  P (EvUi UiSuccess ("Created new S3 bucket: " +:+ BUCKET_NAME)) ->
  preserves P W (main_select_style BUCKET_NAME).
Proof.
  intros Hhead Hcreate Hcreated. unfold main_select_style.
  apply preserves_bind; [report|]. intros _.
  apply preserves_bind; [report|]. intros _.
  apply preserves_bind; [by apply preserves_ensure_bucket_exists|].
  intros [|]; simpl.
  - apply preserves_bind; [intros w; apply frame_log, P_ui; discriminate|]. intros style_choice.
    apply preserves_bind; [report | intros _; apply preserves_ret].
  - apply preserves_bind; [report | intros _; apply preserves_ret].
Qed.

End ScriptFrames.

(** ** The storage gateway: what listing and the bucket check leave alone *)

Section Gateway.

Variable BUCKET_NAME : string.

Lemma elem_of_pdf_keys (prefix : string) (w : World) (k : string) :
  k ∈ pdf_keys BUCKET_NAME prefix w <->
  is_Some (published BUCKET_NAME w k) /\ Py.startswith k prefix = true /\ is_pdf_key k = true.
Proof.
  unfold pdf_keys, published. destruct (s3 w !! BUCKET_NAME) as [objects|]; simpl.
  - rewrite list_elem_of_In, filter_In. unfold listed_keys. rewrite filter_In.
    assert (In k (List.map fst (map_to_list objects)) <-> is_Some (objects !! k)) as ->; [|tauto].
    split.
    + intros Hin. apply in_map_iff in Hin as ([k' v] & <- & Hin).
      apply list_elem_of_In, elem_of_map_to_list in Hin. eauto.
    + intros [v Hv]. apply in_map_iff. exists (k, v).
      split; [reflexivity|]. by apply list_elem_of_In, elem_of_map_to_list.
  - split; [intros H; by apply not_elem_of_nil in H | intros [[v Hv] _]; discriminate].
Qed.

(** Whatever fails, the function returns, it changes no store, and every
    key it returns is a stored PDF key of the prefix. *)
Lemma list_pdfs_in_s3_listed (prefix : string) (w : World) :
  exists pdf_files w',
    list_pdfs_in_s3 BUCKET_NAME prefix w = (Ok pdf_files, w')
    /\ s3 w' = s3 w /\ tmp_files w' = tmp_files w
    /\ forall k, k ∈ pdf_files -> k ∈ pdf_keys BUCKET_NAME prefix w.
Proof.
  rewrite list_pdfs_in_s3_run, list_objects_v2_run.
  destruct (next_fault w).
  { eexists _, _. repeat split; try reflexivity. intros k H. by apply not_elem_of_nil in H. }
  destruct (s3 w !! BUCKET_NAME) as [objects|] eqn:Hb.
  - eexists _, _. split; [reflexivity|]. split; [reflexivity|]. split; [reflexivity|].
    intros k Hk. rewrite response_contents, comprehension_filter in Hk.
    apply first_page_pdf_keys_stored. unfold first_page_pdf_keys. by rewrite Hb.
  - eexists _, _. repeat split; try reflexivity. intros k H. by apply not_elem_of_nil in H.
Qed.

(** X5. [list_pdfs_in_s3] never raises and never writes, and whatever
    fails, every key it returns is the key of a stored object that starts
    with the prefix and ends with [.pdf] in some mix of case. *)
Theorem list_pdfs_in_s3_sound (prefix : string) (w : World) :
  exists pdf_files w',
    list_pdfs_in_s3 BUCKET_NAME prefix w = (Ok pdf_files, w')
    /\ s3 w' = s3 w /\ tmp_files w' = tmp_files w
    /\ forall k, k ∈ pdf_files ->
         is_Some (published BUCKET_NAME w k) /\ Py.startswith k prefix = true
         /\ is_pdf_key k = true.
Proof.
  destruct (list_pdfs_in_s3_listed prefix w) as (pdf_files & w' & Hrun & Hs & Ht & Hk).
  exists pdf_files, w'. split; [exact Hrun|]. split; [exact Hs|]. split; [exact Ht|].
  intros k Hin. by apply elem_of_pdf_keys, Hk.
Qed.

Lemma startswith_spec (prefix : string) : forall k : string,
  Py.startswith k prefix = true <-> exists rest, k = prefix +:+ rest.
Proof.
  unfold Py.startswith.
  induction prefix as [|c prefix IH]; intros k.
  - split; [intros _; exists k; reflexivity | intros _; by destruct k].
  - destruct k as [|c' k]; [split; [discriminate | intros [rest Hr]; discriminate Hr]|].
    change (String.prefix (String c prefix) (String c' k))
      with (if Ascii.ascii_dec c c' then String.prefix prefix k else false).
    destruct (Ascii.ascii_dec c c') as [<-|Hne].
    + rewrite IH. split; intros [rest Hr]; exists rest.
      * exact (f_equal (String c) Hr).
      * by injection Hr.
    + split; [discriminate|]. intros [rest Hr]. injection Hr as Hc _. by destruct Hne.
Qed.

Lemma filter_length_lt {A} (f : A -> bool) (l : list A) (x : A) :
  x ∈ l -> f x = false -> (length (List.filter f l) < length l)%nat.
Proof.
  induction l as [|y l IH]; intros Hin Hx; [by apply not_elem_of_nil in Hin|].
  simpl. apply elem_of_cons in Hin as [<-|Hin].
  - rewrite Hx. pose proof (List.filter_length_le f l). lia.
  - specialize (IH Hin Hx). destruct (f y); simpl; lia.
Qed.

(** A key of the prefix has fewer keys before it than the prefix holds. *)
Lemma keys_before_lt (prefix : string) (objects : gmap string string) (k : string) :
  k ∈ listed_keys prefix objects ->
  (keys_before prefix objects k < length (listed_keys prefix objects))%nat.
Proof. intros Hin. apply (filter_length_lt _ _ k Hin), key_ltb_irrefl. Qed.

(** X14. When the listing call answers, [list_pdfs_in_s3] reports no
    error and returns, in ascending byte order and each once, exactly the
    stored keys that start with the prefix, end with [.pdf] in one of its
    eight spellings, and have fewer than 1000 keys of the prefix before
    them: the PDF keys of the first response page.  For a prefix of at
    most 1000 objects these are all its stored PDF keys. *)
Theorem list_pdfs_in_s3_first_page
    (prefix : string) (objects : gmap string string) (w : World) :
  next_fault w = None ->
  s3 w !! BUCKET_NAME = Some objects ->
  exists pdf_files,
    list_pdfs_in_s3 BUCKET_NAME prefix w
    = (Ok pdf_files, advance 1 [EvListObjects BUCKET_NAME prefix] w)
    /\ StronglySorted key_le pdf_files
    /\ NoDup pdf_files
    /\ (forall k,
          k ∈ pdf_files <->
          is_Some (objects !! k) /\ (exists rest, k = prefix +:+ rest) /\ pdf_suffix k
          /\ (keys_before prefix objects k < 1000)%nat)
    /\ ((length (listed_keys prefix objects) <= 1000)%nat ->
        forall k,
          k ∈ pdf_files <->
          is_Some (objects !! k) /\ (exists rest, k = prefix +:+ rest) /\ pdf_suffix k).
Proof.
  intros Hn Hb. exists (first_page_pdf_keys BUCKET_NAME prefix w).
  split; [by apply (list_pdfs_in_s3_answer BUCKET_NAME prefix objects)|].
  assert (forall k,
            k ∈ first_page_pdf_keys BUCKET_NAME prefix w <->
            is_Some (objects !! k) /\ (exists rest, k = prefix +:+ rest) /\ pdf_suffix k
            /\ (keys_before prefix objects k < 1000)%nat) as Hspec.
  { intros k. rewrite (elem_of_first_page_pdf_keys BUCKET_NAME prefix objects w k Hb).
    by rewrite startswith_spec. }
  destruct (first_page_ascending prefix objects) as [Hsorted Hnodup].
  unfold first_page_pdf_keys at 1 2. rewrite Hb.
  split; [by apply StronglySorted_filter|].
  split; [by apply NoDup_ListNoDup, List.NoDup_filter, NoDup_ListNoDup|].
  split; [exact Hspec|].
  intros Hlen k. rewrite Hspec. split; [tauto|].
  intros (Hstored & Hprefix & Hsuffix). repeat split; try done.
  assert (k ∈ listed_keys prefix objects) as Hin
    by (apply elem_of_listed_keys; by rewrite startswith_spec).
  pose proof (keys_before_lt prefix objects k Hin). lia.
Qed.

(** X4. [ensure_bucket_exists] changes no local file and no stored object:
    the store is as before, or the bucket was missing and now exists,
    empty. *)
Theorem ensure_bucket_exists_keeps_store (w : World) :
  let w' := snd (ensure_bucket_exists BUCKET_NAME w) in
  tmp_files w' = tmp_files w
  /\ (s3 w' = s3 w
      \/ (s3 w !! BUCKET_NAME = None /\ s3 w' = <[BUCKET_NAME := ∅]> (s3 w))).
Proof.
  unfold ensure_bucket_exists, try_except, bind, s3_client.head_bucket,
    s3_client.create_bucket, external, except_ClientError, except_Exception,
    st.success, st.error, st.report, ret, next_fault.
  destruct (pending_faults w) as [|[e1|] [|[e2|] rest]] eqn:Hf; simpl; rewrite ?Hf; simpl;
    try (destruct e1 as [code ? ? ?| | | |]; simpl; try destruct (String.eqb code "404"));
    simpl; rewrite ?Hf; simpl;
    destruct (s3 w !! BUCKET_NAME) eqn:Hb; simpl; rewrite ?Hf, ?Hb; simpl;
    (split; [reflexivity|]); auto.
Qed.

End Gateway.

(** ** The names of the artifacts *)

Lemma list_ascii_of_append (a b : string) :
  list_ascii_of_string (a +:+ b) = list_ascii_of_string a ++ list_ascii_of_string b.
Proof. induction a as [|c a IH]; simpl; [reflexivity | by rewrite IH]. Qed.

Lemma list_ascii_of_string_inj (a b : string) :
  list_ascii_of_string a = list_ascii_of_string b -> a = b.
Proof.
  intros H. rewrite <- (string_of_list_ascii_of_string a), <- (string_of_list_ascii_of_string b).
  by rewrite H.
Qed.

Lemma append_inj_r (a b s : string) : a +:+ s = b +:+ s -> a = b.
Proof.
  intros H. apply list_ascii_of_string_inj.
  apply (f_equal list_ascii_of_string) in H. rewrite !list_ascii_of_append in H.
  by apply app_inv_tail in H.
Qed.

(** The last character of a string that ends with [.faiss] or [.pkl]. *)
Lemma ends_with_s (a b : string) (c : ascii) :
  a +:+ ".faiss" = b +:+ String c EmptyString -> c = "s"%char.
Proof.
  intros H. apply (f_equal list_ascii_of_string) in H.
  rewrite !list_ascii_of_append in H. simpl in H.
  change (list_ascii_of_string a ++ ["."; "f"; "a"; "i"; "s"; "s"]%char)
    with (list_ascii_of_string a ++ ["."; "f"; "a"; "i"; "s"]%char ++ ["s"%char]) in H.
  rewrite app_assoc in H. by apply app_inj_tail in H as [_ <-].
Qed.

Lemma ends_with_l (a b : string) (c : ascii) :
  a +:+ ".pkl" = b +:+ String c EmptyString -> c = "l"%char.
Proof.
  intros H. apply (f_equal list_ascii_of_string) in H.
  rewrite !list_ascii_of_append in H. simpl in H.
  change (list_ascii_of_string a ++ ["."; "p"; "k"; "l"]%char)
    with (list_ascii_of_string a ++ ["."; "p"; "k"]%char ++ ["l"%char]) in H.
  rewrite app_assoc in H. by apply app_inj_tail in H as [_ <-].
Qed.

Lemma append_assoc (a b c : string) : (a +:+ b) +:+ c = a +:+ b +:+ c.
Proof. induction a as [|x a IH]; [reflexivity | exact (f_equal (String x) IH)]. Qed.

(** Two styles never share an artifact file. *)
Lemma faiss_index_file_inj (k k' : string) :
  faiss_index_file k = faiss_index_file k' -> k = k'.
Proof. unfold faiss_index_file. intros H%append_inj_l. by apply append_inj_r in H. Qed.

Lemma faiss_pkl_file_inj (k k' : string) :
  faiss_pkl_file k = faiss_pkl_file k' -> k = k'.
Proof. unfold faiss_pkl_file. intros H%append_inj_l. by apply append_inj_r in H. Qed.

Lemma faiss_index_is_no_pkl (k k' : string) : faiss_index_file k <> faiss_pkl_file k'.
Proof.
  unfold faiss_index_file, faiss_pkl_file. intros H%append_inj_l.
  change (k' +:+ ".pkl") with (k' +:+ ".pk" +:+ "l") in H.
  rewrite <- append_assoc in H. apply ends_with_s in H. discriminate.
Qed.

(** An artifact file is never taken for a PDF. *)
Lemma lower_pdf_last (ext : string) :
  Py.lower ext = ".pdf" ->
  exists body c, ext = body +:+ String c EmptyString /\ c <> "s"%char /\ c <> "l"%char.
Proof.
  destruct ext as [|c1 [|c2 [|c3 [|c4 [|c5 rest]]]]]; simpl; try discriminate.
  intros [= _ _ _ H4].
  exists (String c1 (String c2 (String c3 EmptyString))), c4.
  split; [reflexivity|]. split; intros ->; discriminate.
Qed.

Lemma artifacts_are_no_pdf_keys (style_key : string) :
  is_pdf_key (faiss_index_file style_key) = false
  /\ is_pdf_key (faiss_pkl_file style_key) = false.
Proof.
  split; apply not_true_is_false; intros (stem & ext & Heq & Hext)%is_pdf_key_spec;
    apply lower_pdf_last in Hext as (body & c & -> & Hs & Hl);
    unfold faiss_index_file, faiss_pkl_file in Heq;
    rewrite <- !append_assoc in Heq.
  - by apply ends_with_s in Heq.
  - by apply ends_with_l in Heq.
Qed.

(** ** [create_vector_store]: success, and what it leaves alone *)

Section PersistMore.

Variable titan_embed : string -> Vector.
Variable faiss_write_index : list Vector -> string.
Variable pickle_dumps : list Document -> string.
Variable BUCKET_NAME : string.

(** With no call failed from outside, a bucket that exists and at least
    one document, the function returns [True]. *)
Lemma create_vector_store_returns_true
    (style_key : string) (documents : list Document) (objects : gmap string string)
    (w : World) :
  documents <> [] ->
  pending_faults w = [] ->
  s3 w !! BUCKET_NAME = Some objects ->
  exists w',
    create_vector_store titan_embed faiss_write_index pickle_dumps BUCKET_NAME
                        style_key documents w = (Ok true, w')
    /\ pending_faults w' = [].
Proof.
  intros Hdocs Hf Hb. unfold create_vector_store, FAISS_from_documents.
  unfold bind at 1 2. rewrite bedrock_embed_documents_run, Hf, first_fault_nil.
  destruct documents as [|d documents]; [done|]. cbn [List.map]. cbv iota beta.
  unfold ret at 1. unfold bind at 1. rewrite save_local_run.
  rewrite next_fault_advance, Hf, lookup_nil.
  rewrite index_file_name, pkl_file_name, tmp_index_path, tmp_pkl_path.
  unfold try_except, bind, s3_client.upload_file, external, except_Exception, ret, next_fault.
  repeat (progress (simpl; rewrite ?Hf, ?drop_nil, ?Hb, ?lookup_insert_eq;
                    rewrite ?lookup_insert_ne by apply tmp_faiss_paths_differ)).
  eexists. split; [reflexivity|]. simpl. by rewrite Hf, !drop_nil.
Qed.

(** X1. With at least one document, an existing bucket and no call failed
    from outside, [create_vector_store] returns [True]: it has requested
    one embedding per document, in order, uploaded the index file and then
    the metadata file, and both are published with the content built from
    the documents. *)
Theorem create_vector_store_succeeds
    (style_key : string) (documents : list Document) (objects : gmap string string)
    (w : World) :
  documents <> [] ->
  pending_faults w = [] ->
  s3 w !! BUCKET_NAME = Some objects ->
  exists w',
    create_vector_store titan_embed faiss_write_index pickle_dumps BUCKET_NAME
                        style_key documents w = (Ok true, w')
    /\ published BUCKET_NAME w' (faiss_index_file style_key)
       = Some (faiss_write_index (List.map titan_embed (List.map page_content documents)))
    /\ published BUCKET_NAME w' (faiss_pkl_file style_key) = Some (pickle_dumps documents)
    /\ embed_requests (events_since w w') = List.map page_content documents
    /\ uploads (events_since w w') = [faiss_index_file style_key; faiss_pkl_file style_key].
Proof.
  intros Hdocs Hf Hb.
  destruct (create_vector_store_returns_true style_key documents objects w Hdocs Hf Hb)
    as (w' & Hrun & _).
  pose proof (create_vector_store_run titan_embed faiss_write_index pickle_dumps BUCKET_NAME
                style_key documents w) as Hspec.
  cbv zeta in Hspec. rewrite Hrun, Hf, first_fault_nil in Hspec.
  destruct Hspec as (evs & Ht & He & _ & _ & Hu & Hi & Hp & _).
  exists w'. split; [exact Hrun|]. split; [exact Hi|]. split; [exact Hp|].
  rewrite (events_since_extends _ _ _ Ht), embed_requests_app, embed_requests_embeds, He,
    app_nil_r, uploads_app, uploads_embeds.
  by split.
Qed.

(** The function writes its own two artifact files and nothing else. *)
Lemma create_vector_store_frame
    (style_key : string) (documents : list Document) (w : World) :
  frame (fun _ => True) (artifact_of BUCKET_NAME style_key) w
        (snd (create_vector_store titan_embed faiss_write_index pickle_dumps BUCKET_NAME
                                  style_key documents w)).
Proof.
  apply preserves_create_vector_store; try done.
  - split; [reflexivity | by left].
  - split; [reflexivity | by right].
Qed.

(** X2. A run for one style leaves the artifacts of every other style,
    and every other object of every bucket, as they were. *)
Theorem create_vector_store_keeps_other_styles
    (style_key : string) (documents : list Document) (w : World) :
  let w' := snd (create_vector_store titan_embed faiss_write_index pickle_dumps BUCKET_NAME
                                     style_key documents w) in
  (forall b key, ~ artifact_of BUCKET_NAME style_key b key ->
                 published b w' key = published b w key)
  /\ (forall other, other <> style_key ->
        published BUCKET_NAME w' (faiss_index_file other)
        = published BUCKET_NAME w (faiss_index_file other)
        /\ published BUCKET_NAME w' (faiss_pkl_file other)
           = published BUCKET_NAME w (faiss_pkl_file other)).
Proof.
  intros w'. destruct (create_vector_store_frame style_key documents w) as (_ & Hpub & _).
  split; [exact Hpub|]. intros other Hne. split; apply Hpub; intros [_ [H|H]].
  - by apply faiss_index_file_inj in H.
  - by apply faiss_index_is_no_pkl in H.
  - symmetry in H. by apply faiss_index_is_no_pkl in H.
  - by apply faiss_pkl_file_inj in H.
Qed.

(** X3. The artifact files are never taken for documents: whatever a run
    of [create_vector_store] does, the stored PDF keys of any prefix are
    the same after it as before. *)
Theorem create_vector_store_keeps_pdf_keys
    (style_key : string) (documents : list Document) (w : World) (prefix key : string) :
  key ∈ pdf_keys BUCKET_NAME prefix
          (snd (create_vector_store titan_embed faiss_write_index pickle_dumps BUCKET_NAME
                                    style_key documents w))
  <-> key ∈ pdf_keys BUCKET_NAME prefix w.
Proof.
  destruct (create_vector_store_frame style_key documents w) as (_ & Hpub & _).
  rewrite !elem_of_pdf_keys.
  destruct (artifacts_are_no_pdf_keys style_key) as [Hi Hp].
  destruct (decide (key = faiss_index_file style_key)) as [->|Hni];
    [rewrite Hi; split; intros (_ & _ & [=])|].
  destruct (decide (key = faiss_pkl_file style_key)) as [->|Hnp];
    [rewrite Hp; split; intros (_ & _ & [=])|].
  rewrite Hpub; [reflexivity|]. by intros [_ [H|H]].
Qed.

End PersistMore.

(** ** One document, downloaded and read *)

Section LoadingMore.

Variable pypdf_pages : string -> string -> option (list Document).
Variable BUCKET_NAME : string.

(** X6. When [download_and_process_pdf] returns pages, the object exists,
    its bytes are now in the local file [/tmp/<base name of the key>], the
    pages are what the loader reads from those bytes, and the bucket is as
    it was. *)
Theorem download_and_process_pdf_success
    (s3_key : string) (pages : list Document) (w w1 : World) :
  download_and_process_pdf pypdf_pages BUCKET_NAME s3_key w = (Ok (Some pages), w1) ->
  exists bytes,
    published BUCKET_NAME w s3_key = Some bytes
    /\ tmp_files w1 !! ("/tmp/" +:+ Py.basename s3_key) = Some bytes
    /\ pypdf_pages ("/tmp/" +:+ Py.basename s3_key) bytes = Some pages
    /\ s3 w1 = s3 w.
Proof.
  unfold download_and_process_pdf, try_except, bind, s3_client.download_file,
    PyPDFLoader_load_and_split, external, except_Exception, st.error, st.report, ret,
    next_fault, published.
  destruct (pending_faults w) as [|[e1|] [|[e2|] rest]] eqn:Hf; simpl; rewrite ?Hf; simpl;
    destruct (s3 w !! BUCKET_NAME ≫= _) as [bytes|] eqn:Hb; simpl; rewrite ?Hf; simpl;
    rewrite ?lookup_insert_eq; simpl;
    try destruct (pypdf_pages _ bytes) as [ps|] eqn:Hp; simpl;
    intros [= <- <-] || intros [= <-] || intros [=].
  all: exists bytes; simpl; by rewrite lookup_insert_eq.
Qed.

End LoadingMore.

(** ** [main]: what a run may call and write *)

Lemma Forall_forallb {A} (f : A -> bool) (l : list A) :
  Forall (fun x => f x = true) l -> forallb f l = true.
Proof. induction 1 as [|x l Hx _ IH]; simpl; [reflexivity | by rewrite Hx, IH]. Qed.

Lemma frame_events (f : event -> bool) (W : string -> string -> Prop) (w w' : World) :
  frame (fun ev => f ev = true) W w w' -> forallb f (events_since w w') = true.
Proof.
  intros ((evs & Ht & Hp) & _). rewrite (events_since_extends _ _ _ Ht).
  by apply Forall_forallb.
Qed.

Section MainFrames.

Variable pypdf_pages : string -> string -> option (list Document).
Variable split_documents : Z -> Z -> list Document -> result (list Document).
Variable titan_embed : string -> Vector.
Variable faiss_write_index : list Vector -> string.
Variable pickle_dumps : list Document -> string.
Variable BUCKET_NAME : string.

(** The style [main] goes on with is the one the operator selected. *)
Lemma main_select_style_choice (style_choice : StyleChoice) (w w1 : World) :
  main_select_style BUCKET_NAME w = (Ok (Some style_choice), w1) ->
  style_choice = ui_radio w.
Proof.
  intros Hsel.
  pose proof (preserves_main_select_style BUCKET_NAME (fun _ => True) (fun _ _ => False)
                (fun _ _ _ => I) I I I w) as (_ & _ & Hr & _).
  rewrite main_select_style_run in Hsel, Hr.
  destruct (ensure_bucket_exists BUCKET_NAME _) as [[[|]|e] w0]; try discriminate.
  injection Hsel as <- <-. exact Hr.
Qed.

Lemma main_frame (w : World) :
  frame (fun ev => allowed_event BUCKET_NAME (prefix_map (ui_radio w))
                                 (style_key_map (ui_radio w)) ev = true)
        (artifact_of BUCKET_NAME (style_key_map (ui_radio w)))
        w
        (snd (main pypdf_pages split_documents titan_embed faiss_write_index pickle_dumps
                   BUCKET_NAME w)).
Proof.
  set (P := fun ev => allowed_event _ _ _ ev = true). set (W := artifact_of _ _).
  assert (forall k message, k <> UiSuccess -> P (EvUi k message)) as Hui by done.
  assert (P (EvHeadBucket BUCKET_NAME) /\ P (EvCreateBucket BUCKET_NAME)) as [Hhead Hcreate]
    by (unfold P; simpl; by rewrite String.eqb_refl).
  pose proof (preserves_main_select_style BUCKET_NAME P W Hui Hhead Hcreate
                ltac:(done) w) as Hsel.
  unfold main, bind at 1.
  destruct (main_select_style BUCKET_NAME w) as [[[style_choice|]|e] w1] eqn:Hrun;
    [|exact Hsel|exact Hsel].
  apply main_select_style_choice in Hrun as ->.
  eapply frame_trans; [exact Hsel|]. apply preserves_bind.
  - apply preserves_list_pdfs_in_s3; [exact Hui|].
    unfold P; simpl; by rewrite !String.eqb_refl.
  - intros pdf_files. apply preserves_main_process; try done.
    + intros key. unfold P; simpl; by rewrite !String.eqb_refl.
    + unfold P; simpl; by rewrite !String.eqb_refl.
    + unfold P; simpl; by rewrite !String.eqb_refl.
    + unfold P; simpl; by rewrite !String.eqb_refl, orb_true_r.
    + split; [reflexivity | by left].
    + split; [reflexivity | by right].
Qed.

(** X7. Whatever fails, every call of a run of [main] stays within the
    selection: storage calls go to [BUCKET_NAME], the listing is that of the
    selected style's prefix, a download goes to [/tmp] under the base name of
    its key, the chunking uses 1000 and 200, and the only uploads are the
    two artifact files of the selected style from their local copies. *)
Theorem main_calls_within_selection (w : World) :
  forallb (allowed_event BUCKET_NAME (prefix_map (ui_radio w)) (style_key_map (ui_radio w)))
          (events_since w
             (snd (main pypdf_pages split_documents titan_embed faiss_write_index pickle_dumps
                        BUCKET_NAME w)))
  = true.
Proof. eapply frame_events, main_frame. Qed.

(** X8. Whatever fails, a run of [main] leaves every object of every
    bucket as it was, the two artifact files of the selected style apart: no
    source document and no artifact of another style is changed or
    removed. *)
Theorem main_writes_only_artifacts (w : World) (b key : string) :
  ~ artifact_of BUCKET_NAME (style_key_map (ui_radio w)) b key ->
  published b (snd (main pypdf_pages split_documents titan_embed faiss_write_index pickle_dumps
                         BUCKET_NAME w)) key
  = published b w key.
Proof. intros Hn. by apply (main_frame w). Qed.

End MainFrames.

(** ** [main]: the guards before the indexing *)

Lemma flat_map_all_nil {A B} (f : A -> list B) (l : list A) :
  (forall x, x ∈ l -> f x = []) -> List.flat_map f l = [].
Proof.
  induction l as [|x l IH]; intros H; simpl; [reflexivity|].
  rewrite (H x) by apply list_elem_of_here. apply IH.
  intros y Hy. apply H. by apply list_elem_of_further.
Qed.

Section MainGuards.

Variable pypdf_pages : string -> string -> option (list Document).
Variable split_documents : Z -> Z -> list Document -> result (list Document).
Variable titan_embed : string -> Vector.
Variable faiss_write_index : list Vector -> string.
Variable pickle_dumps : list Document -> string.
Variable BUCKET_NAME : string.

(** The phases up to the listing write nothing; what they hand to
    [main_process] is the selected style and stored PDF keys of its prefix,
    in a world where the button and every object read as at the start. *)
Lemma main_until_process_frame (P : event -> Prop) (w : World) :
  (forall k message, P (EvUi k message)) ->
  (forall b, P (EvHeadBucket b)) -> (forall b, P (EvCreateBucket b)) ->
  (forall b p, P (EvListObjects b p)) ->
  (forall pdf_files w2,
     ui_button w2 = ui_button w ->
     (forall b key, published b w2 key = published b w key) ->
     (forall k, k ∈ pdf_files -> k ∈ pdf_keys BUCKET_NAME (prefix_map (ui_radio w)) w) ->
     frame P (fun _ _ => False) w2
           (snd (main_process pypdf_pages split_documents titan_embed faiss_write_index
                              pickle_dumps BUCKET_NAME (ui_radio w) pdf_files w2))) ->
  frame P (fun _ _ => False) w
        (snd (main pypdf_pages split_documents titan_embed faiss_write_index pickle_dumps
                   BUCKET_NAME w)).
Proof.
  intros Hui Hhead Hcreate Hlist Hprocess.
  pose proof (preserves_main_select_style BUCKET_NAME P (fun _ _ => False)
                (fun k message _ => Hui k message) (Hhead _) (Hcreate _) (Hui _ _) w) as Hsel.
  unfold main, bind at 1.
  destruct (main_select_style BUCKET_NAME w) as [[[style_choice|]|e] w1] eqn:Hrun;
    [|exact Hsel|exact Hsel].
  apply main_select_style_choice in Hrun as ->.
  simpl in Hsel. eapply frame_trans; [exact Hsel|].
  pose proof (preserves_list_pdfs_in_s3 BUCKET_NAME P (fun _ _ => False)
                (fun k message _ => Hui k message)
                (prefix_map (ui_radio w)) (Hlist _ _) w1) as Hl.
  destruct (list_pdfs_in_s3_listed BUCKET_NAME (prefix_map (ui_radio w)) w1)
    as (pdf_files & w2 & Hlrun & _ & _ & Hkeys).
  unfold bind. rewrite Hlrun in *. simpl in Hl. eapply frame_trans; [exact Hl|].
  destruct Hsel as (_ & Hp1 & _ & Hb1 & _). destruct Hl as (_ & Hp2 & _ & Hb2 & _).
  apply Hprocess; [congruence| |].
  - intros b key. rewrite Hp2, Hp1; auto.
  - intros k Hk. apply Hkeys in Hk. apply elem_of_pdf_keys in Hk. apply elem_of_pdf_keys.
    rewrite <- Hp1; auto.
Qed.

(** X9. As long as the button is not pressed, a run of [main] only checks
    the bucket and lists: it downloads, extracts, chunks, embeds, saves and
    uploads nothing, and every object reads as before. *)
Theorem main_idle_without_button (w : World) :
  ui_button w = false ->
  let w' := snd (main pypdf_pages split_documents titan_embed faiss_write_index pickle_dumps
                      BUCKET_NAME w) in
  no_processing_event (events_since w w')
  /\ forall b key, published b w' key = published b w key.
Proof.
  intros Hbutton w'.
  assert (frame (fun ev => negb (is_processing_event ev) = true) (fun _ _ => False) w w')
    as Hframe.
  { apply main_until_process_frame; try done.
    intros pdf_files w2 Hb2 _ _. unfold main_process.
    destruct pdf_files as [|pdf_file rest].
    - unfold bind, st.warning, st.report, ret. simpl. by apply frame_log.
    - unfold bind, st.write, st.button, st.report. simpl. rewrite Hb2, Hbutton. simpl.
      eapply frame_trans; [|apply frame_log; reflexivity]; apply frame_log; reflexivity. }
  split; [exact (frame_events _ _ _ _ Hframe)|].
  intros b key. destruct Hframe as (_ & Hp & _). apply Hp. tauto.
Qed.

(** X10. When none of the stored PDFs of the selected prefix yields a page,
    the run builds nothing: no chunking, no embedding, no saving, no
    upload, and every object as before. *)
Theorem main_without_pages (w : World) :
  (forall key, key ∈ pdf_keys BUCKET_NAME (prefix_map (ui_radio w)) w ->
               readable_pages pypdf_pages BUCKET_NAME w key = []) ->
  let w' := snd (main pypdf_pages split_documents titan_embed faiss_write_index pickle_dumps
                      BUCKET_NAME w) in
  forallb (fun ev => negb (is_indexing_event ev)) (events_since w w') = true
  /\ forall b key, published b w' key = published b w key.
Proof.
  intros Hnone w'.
  assert (frame (fun ev => negb (is_indexing_event ev) = true) (fun _ _ => False) w w')
    as Hframe.
  { apply main_until_process_frame; try done.
    intros pdf_files w2 _ Hpub Hkeys. unfold main_process.
    destruct pdf_files as [|pdf_file rest] eqn:Hfiles.
    { unfold bind, st.warning, st.report, ret. simpl. by apply frame_log. }
    rewrite <- Hfiles in *. clear Hfiles.
    unfold bind at 1 2, st.write, st.button, st.report. simpl.
    set (w3 := log _ (log _ w2)).
    assert (frame (fun ev => negb (is_indexing_event ev) = true) (fun _ _ => False) w2 w3)
      as H23 by (eapply frame_trans; [|apply frame_log; reflexivity];
                 apply frame_log; reflexivity).
    destruct (ui_button w2); [|exact H23].
    eapply frame_trans; [exact H23|].
    pose proof (preserves_load_documents pypdf_pages BUCKET_NAME
                  (fun ev => negb (is_indexing_event ev) = true) (fun _ _ => False)
                  ltac:(done) pdf_files ltac:(done) ltac:(done) [] w3) as Hload.
    destruct (load_documents_run pypdf_pages BUCKET_NAME pdf_files [] w3)
      as (all_pages & w4 & evs & loaded & Hrun & _ & _ & _ & Hsub & Hall & _).
    unfold bind. rewrite Hrun in *. simpl in Hload.
    assert (all_pages = []) as ->; [|exact Hload].
    rewrite Hall. simpl. apply flat_map_all_nil. intros key Hkey.
    rewrite <- (Hnone key) by (apply Hkeys; eapply elem_of_sublist; eauto).
    unfold readable_pages.
    change (published BUCKET_NAME w3 key) with (published BUCKET_NAME w2 key).
    by rewrite (Hpub BUCKET_NAME key). }
  split; [exact (frame_events _ _ _ _ Hframe)|].
  intros b key. destruct Hframe as (_ & Hp & _). apply Hp. tauto.
Qed.

End MainGuards.

(** ** [main]: a run in which nothing fails *)

Section MainSuccess.

Variable pypdf_pages : string -> string -> option (list Document).
Variable split_documents : Z -> Z -> list Document -> result (list Document).
Variable titan_embed : string -> Vector.
Variable faiss_write_index : list Vector -> string.
Variable pickle_dumps : list Document -> string.
Variable BUCKET_NAME : string.

Lemma show_sample_chunks_run (splitted_docs : list Document) (w : World) :
  exists w',
    show_sample_chunks splitted_docs w = (Ok tt, w')
    /\ s3 w' = s3 w /\ pending_faults w' = pending_faults w.
Proof. destruct splitted_docs as [|d0 [|d1 more]]; by eexists. Qed.

(** Lines 165-201, with the button pressed and nothing failing. *)
Lemma main_process_publishes
    (style_choice : StyleChoice) (pdf_files : list string)
    (objects : gmap string string) (chunks : list Document) (w : World) :
  pending_faults w = [] ->
  s3 w !! BUCKET_NAME = Some objects ->
  ui_button w = true ->
  List.flat_map (readable_pages pypdf_pages BUCKET_NAME w) pdf_files <> [] ->
  split_documents 1000 200
    (List.flat_map (readable_pages pypdf_pages BUCKET_NAME w) pdf_files) = Ok chunks ->
  chunks <> [] ->
  exists w',
    main_process pypdf_pages split_documents titan_embed faiss_write_index pickle_dumps
                 BUCKET_NAME style_choice pdf_files w = (Ok tt, w')
    /\ published BUCKET_NAME w' (faiss_index_file (style_key_map style_choice))
       = Some (faiss_write_index (List.map titan_embed (List.map page_content chunks)))
    /\ published BUCKET_NAME w' (faiss_pkl_file (style_key_map style_choice))
       = Some (pickle_dumps chunks)
    /\ last (trace w') = Some (success_report style_choice).
Proof.
  intros Hf Hb Hbutton Hpages Hsplit Hchunks. unfold main_process.
  destruct pdf_files as [|pdf_file rest] eqn:Hfiles; [done|]. rewrite <- Hfiles in *.
  unfold bind at 1 2, st.write at 1, st.button, st.report. simpl. rewrite Hbutton.
  set (w1 := log _ (log _ w)).
  destruct (load_documents_run pypdf_pages BUCKET_NAME pdf_files [] w1)
    as (all_pages & w2 & evs & loaded & Hrun & _ & _ & Hs2 & _ & _ & Hq).
  destruct (Hq Hf) as [Hf2 Hall]. simpl in Hall.
  change (readable_pages pypdf_pages BUCKET_NAME w1)
    with (readable_pages pypdf_pages BUCKET_NAME w) in Hall.
  unfold bind at 1. rewrite Hrun, Hall.
  destruct (List.flat_map _ pdf_files) as [|p pages] eqn:Hp; [done|].
  unfold bind at 1, split_text, bind at 1, RecursiveCharacterTextSplitter_split_documents, ret.
  rewrite Hsplit.
  unfold bind at 1, st.write at 1, st.report.
  set (w3 := log _ (log _ w2)).
  destruct (show_sample_chunks_run chunks w3) as (w4 & Hshow & Hs4 & Hf4).
  unfold bind at 1. rewrite Hshow.
  unfold bind at 1, st.write at 1, st.report.
  set (w5 := log _ w4).
  destruct (create_vector_store_returns_true titan_embed faiss_write_index pickle_dumps
              BUCKET_NAME (style_key_map style_choice) chunks objects w5 Hchunks)
    as (w6 & Hcvs & _).
  { subst w5. simpl. by rewrite Hf4. }
  { subst w5. simpl. rewrite Hs4. subst w3. simpl. by rewrite Hs2. }
  pose proof (create_vector_store_run titan_embed faiss_write_index pickle_dumps BUCKET_NAME
                (style_key_map style_choice) chunks w5) as Hspec.
  cbv zeta in Hspec. rewrite Hcvs in Hspec.
  replace (pending_faults w5) with (@nil (option exn)) in Hspec
    by (subst w5; simpl; by rewrite Hf4).
  rewrite first_fault_nil in Hspec.
  destruct Hspec as (_ & _ & _ & _ & _ & _ & Hi & Hpk & _).
  unfold bind. rewrite Hcvs. unfold st.success, st.report.
  eexists. split; [reflexivity|]. split; [exact Hi|]. split; [exact Hpk|].
  simpl. apply last_snoc.
Qed.

(** X11. A run in which nothing fails publishes the index of the selected
    style: the chunks of the pages of the PDFs that the one listing response
    names (the PDF keys among the first 1000 keys of the prefix, in listing
    order), embedded one vector per chunk. *)
Theorem main_publishes_index
    (objects : gmap string string) (chunks : list Document) (w : World) :
  pending_faults w = [] ->
  s3 w !! BUCKET_NAME = Some objects ->
  ui_button w = true ->
  let style_choice := ui_radio w in
  let pages :=
    List.flat_map (readable_pages pypdf_pages BUCKET_NAME w)
                  (first_page_pdf_keys BUCKET_NAME (prefix_map style_choice) w) in
  pages <> [] ->
  split_documents 1000 200 pages = Ok chunks ->
  chunks <> [] ->
  exists w',
    main pypdf_pages split_documents titan_embed faiss_write_index pickle_dumps BUCKET_NAME w
    = (Ok tt, w')
    /\ published BUCKET_NAME w' (faiss_index_file (style_key_map style_choice))
       = Some (faiss_write_index (List.map titan_embed (List.map page_content chunks)))
    /\ published BUCKET_NAME w' (faiss_pkl_file (style_key_map style_choice))
       = Some (pickle_dumps chunks)
    /\ last (trace w') = Some (success_report style_choice).
Proof.
  intros Hf Hb Hbutton style_choice pages Hpages Hsplit Hchunks.
  rewrite main_run.
  rewrite ensure_bucket_exists_present;
    [|unfold next_fault; simpl; by rewrite Hf | simpl; by rewrite Hb].
  cbn [ui_radio called advance with_faults log]. fold style_choice.
  set (w2 := advance 0 _ _).
  assert (pending_faults w2 = []) as Hf2 by (subst w2; simpl; by rewrite Hf).
  unfold bind at 1.
  rewrite (list_pdfs_in_s3_answer BUCKET_NAME (prefix_map style_choice) objects w2)
    by (assumption || (unfold next_fault; by rewrite Hf2)).
  change (first_page_pdf_keys BUCKET_NAME (prefix_map style_choice) w2)
    with (first_page_pdf_keys BUCKET_NAME (prefix_map style_choice) w).
  apply (main_process_publishes style_choice _ objects chunks); try done.
  simpl. by rewrite Hf.
Qed.
End MainSuccess.

(** ** [main]: what the success report means *)

Lemma preserves_or_bind {A B} (P : event -> Prop) (W : string -> string -> Prop)
    (Q : World -> Prop) (m : M A) (k : A -> M B) :
  preserves P W m ->
  (forall a w, frame P W w (snd (k a w)) \/ Q (snd (k a w))) ->
  forall w, frame P W w (snd (bind m k w)) \/ Q (snd (bind m k w)).
Proof.
  intros Hm Hk w. unfold bind. specialize (Hm w).
  destruct (m w) as [[a|e] w1]; [|by left].
  destruct (Hk a w1) as [Hf|Hq]; [left; by eapply frame_trans | by right].
Qed.

Section MainReport.

Variable pypdf_pages : string -> string -> option (list Document).
Variable split_documents : Z -> Z -> list Document -> result (list Document).
Variable titan_embed : string -> Vector.
Variable faiss_write_index : list Vector -> string.
Variable pickle_dumps : list Document -> string.
Variable BUCKET_NAME : string.

Lemma no_other_success_report (style_choice : StyleChoice) :
  (forall k message, k <> UiSuccess -> EvUi k message <> success_report style_choice)
  /\ EvUi UiSuccess ("Created new S3 bucket: " +:+ BUCKET_NAME) <> success_report style_choice.
Proof. split; [by intros k message Hk [= -> _] | intros [= H]; discriminate]. Qed.

(** Lines 165-201: the success report appears there and only there. *)
Lemma main_process_outcome (style_choice : StyleChoice) (pdf_files : list string) :
  forall w,
    let w' := snd (main_process pypdf_pages split_documents titan_embed faiss_write_index
                                pickle_dumps BUCKET_NAME style_choice pdf_files w) in
    frame (fun ev => ev <> success_report style_choice) (fun _ _ => True) w w'
    \/ reported_after_publication titan_embed faiss_write_index pickle_dumps BUCKET_NAME
       style_choice w'.
Proof.
  destruct (no_other_success_report style_choice) as [Hui _].
  unfold main_process. destruct pdf_files as [|pdf_file rest].
  { intros w. left. apply preserves_bind; [|intros _; apply preserves_ret].
    apply preserves_report, Hui. discriminate. }
  apply preserves_or_bind; [apply preserves_report, Hui; discriminate|]. intros _.
  apply preserves_or_bind; [intros w; apply frame_log, Hui; discriminate|].
  intros [|]; [|intros w; left; apply preserves_ret].
  apply preserves_or_bind; [by apply preserves_load_documents|].
  intros [|p all_pages]; [intros w; left; apply preserves_ret|].
  apply preserves_or_bind; [by apply preserves_split_text|]. intros splitted_docs.
  apply preserves_or_bind; [apply preserves_report, Hui; discriminate|]. intros _.
  apply preserves_or_bind; [by apply preserves_show_sample_chunks|]. intros _.
  apply preserves_or_bind; [apply preserves_report, Hui; discriminate|]. intros _.
  intros w5. unfold bind.
  pose proof (preserves_create_vector_store titan_embed faiss_write_index pickle_dumps
                BUCKET_NAME (fun ev => ev <> success_report style_choice) (fun _ _ => True)
                Hui (style_key_map style_choice) splitted_docs
                ltac:(done) ltac:(done) ltac:(done) ltac:(done) I I w5) as Hcvs.
  destruct (create_vector_store _ _ _ _ _ _ w5) as [[[|]|e] w6] eqn:Hrun; simpl in Hcvs.
  - right. by exists splitted_docs, w5, w6.
  - left. eapply frame_trans; [exact Hcvs|]. apply frame_log, Hui. discriminate.
  - by left.
Qed.

Lemma main_outcome (w : World) :
  let w' := snd (main pypdf_pages split_documents titan_embed faiss_write_index pickle_dumps
                      BUCKET_NAME w) in
  frame (fun ev => ev <> success_report (ui_radio w)) (fun _ _ => True) w w'
  \/ reported_after_publication titan_embed faiss_write_index pickle_dumps BUCKET_NAME
       (ui_radio w) w'.
Proof.
  destruct (no_other_success_report (ui_radio w)) as [Hui Hcreated].
  pose proof (preserves_main_select_style BUCKET_NAME
                (fun ev => ev <> success_report (ui_radio w)) (fun _ _ => True)
                Hui ltac:(done) ltac:(done) Hcreated w) as Hsel.
  unfold main, bind at 1 3.
  destruct (main_select_style BUCKET_NAME w) as [[[style_choice|]|e] w1] eqn:Hrun;
    [|by left|by left].
  apply main_select_style_choice in Hrun as ->. simpl in Hsel.
  destruct (preserves_or_bind (fun ev => ev <> success_report (ui_radio w)) (fun _ _ => True)
              (reported_after_publication titan_embed faiss_write_index pickle_dumps BUCKET_NAME
       (ui_radio w))
              (list_pdfs_in_s3 BUCKET_NAME (prefix_map (ui_radio w)))
              (main_process pypdf_pages split_documents titan_embed faiss_write_index
                            pickle_dumps BUCKET_NAME (ui_radio w))
              ltac:(by apply preserves_list_pdfs_in_s3)
              ltac:(intros pdf_files w2; apply main_process_outcome) w1) as [Hf|Hq].
  - left. eapply frame_trans; [exact Hsel | exact Hf].
  - right. exact Hq.
Qed.

(** Every run of [main] starts with the banner. *)
Lemma main_trace_banner (w : World) :
  exists evs,
    trace (snd (main pypdf_pages split_documents titan_embed faiss_write_index pickle_dumps
                     BUCKET_NAME w))
    = trace w ++ banner ++ evs.
Proof.
  assert (forall w0 w1, frame (fun _ => True) (fun _ _ => True) w0 w1 ->
                        exists evs, trace w1 = trace w0 ++ evs) as Hgrow
    by (intros w0 w1 ((evs & Ht & _) & _); eauto).
  rewrite main_run.
  pose proof (preserves_ensure_bucket_exists BUCKET_NAME (fun _ => True) (fun _ _ => True)
                ltac:(done) I I I (advance 0 banner w)) as He.
  destruct (ensure_bucket_exists BUCKET_NAME _) as [[[|]|e] w1]; simpl in He;
    apply Hgrow in He as (evs1 & Ht1); simpl in Ht1.
  - assert (preserves (fun _ => True) (fun _ _ => True)
              (pdf_files ← list_pdfs_in_s3 BUCKET_NAME (prefix_map (ui_radio w1));
               main_process pypdf_pages split_documents titan_embed faiss_write_index
                            pickle_dumps BUCKET_NAME (ui_radio w1) pdf_files)) as Hrest.
    { apply preserves_bind; [by apply preserves_list_pdfs_in_s3|].
      intros pdf_files. by apply preserves_main_process. }
    specialize (Hrest (advance 0 (selection (ui_radio w1)) w1)).
    apply Hgrow in Hrest as (evs2 & Ht2).
    exists (evs1 ++ selection (ui_radio w1) ++ evs2).
    rewrite Ht2. simpl. rewrite Ht1. by rewrite <- !app_assoc.
  - exists (evs1 ++ [bucket_failure]). simpl. rewrite Ht1. by rewrite <- !app_assoc.
  - exists evs1. simpl. rewrite Ht1. by rewrite <- !app_assoc.
Qed.

(** X12. The success report of line 199 is truthful, whatever fails: when
    it is the last report of a run of [main], both artifact files of the
    selected style are published, built from one and the same list of
    chunks. *)
Theorem success_report_is_truthful (w : World) :
  let w' := snd (main pypdf_pages split_documents titan_embed faiss_write_index pickle_dumps
                      BUCKET_NAME w) in
  last (trace w') = Some (success_report (ui_radio w)) ->
  exists chunks,
    published BUCKET_NAME w' (faiss_index_file (style_key_map (ui_radio w)))
    = Some (faiss_write_index (List.map titan_embed (List.map page_content chunks)))
    /\ published BUCKET_NAME w' (faiss_pkl_file (style_key_map (ui_radio w)))
       = Some (pickle_dumps chunks).
Proof.
  intros w' Hlast. destruct (main_outcome w) as [Hf|(chunks & w5 & w6 & Hrun & Hw')].
  - exfalso. destruct Hf as ((evs & Ht & Hp) & _).
    destruct (main_trace_banner w) as (evs' & Ht').
    fold w' in Ht, Ht'. rewrite Ht in Ht'. apply app_inv_head in Ht'. subst evs.
    rewrite Ht in Hlast. unfold banner in Hlast. simpl in Hlast.
    rewrite last_app_cons in Hlast. apply last_Some_elem_of in Hlast.
    rewrite Forall_forall in Hp. apply (Hp (success_report (ui_radio w))); [|reflexivity].
    exact Hlast.
  - fold w' in Hw'. exists chunks.
    pose proof (create_vector_store_run titan_embed faiss_write_index pickle_dumps BUCKET_NAME
                  (style_key_map (ui_radio w)) chunks w5) as Hspec.
    cbv zeta in Hspec. rewrite Hrun in Hspec.
    destruct (first_fault _ _) as [[i e]|]; [by destruct Hspec|].
    destruct Hspec as (_ & _ & _ & _ & _ & _ & Hi & Hpk & _).
    rewrite Hw'. by split.
Qed.

End MainReport.

(** ** The script as a whole *)

Section Script.

Variable pypdf_pages : string -> string -> option (list Document).
Variable split_documents : Z -> Z -> list Document -> result (list Document).
Variable titan_embed : string -> Vector.
Variable faiss_write_index : list Vector -> string.
Variable pickle_dumps : list Document -> string.

(** X13. Run as a script with [BUCKET_NAME] configured, in the environment
    or in [.env], every storage call goes to that bucket, and no object but
    the two artifact files of the selected style is changed, in any
    bucket. *)
Theorem admin_module_stays_in_configured_bucket (BUCKET_NAME : string) (w : World) :
  (os_environ w ∪ dotenv_file w) !! "BUCKET_NAME" = Some BUCKET_NAME ->
  let w' := snd (admin_module pypdf_pages split_documents titan_embed faiss_write_index
                              pickle_dumps w) in
  forallb (allowed_event BUCKET_NAME (prefix_map (ui_radio w)) (style_key_map (ui_radio w)))
          (events_since w w') = true
  /\ forall b key,
       ~ artifact_of BUCKET_NAME (style_key_map (ui_radio w)) b key ->
       published b w' key = published b w key.
Proof.
  intros Henv w'. subst w'. unfold admin_module, bind, load_dotenv, os_getenv. simpl.
  rewrite Henv. destruct BUCKET_NAME as [|c name].
  - simpl. split; [|reflexivity]. unfold events_since. simpl. by rewrite drop_all.
  - set (w0 := with_environ _ w).
    pose proof (main_frame pypdf_pages split_documents titan_embed faiss_write_index
                  pickle_dumps (String c name) w0) as Hframe.
    split; [exact (frame_events _ _ _ _ Hframe)|].
    intros b key Hn. by apply Hframe.
Qed.

End Script.

(** ** The further properties at concrete inputs *)

Lemma create_vector_store_succeeds_witness :
  let w := Bench.world EmailStyle [] in
  [Bench.chunk] <> []
  /\ pending_faults w = []
  /\ s3 w !! Bench.bucket = Some Bench.objects
  /\ exists w',
       create_vector_store Bench.titan_embed Bench.faiss_write_index Bench.pickle_dumps
                           Bench.bucket "mail" [Bench.chunk] w = (Ok true, w')
       /\ published Bench.bucket w' (faiss_index_file "mail")
          = Some (Bench.faiss_write_index
                    (List.map Bench.titan_embed (List.map page_content [Bench.chunk])))
       /\ published Bench.bucket w' (faiss_pkl_file "mail")
          = Some (Bench.pickle_dumps [Bench.chunk])
       /\ embed_requests (events_since w w') = List.map page_content [Bench.chunk]
       /\ uploads (events_since w w') = [faiss_index_file "mail"; faiss_pkl_file "mail"].
Proof.
  intros w.
  assert ([Bench.chunk] <> []) as Hdocs by discriminate.
  assert (pending_faults w = []) as Hf by reflexivity.
  assert (s3 w !! Bench.bucket = Some Bench.objects) as Hb by (vm_compute; reflexivity).
  split; [exact Hdocs|]. split; [exact Hf|]. split; [exact Hb|].
  exact (create_vector_store_succeeds Bench.titan_embed Bench.faiss_write_index
           Bench.pickle_dumps Bench.bucket "mail" [Bench.chunk] Bench.objects w Hdocs Hf Hb).
Defined.

(** A run for [normal] leaves the artifact pair of [mail] in place. *)
Lemma create_vector_store_keeps_other_styles_witness :
  let w := Bench.world NormalStyle [] in
  let w' := snd (create_vector_store Bench.titan_embed Bench.faiss_write_index
                                     Bench.pickle_dumps Bench.bucket "normal"
                                     [Bench.chunk] w) in
  "mail" <> "normal"
  /\ published Bench.bucket w' (faiss_index_file "mail")
     = published Bench.bucket w (faiss_index_file "mail")
  /\ published Bench.bucket w' (faiss_pkl_file "mail")
     = published Bench.bucket w (faiss_pkl_file "mail").
Proof.
  intros w w'. assert ("mail" <> "normal") as Hne by discriminate.
  split; [exact Hne|].
  exact (proj2 (create_vector_store_keeps_other_styles Bench.titan_embed
                  Bench.faiss_write_index Bench.pickle_dumps Bench.bucket "normal"
                  [Bench.chunk] w) "mail" Hne).
Defined.

Lemma download_and_process_pdf_success_witness :
  let w := Bench.world EmailStyle [] in
  let w1 := snd (download_and_process_pdf Bench.pypdf_pages Bench.bucket "mail/a.pdf" w) in
  download_and_process_pdf Bench.pypdf_pages Bench.bucket "mail/a.pdf" w
  = (Ok (Some [Bench.chunk]), w1)
  /\ exists bytes,
       published Bench.bucket w "mail/a.pdf" = Some bytes
       /\ tmp_files w1 !! ("/tmp/" +:+ Py.basename "mail/a.pdf") = Some bytes
       /\ Bench.pypdf_pages ("/tmp/" +:+ Py.basename "mail/a.pdf") bytes = Some [Bench.chunk]
       /\ s3 w1 = s3 w.
Proof.
  intros w w1.
  assert (download_and_process_pdf Bench.pypdf_pages Bench.bucket "mail/a.pdf" w
          = (Ok (Some [Bench.chunk]), w1)) as Hrun by (vm_compute; reflexivity).
  split; [exact Hrun|].
  exact (download_and_process_pdf_success Bench.pypdf_pages Bench.bucket "mail/a.pdf"
           [Bench.chunk] w w1 Hrun).
Defined.

(** A whole run for [mail] leaves the source documents as they were. *)
Lemma main_writes_only_artifacts_witness :
  let w := Bench.world EmailStyle [] in
  ~ artifact_of Bench.bucket (style_key_map (ui_radio w)) Bench.bucket "mail/a.pdf"
  /\ published Bench.bucket
       (snd (main Bench.pypdf_pages SpecChunker.split_documents Bench.titan_embed
                  Bench.faiss_write_index Bench.pickle_dumps Bench.bucket w)) "mail/a.pdf"
     = published Bench.bucket w "mail/a.pdf".
Proof.
  intros w.
  assert (~ artifact_of Bench.bucket (style_key_map (ui_radio w)) Bench.bucket "mail/a.pdf")
    as Hn by (intros [_ [H|H]]; discriminate).
  split; [exact Hn|].
  exact (main_writes_only_artifacts Bench.pypdf_pages SpecChunker.split_documents
           Bench.titan_embed Bench.faiss_write_index Bench.pickle_dumps Bench.bucket
           w Bench.bucket "mail/a.pdf" Hn).
Defined.

Lemma main_idle_without_button_witness :
  let w := mkWorld ∅ ∅ (<[Bench.bucket := Bench.objects]> ∅) ∅ EmailStyle false [] [] in
  let w' := snd (main Bench.pypdf_pages SpecChunker.split_documents Bench.titan_embed
                      Bench.faiss_write_index Bench.pickle_dumps Bench.bucket w) in
  ui_button w = false
  /\ no_processing_event (events_since w w')
  /\ forall b key, published b w' key = published b w key.
Proof.
  intros w w'. assert (ui_button w = false) as Hb by reflexivity.
  split; [exact Hb|].
  exact (main_idle_without_button Bench.pypdf_pages SpecChunker.split_documents
           Bench.titan_embed Bench.faiss_write_index Bench.pickle_dumps Bench.bucket w Hb).
Defined.

Lemma main_without_pages_witness :
  let w := Bench.unreadable_world in
  let w' := snd (main Bench.pypdf_pages SpecChunker.split_documents Bench.titan_embed
                      Bench.faiss_write_index Bench.pickle_dumps Bench.bucket w) in
  pdf_keys Bench.bucket (prefix_map (ui_radio w)) w = ["normal/broken.pdf"]
  /\ readable_pages Bench.pypdf_pages Bench.bucket w "normal/broken.pdf" = []
  /\ forallb (fun ev => negb (is_indexing_event ev)) (events_since w w') = true
  /\ forall b key, published b w' key = published b w key.
Proof.
  intros w w'.
  assert (pdf_keys Bench.bucket (prefix_map (ui_radio w)) w = ["normal/broken.pdf"]) as Hkeys
    by (vm_compute; reflexivity).
  assert (readable_pages Bench.pypdf_pages Bench.bucket w "normal/broken.pdf" = []) as Hnone
    by (vm_compute; reflexivity).
  split; [exact Hkeys|]. split; [exact Hnone|].
  apply (main_without_pages Bench.pypdf_pages SpecChunker.split_documents Bench.titan_embed
           Bench.faiss_write_index Bench.pickle_dumps Bench.bucket w).
  intros key Hin. rewrite Hkeys in Hin. apply list_elem_of_singleton in Hin as ->.
  exact Hnone.
Defined.

(** Three PDFs in mixed case: the index holds their pages in the order
    of the listing. *)
Lemma main_publishes_index_witness :
  let w := Bench.mixed_world [] in
  let chunks := [mkDocument "last letter" "/tmp/Z.Pdf" 0;
                 mkDocument "first letter" "/tmp/a.PDF" 0;
                 mkDocument "second letter" "/tmp/b.pdf" 0] in
  let pages :=
    List.flat_map (readable_pages Bench.pypdf_pages Bench.bucket w)
                  (first_page_pdf_keys Bench.bucket (prefix_map (ui_radio w)) w) in
  pending_faults w = []
  /\ s3 w !! Bench.bucket = Some Bench.mixed_objects
  /\ ui_button w = true
  /\ pages <> []
  /\ SpecChunker.split_documents 1000 200 pages = Ok chunks
  /\ chunks <> []
  /\ exists w',
       main Bench.pypdf_pages SpecChunker.split_documents Bench.titan_embed
            Bench.faiss_write_index Bench.pickle_dumps Bench.bucket w = (Ok tt, w')
       /\ published Bench.bucket w' (faiss_index_file (style_key_map (ui_radio w)))
          = Some (Bench.faiss_write_index
                    (List.map Bench.titan_embed (List.map page_content chunks)))
       /\ published Bench.bucket w' (faiss_pkl_file (style_key_map (ui_radio w)))
          = Some (Bench.pickle_dumps chunks)
       /\ last (trace w') = Some (success_report (ui_radio w)).
Proof.
  intros w chunks pages.
  assert (pending_faults w = []) as Hf by reflexivity.
  assert (s3 w !! Bench.bucket = Some Bench.mixed_objects) as Hb by (vm_compute; reflexivity).
  assert (ui_button w = true) as Hbutton by reflexivity.
  assert (pages <> []) as Hpages by (vm_compute; discriminate).
  assert (SpecChunker.split_documents 1000 200 pages = Ok chunks) as Hsplit
    by (vm_compute; reflexivity).
  assert (chunks <> []) as Hchunks by discriminate.
  repeat (split; [assumption|]).
  exact (main_publishes_index Bench.pypdf_pages SpecChunker.split_documents Bench.titan_embed
           Bench.faiss_write_index Bench.pickle_dumps Bench.bucket Bench.mixed_objects
           chunks w Hf Hb Hbutton Hpages Hsplit Hchunks).
Defined.

(** The listing of the keys in mixed case. *)
Lemma list_pdfs_in_s3_first_page_witness :
  let w := Bench.mixed_world [] in
  next_fault w = None
  /\ s3 w !! Bench.bucket = Some Bench.mixed_objects
  /\ (length (listed_keys "mail/" Bench.mixed_objects) <= 1000)%nat
  /\ exists pdf_files,
       list_pdfs_in_s3 Bench.bucket "mail/" w
       = (Ok pdf_files, advance 1 [EvListObjects Bench.bucket "mail/"] w)
       /\ StronglySorted key_le pdf_files
       /\ forall k,
            k ∈ pdf_files <->
            is_Some (Bench.mixed_objects !! k) /\ (exists rest, k = "mail/" +:+ rest)
            /\ pdf_suffix k.
Proof.
  intros w.
  assert (next_fault w = None) as Hn by reflexivity.
  assert (s3 w !! Bench.bucket = Some Bench.mixed_objects) as Hb by (vm_compute; reflexivity).
  assert (length (listed_keys "mail/" Bench.mixed_objects) <= 1000)%nat as Hlen
    by (vm_compute; lia).
  split; [exact Hn|]. split; [exact Hb|]. split; [exact Hlen|].
  destruct (list_pdfs_in_s3_first_page Bench.bucket "mail/" Bench.mixed_objects w Hn Hb)
    as (pdf_files & Hrun & Hsorted & _ & _ & Hall).
  exists pdf_files. split; [exact Hrun|]. split; [exact Hsorted|]. exact (Hall Hlen).
Defined.

Lemma success_report_is_truthful_witness :
  let w := Bench.world EmailStyle [] in
  let w' := snd (main Bench.pypdf_pages SpecChunker.split_documents Bench.titan_embed
                      Bench.faiss_write_index Bench.pickle_dumps Bench.bucket w) in
  last (trace w') = Some (success_report (ui_radio w))
  /\ exists chunks,
       published Bench.bucket w' (faiss_index_file (style_key_map (ui_radio w)))
       = Some (Bench.faiss_write_index
                 (List.map Bench.titan_embed (List.map page_content chunks)))
       /\ published Bench.bucket w' (faiss_pkl_file (style_key_map (ui_radio w)))
          = Some (Bench.pickle_dumps chunks).
Proof.
  intros w w'.
  assert (last (trace w') = Some (success_report (ui_radio w))) as Hlast
    by (vm_compute; reflexivity).
  split; [exact Hlast|].
  exact (success_report_is_truthful Bench.pypdf_pages SpecChunker.split_documents
           Bench.titan_embed Bench.faiss_write_index Bench.pickle_dumps Bench.bucket w Hlast).
Defined.

Lemma admin_module_stays_in_configured_bucket_witness :
  let w := Bench.world EmailStyle [None; None; None; None; None; None; None; None;
                                   Some Bench.connection_error] in
  let w' := snd (admin_module Bench.pypdf_pages SpecChunker.split_documents Bench.titan_embed
                              Bench.faiss_write_index Bench.pickle_dumps w) in
  (os_environ w ∪ dotenv_file w) !! "BUCKET_NAME" = Some Bench.bucket
  /\ forallb (allowed_event Bench.bucket (prefix_map (ui_radio w))
                            (style_key_map (ui_radio w)))
             (events_since w w') = true
  /\ forall b key,
       ~ artifact_of Bench.bucket (style_key_map (ui_radio w)) b key ->
       published b w' key = published b w key.
Proof.
  intros w w'.
  assert ((os_environ w ∪ dotenv_file w) !! "BUCKET_NAME" = Some Bench.bucket) as Henv
    by (vm_compute; reflexivity).
  split; [exact Henv|].
  exact (admin_module_stays_in_configured_bucket Bench.pypdf_pages SpecChunker.split_documents
           Bench.titan_embed Bench.faiss_write_index Bench.pickle_dumps Bench.bucket w Henv).
Defined.
